(** * Weekend picker: candidate generation, constraint evaluation and ranking

    A shallow embedding of [weekend_picker/models.py],
    [weekend_picker/candidates.py] and [weekend_picker/optimizer.py],
    followed by the properties of the ranking engine. *)

From Stdlib Require Import ZArith Lia List String Ascii DecimalString Permutation Sorted.
From stdpp Require Import base tactics option list sorting gmap strings.
From Equations Require Import Equations.
From Corelib Require PrimFloat.

Local Open Scope Z_scope.

(** ** Python exceptions and fallible results *)

Inductive exn := OverflowError.

Inductive result (A : Type) :=
| Ok (a : A)
| Raise (e : exn).
Arguments Ok {A} a.
Arguments Raise {A} e.

(** Sequencing stops at the first exception; stdpp's [x ← r; k] notation. *)
#[global] Instance result_ret : MRet result := @Ok.
#[global] Instance result_bind : MBind result := fun A B k r =>
  match r with
  | Ok a => k a
  | Raise e => Raise e
  end.

(** ** [datetime.date]

    A [date] is identified with its proleptic Gregorian ordinal, the value of
    [date.toordinal()]: 1 is 0001-01-01 and [_MAXORDINAL] is 9999-12-31.
    Equality, ordering, hashing, [weekday()] and [timedelta] arithmetic of
    CPython are functions of that ordinal; the calendar fields are recovered
    with [_ord2ymd] as CPython does. *)

Module Datetime.

Abbreviation date := Z (only parsing).

Definition MINYEAR : Z := 1.
Definition MAXYEAR : Z := 9999.
Definition _MAXORDINAL : Z := 3652059.

(** The ordinals that are dates: [date.min .. date.max]. *)
Definition date_ok (d : date) : Prop := 1 <= d <= _MAXORDINAL.

(** [date.weekday()]: Monday is 0, Sunday is 6. *)
Definition weekday (d : date) : Z := (d + 6) mod 7.

(** [d + timedelta(days=n)]: [OverflowError] outside [date.min .. date.max]. *)
Definition date_add (d : date) (days : Z) : result date :=
  let o := d + days in
  if (0 <? o) && (o <=? _MAXORDINAL) then Ok o else Raise OverflowError.

Definition _DAYS_IN_MONTH (month : Z) : Z :=
  match month with
  | 1 => 31 | 2 => 28 | 3 => 31 | 4 => 30 | 5 => 31 | 6 => 30
  | 7 => 31 | 8 => 31 | 9 => 30 | 10 => 31 | 11 => 30 | 12 => 31
  | _ => -1
  end.

Definition _DAYS_BEFORE_MONTH (month : Z) : Z :=
  match month with
  | 1 => 0 | 2 => 31 | 3 => 59 | 4 => 90 | 5 => 120 | 6 => 151
  | 7 => 181 | 8 => 212 | 9 => 243 | 10 => 273 | 11 => 304 | 12 => 334
  | _ => -1
  end.

Definition _is_leap (year : Z) : bool :=
  (year mod 4 =? 0) && (negb (year mod 100 =? 0) || (year mod 400 =? 0)).

Definition _days_before_year (year : Z) : Z :=
  let y := year - 1 in y * 365 + y / 4 - y / 100 + y / 400.

Definition _days_before_month (year month : Z) : Z :=
  _DAYS_BEFORE_MONTH month + (if (2 <? month) && _is_leap year then 1 else 0).

(** [date(year, month, day).toordinal()]. *)
Definition _ymd2ord (year month day : Z) : date :=
  _days_before_year year + _days_before_month year month + day.

Definition _DI400Y : Z := 146097.
Definition _DI100Y : Z := 36524.
Definition _DI4Y : Z := 1461.

(** [(year, month, day)] of an ordinal. *)
Definition _ord2ymd (n : date) : Z * Z * Z :=
  let n := n - 1 in
  let n400 := n / _DI400Y in
  let n := n mod _DI400Y in
  let year := n400 * 400 + 1 in
  let n100 := n / _DI100Y in
  let n := n mod _DI100Y in
  let n4 := n / _DI4Y in
  let n := n mod _DI4Y in
  let n1 := n / 365 in
  let n := n mod 365 in
  let year := year + (n100 * 100 + n4 * 4 + n1) in
  if (n1 =? 4) || (n100 =? 4) then (year - 1, 12, 31)
  else
    let leapyear := (n1 =? 3) && (negb (n4 =? 24) || (n100 =? 3)) in
    let month := Z.shiftr (n + 50) 5 in
    let preceding :=
      _DAYS_BEFORE_MONTH month + (if (2 <? month) && leapyear then 1 else 0) in
    if n <? preceding then
      let month := month - 1 in
      let preceding :=
        preceding
        - (_DAYS_IN_MONTH month + (if (month =? 2) && leapyear then 1 else 0)) in
      (year, month, n - preceding + 1)
    else (year, month, n - preceding + 1).

(** ["%0<width>d" % n] for a non-negative [n]. *)
Definition format_0d (width : nat) (n : Z) : string :=
  let digits := NilZero.string_of_uint (N.to_uint (Z.to_N n)) in
  String.concat "" (repeat "0" (width - String.length digits)%nat) +:+ digits.

(** [date.isoformat()]: ["%04d-%02d-%02d" % (year, month, day)]. *)
Definition isoformat (d : date) : string :=
  let '(year, month, day) := _ord2ymd d in
  format_0d 4 year +:+ "-" +:+ format_0d 2 month +:+ "-" +:+ format_0d 2 day.

End Datetime.

(** ** [weekend_picker/models.py] *)

Module Models.
Import Datetime.

Record DateConstraint := {
  kind : string;
  date_value : option date;
  start_date : option date;
  end_date : option date
}.

(** [DateConstraint.overlaps_date]. *)
Definition overlaps_date (self : DateConstraint) (target_date : date) : bool :=
  if String.eqb (kind self) "date" then
    match date_value self with
    | Some d => d =? target_date
    | None => false
    end
  else
    match start_date self, end_date self with
    | Some s, Some e => (s <=? target_date) && (target_date <=? e)
    | _, _ => false
    end.

(** [DateConstraint.describe]. *)
Definition describe (self : DateConstraint) : string :=
  match String.eqb (kind self) "date", date_value self with
  | true, Some d => "date:" +:+ isoformat d
  | _, _ =>
    match start_date self, end_date self with
    | Some s, Some e => "interval:" +:+ isoformat s +:+ ".." +:+ isoformat e
    | _, _ => "interval:invalid"
    end
  end.

Record PersonConstraints := {
  name : string;
  hard_constraints : list DateConstraint;
  soft_constraints : list DateConstraint
}.

Record InputData := {
  min_date : date;
  max_date : date;
  people : list PersonConstraints
}.

End Models.

(** ** [weekend_picker/candidates.py] *)

Module Candidates.
Import Datetime.

Record WeekendCandidate := {
  start_date : date;
  end_date : date;
  days : date * date * date
}.

(** [_first_friday_on_or_after]; Python's [%] with a positive divisor is
    [Z.modulo]. *)
Definition _first_friday_on_or_after (input_date : date) : result date :=
  let friday_weekday := 4 in
  let day_offset := (friday_weekday - weekday input_date) mod 7 in
  date_add input_date day_offset.

(** How one pass through the body of the [while] loop ends: at the [break],
    or at the bottom with the next Friday. *)
Inductive loop_exit :=
| Break (candidates : list WeekendCandidate)
| Continue (current_friday : date) (candidates : list WeekendCandidate).

(** The body of the [while] loop of [generate_weekend_candidates]. *)
Definition loop_body (min_date max_date current_friday : date)
    (candidates : list WeekendCandidate) : result loop_exit :=
  saturday ← date_add current_friday 1;
  sunday ← date_add current_friday 2;
  if max_date <? sunday then Ok (Break candidates)
  else
    let candidates :=
      if min_date <=? current_friday then
        candidates ++ [ {| start_date := current_friday;
                           end_date := sunday;
                           days := (current_friday, saturday, sunday) |} ]
      else candidates in
    current_friday ← date_add current_friday 7;
    Ok (Continue current_friday candidates).

Definition inspect {A} (a : A) : {b : A | a = b} := exist _ a eq_refl.

Lemma loop_body_continue min_date max_date current_friday candidates next candidates' :
  loop_body min_date max_date current_friday candidates = Ok (Continue next candidates') ->
  next = current_friday + 7.
Proof.
  unfold loop_body, date_add, mbind, result_bind.
  destruct (_ && _); [|discriminate].
  destruct (_ && _); [|discriminate].
  destruct (max_date <? _); [discriminate|].
  destruct (_ && _); [|discriminate].
  intros [= <- _]. reflexivity.
Qed.

(** The [while current_friday <= max_date] loop. It terminates because every
    pass that continues moves [current_friday] seven days closer to
    [max_date]. *)
Equations? while_loop (min_date max_date current_friday : date)
    (candidates : list WeekendCandidate) : result (list WeekendCandidate)
    by wf (Z.to_nat (max_date - current_friday + 1)) lt :=
while_loop min_date max_date current_friday candidates
    with Z_le_dec current_friday max_date := {
  | right _ => Ok candidates
  | left Hle with inspect (loop_body min_date max_date current_friday candidates) := {
    | exist _ (Raise e) _ => Raise e
    | exist _ (Ok (Break candidates')) _ => Ok candidates'
    | exist _ (Ok (Continue next candidates')) Heq =>
        while_loop min_date max_date next candidates'
    }
  }.
Proof.
  apply loop_body_continue in Heq. lia.
Qed.

(** [generate_weekend_candidates]. *)
Definition generate_weekend_candidates (min_date max_date : date)
    : result (list WeekendCandidate) :=
  first_friday ← _first_friday_on_or_after min_date;
  while_loop min_date max_date first_friday [].

End Candidates.

(** ** Python built-ins used by the optimizer *)

Module Builtins.

(** [list.sort(key=...)] and [sorted(...)]: a stable sort that compares keys
    with [<] only. Each element is put in front of the first one whose key
    is not smaller than its own, so elements with equal keys keep their
    order. *)
Section Sort.
Context {A K : Type} (key : A -> K) (ltb : K -> K -> bool).

Fixpoint insert_by (x : A) (l : list A) : list A :=
  match l with
  | [] => [x]
  | y :: l' => if ltb (key y) (key x) then y :: insert_by x l' else x :: y :: l'
  end.

Definition sort_by (l : list A) : list A := foldr insert_by [] l.
End Sort.

(** [a < b] on 4-tuples: the first position where they differ decides. *)
Definition tuple_ltb (a b : Z * Z * Z * Z) : bool :=
  let '(a1, a2, a3, a4) := a in
  let '(b1, b2, b3, b4) := b in
  if negb (a1 =? b1) then a1 <? b1
  else if negb (a2 =? b2) then a2 <? b2
  else if negb (a3 =? b3) then a3 <? b3
  else a4 <? b4.

(** [l[:stop]]: a negative [stop] counts from the end. *)
Definition slice_to {A} (l : list A) (stop : Z) : list A :=
  if stop <? 0 then take (length l - Z.to_nat (- stop)) l
  else take (Z.to_nat stop) l.

(** [sum(...)] of integers. *)
Definition sum (l : list Z) : Z := foldl Z.add 0 l.

(** [len(...)]. *)
Definition len {A} (l : list A) : Z := Z.of_nat (length l).

End Builtins.

(** ** [weekend_picker/optimizer.py] *)

Module PersonSoftImpact.
Record t := {
  person_name : string;
  overlapped_dates : list Z;
  matched_constraints : list string
}.
End PersonSoftImpact.

Module PersonHardImpact.
Record t := {
  person_name : string;
  overlapped_dates : list Z;
  matched_constraints : list string
}.
End PersonHardImpact.

Module Optimizer.
Import Datetime Builtins.
Import Models(DateConstraint, overlaps_date, describe, PersonConstraints, InputData).
Import Candidates(WeekendCandidate).

Record WeekendEvaluation := {
  weekend : WeekendCandidate;
  selection_mode : string;
  hard_affected_people_count : Z;
  fully_feasible_people_count : Z;
  affected_people_count : Z;
  total_soft_overlap_days : Z;
  affected_people : list PersonSoftImpact.t;
  hard_affected_people : list PersonHardImpact.t
}.

(** The three days of a [tuple[date, date, date]], in order. *)
Definition tuple_days (weekend_days : date * date * date) : list date :=
  let '(friday, saturday, sunday) := weekend_days in [friday; saturday; sunday].

(** [_constraint_overlaps_any_weekend_day]. *)
Definition _constraint_overlaps_any_weekend_day
    (constraint : DateConstraint) (weekend_days : date * date * date) : bool :=
  existsb (overlaps_date constraint) (tuple_days weekend_days).

(** The [for constraint in ...] loop that [_evaluate_person_hard_impact] and
    [_evaluate_person_soft_impact] both run, over the hard and over the soft
    constraints; its state is the set [overlapped_dates] and the list
    [matched_constraints]. *)
Definition scan_constraints (constraints : list DateConstraint)
    (weekend_days : date * date * date) : gset Z * list string :=
  foldl
    (fun '(overlapped_dates, matched_constraints) constraint =>
       let matched_days :=
         List.filter (overlaps_date constraint) (tuple_days weekend_days) in
       match matched_days with
       | [] => (overlapped_dates, matched_constraints)
       | _ :: _ =>
         (overlapped_dates ∪ list_to_set matched_days,
          matched_constraints ++ [describe constraint])
       end)
    (∅, []) constraints.

(** [sorted(overlapped_dates)] of a set of dates. *)
Definition sorted_dates (overlapped_dates : gset Z) : list date :=
  sort_by id Z.ltb (elements overlapped_dates).

(** [_evaluate_person_hard_impact]. *)
Definition _evaluate_person_hard_impact (person : PersonConstraints)
    (weekend_days : date * date * date) : option PersonHardImpact.t :=
  let '(overlapped_dates, matched_constraints) :=
    scan_constraints (Models.hard_constraints person) weekend_days in
  if decide (overlapped_dates = ∅) then None
  else Some {| PersonHardImpact.person_name := Models.name person;
               PersonHardImpact.overlapped_dates := sorted_dates overlapped_dates;
               PersonHardImpact.matched_constraints := matched_constraints |}.

(** [_evaluate_person_soft_impact]. *)
Definition _evaluate_person_soft_impact (person : PersonConstraints)
    (weekend_days : date * date * date) : option PersonSoftImpact.t :=
  let '(overlapped_dates, matched_constraints) :=
    scan_constraints (Models.soft_constraints person) weekend_days in
  if decide (overlapped_dates = ∅) then None
  else Some {| PersonSoftImpact.person_name := Models.name person;
               PersonSoftImpact.overlapped_dates := sorted_dates overlapped_dates;
               PersonSoftImpact.matched_constraints := matched_constraints |}.

(** [_evaluate_weekend_relaxed]. *)
Definition _evaluate_weekend_relaxed (input_data : InputData)
    (weekend : WeekendCandidate) : WeekendEvaluation :=
  let hard_affected_people :=
    omap (fun person => _evaluate_person_hard_impact person (Candidates.days weekend))
         (Models.people input_data) in
  let affected_people :=
    omap (fun person => _evaluate_person_soft_impact person (Candidates.days weekend))
         (Models.people input_data) in
  let affected_people_count := len affected_people in
  let fully_feasible_count := len (Models.people input_data) - affected_people_count in
  let hard_affected_people_count := len hard_affected_people in
  let total_soft_overlap_days :=
    sum (map (fun person_impact => len (PersonSoftImpact.overlapped_dates person_impact))
             affected_people) in
  {| weekend := weekend;
     selection_mode := "fallback_hard";
     hard_affected_people_count := hard_affected_people_count;
     fully_feasible_people_count := fully_feasible_count;
     affected_people_count := affected_people_count;
     total_soft_overlap_days := total_soft_overlap_days;
     affected_people := affected_people;
     hard_affected_people := hard_affected_people |}.

(** [evaluate_weekend]. *)
Definition evaluate_weekend (input_data : InputData)
    (weekend : WeekendCandidate) : option WeekendEvaluation :=
  let evaluation := _evaluate_weekend_relaxed input_data weekend in
  if 0 <? hard_affected_people_count evaluation then None
  else Some {| weekend := Optimizer.weekend evaluation;
               selection_mode := "strict_hard";
               hard_affected_people_count := 0;
               fully_feasible_people_count := fully_feasible_people_count evaluation;
               affected_people_count := affected_people_count evaluation;
               total_soft_overlap_days := total_soft_overlap_days evaluation;
               affected_people := affected_people evaluation;
               hard_affected_people := [] |}.

(** The sort key of the strict phase. *)
Definition strict_key (item : WeekendEvaluation) : Z * Z * Z * Z :=
  (- fully_feasible_people_count item,
   affected_people_count item,
   total_soft_overlap_days item,
   Candidates.start_date (weekend item)).

(** The sort key of the fallback phase. *)
Definition fallback_key (item : WeekendEvaluation) : Z * Z * Z * Z :=
  (hard_affected_people_count item,
   affected_people_count item,
   total_soft_overlap_days item,
   Candidates.start_date (weekend item)).

(** [rank_weekends]. *)
Definition rank_weekends (input_data : InputData)
    (candidates : list WeekendCandidate) (top_n : Z) : list WeekendEvaluation :=
  if top_n <=? 0 then []
  else
    let strict_evaluations := omap (evaluate_weekend input_data) candidates in
    let strict_evaluations := sort_by strict_key tuple_ltb strict_evaluations in
    match strict_evaluations with
    | _ :: _ => slice_to strict_evaluations top_n
    | [] =>
      let relaxed_evaluations := map (_evaluate_weekend_relaxed input_data) candidates in
      let relaxed_evaluations := sort_by fallback_key tuple_ltb relaxed_evaluations in
      slice_to relaxed_evaluations top_n
    end.

End Optimizer.

(** * Properties *)

(** ** Candidate generation *)

Section CandidateFacts.
Import Datetime Candidates.

(** Arithmetic with [mod] and [/] by constants. *)
(** The Friday-to-Sunday span that starts on [friday]. *)
Definition weekend_of (friday : date) : WeekendCandidate :=
  {| start_date := friday;
     end_date := friday + 2;
     days := (friday, friday + 1, friday + 2) |}.

(** [n] consecutive weekends, the first one starting on [friday]. *)
Fixpoint weekend_seq (friday : date) (n : nat) : list WeekendCandidate :=
  match n with
  | O => []
  | S n => weekend_of friday :: weekend_seq (friday + 7) n
  end.

(** How many whole weekends starting on [friday], [friday + 7], ... end by
    [max_date]. *)
Definition n_weekends (friday max_date : date) : nat :=
  Z.to_nat ((max_date - friday + 5) / 7).

(** Arithmetic with [mod] and [/] by constants. *)
Ltac zlia :=
  unfold n_weekends, weekday, date_ok, _MAXORDINAL in *;
  Z.div_mod_to_equations; lia.

Lemma while_loop_unfold min_date max_date current_friday candidates :
  while_loop min_date max_date current_friday candidates =
  if Z_le_dec current_friday max_date then
    match loop_body min_date max_date current_friday candidates with
    | Raise e => Raise e
    | Ok (Break candidates') => Ok candidates'
    | Ok (Continue next candidates') => while_loop min_date max_date next candidates'
    end
  else Ok candidates.
Proof.
  rewrite while_loop_equation_1. unfold while_loop_unfold_clause_1.
  destruct (Z_le_dec current_friday max_date); [|reflexivity].
  unfold while_loop_unfold_clause_1_clause_2, inspect.
  destruct (loop_body _ _ _ _) as [[?|? ?]|?]; reflexivity.
Qed.

Lemma date_add_ok d n : 0 < d + n <= _MAXORDINAL -> date_add d n = Ok (d + n).
Proof.
  intros [H1 H2]. unfold date_add.
  apply Z.ltb_lt in H1. apply Z.leb_le in H2. rewrite H1, H2. reflexivity.
Qed.

Lemma date_add_overflow d n : _MAXORDINAL < d + n -> date_add d n = Raise OverflowError.
Proof.
  intros H. unfold date_add.
  apply Z.leb_gt in H. rewrite H, andb_false_r. reflexivity.
Qed.

(** The calendar ends on a Friday: 9999-12-31. *)
Lemma weekday_MAXORDINAL : weekday _MAXORDINAL = 4.
Proof. reflexivity. Qed.

Lemma friday_below_MAXORDINAL d :
  weekday d = 4 -> d <= _MAXORDINAL -> d = _MAXORDINAL \/ d + 7 <= _MAXORDINAL.
Proof. zlia. Qed.

Lemma weekday_plus_7 d : weekday (d + 7) = weekday d.
Proof. zlia. Qed.

(** One pass through the loop body away from the end of the calendar. *)
Lemma loop_body_ok min_date max_date current_friday candidates :
  1 <= current_friday -> current_friday + 7 <= _MAXORDINAL ->
  loop_body min_date max_date current_friday candidates =
  Ok (if max_date <? current_friday + 2 then Break candidates
      else Continue (current_friday + 7)
             (if min_date <=? current_friday
              then candidates ++ [weekend_of current_friday] else candidates)).
Proof.
  intros H1 H7. unfold loop_body.
  rewrite !date_add_ok by lia. cbn.
  destruct (max_date <? current_friday + 2); reflexivity.
Qed.

(** [_first_friday_on_or_after] never overflows, because the last date is a
    Friday. *)
Lemma first_friday_ok d :
  date_ok d ->
  exists f, _first_friday_on_or_after d = Ok f /\
    weekday f = 4 /\ d <= f < d + 7 /\ f <= _MAXORDINAL.
Proof.
  intros Hd. exists (d + (4 - weekday d) mod 7).
  unfold _first_friday_on_or_after.
  rewrite date_add_ok by zlia. repeat split; zlia.
Qed.

(** The loop away from the end of the calendar: it appends every weekend that
    ends by [max_date]. *)
Lemma while_loop_weekends min_date max_date n :
  max_date < _MAXORDINAL ->
  forall current_friday candidates,
    weekday current_friday = 4 -> 1 <= current_friday ->
    min_date <= current_friday ->
    n_weekends current_friday max_date = n ->
    while_loop min_date max_date current_friday candidates =
    Ok (candidates ++ weekend_seq current_friday n).
Proof.
  intros Hmax. induction n as [|n IH]; intros cur acc Hfri H1 Hmin Hn;
    rewrite while_loop_unfold; unfold n_weekends in Hn.
  - destruct (Z_le_dec cur max_date) as [Hle|Hgt]; cbn; [|by rewrite app_nil_r].
    rewrite loop_body_ok by (destruct (friday_below_MAXORDINAL cur); lia).
    assert (max_date < cur + 2) as Hlt by zlia.
    apply Z.ltb_lt in Hlt. rewrite Hlt. by rewrite app_nil_r.
  - assert (cur + 2 <= max_date) as Hle2 by zlia.
    destruct (Z_le_dec cur max_date) as [Hle|Hgt]; [|lia].
    rewrite loop_body_ok by (destruct (friday_below_MAXORDINAL cur); lia).
    apply Z.ltb_ge in Hle2. rewrite Hle2.
    apply Z.leb_le in Hmin as Hmin'. rewrite Hmin'.
    rewrite (IH (cur + 7)); [by rewrite <- app_assoc | | lia | lia | zlia].
    by rewrite weekday_plus_7.
Qed.

(** The loop in a window that ends on the last date: the pass that reaches
    9999-12-31 asks for the Saturday after it. *)
Lemma while_loop_overflow min_date n :
  forall current_friday candidates,
    weekday current_friday = 4 -> 1 <= current_friday <= _MAXORDINAL ->
    _MAXORDINAL - current_friday < 7 * Z.of_nat n ->
    while_loop min_date _MAXORDINAL current_friday candidates = Raise OverflowError.
Proof.
  induction n as [|n IH]; intros cur acc Hfri [H1 Hle] Hn; [lia|].
  rewrite while_loop_unfold.
  destruct (Z_le_dec cur _MAXORDINAL) as [_|?]; [|lia].
  destruct (friday_below_MAXORDINAL cur Hfri Hle) as [->|H7].
  - reflexivity.
  - rewrite loop_body_ok by lia.
    assert ((_MAXORDINAL <? cur + 2) = false) as -> by (apply Z.ltb_ge; lia).
    apply IH; [(by rewrite weekday_plus_7) | lia | lia].
Qed.

Lemma weekend_seq_lookup friday n (i : nat) c :
  weekend_seq friday n !! i = Some c <->
  (i < n)%nat /\ c = weekend_of (friday + 7 * Z.of_nat i).
Proof.
  revert friday i. induction n as [|n IH]; intros f i; cbn.
  - split; [discriminate | lia].
  - destruct i as [|i]; cbn.
    + rewrite Z.add_0_r. split; [intros [= <-]; split; [lia|done] | by intros [_ ->]].
    + rewrite IH. replace (f + 7 + 7 * Z.of_nat i) with (f + 7 * Z.of_nat (S i)) by lia.
      split; intros [? ?]; split; (lia || done).
Qed.

Lemma weekend_seq_elem friday n c :
  c ∈ weekend_seq friday n <->
  exists k, 0 <= k < Z.of_nat n /\ c = weekend_of (friday + 7 * k).
Proof.
  rewrite list_elem_of_lookup. split.
  - intros [i Hi]. apply weekend_seq_lookup in Hi as [Hlt ->].
    exists (Z.of_nat i). split; [lia|done].
  - intros (k & Hk & ->). exists (Z.to_nat k). apply weekend_seq_lookup.
    split; [lia|]. by rewrite Z2Nat.id by lia.
Qed.

(** Consecutive elements start exactly seven days apart. *)
Definition weekly_steps (l : list WeekendCandidate) : Prop :=
  forall (i : nat) c1 c2,
    l !! i = Some c1 -> l !! S i = Some c2 -> start_date c2 = start_date c1 + 7.

(** Every element starts strictly before all the later ones. *)
Definition ascending_by_start (l : list WeekendCandidate) : Prop :=
  StronglySorted (fun c1 c2 => start_date c1 < start_date c2) l.

Lemma weekend_seq_weekly_steps friday n : weekly_steps (weekend_seq friday n).
Proof.
  intros i c1 c2 H1 H2.
  apply weekend_seq_lookup in H1 as [_ ->]. apply weekend_seq_lookup in H2 as [_ ->].
  cbn. lia.
Qed.

Lemma weekend_seq_ascending friday n : ascending_by_start (weekend_seq friday n).
Proof.
  revert friday. induction n as [|n IH]; intros f; cbn; constructor; [apply IH|].
  apply Forall_forall. intros c Hc.
  apply weekend_seq_elem in Hc as (k & Hk & ->). cbn. lia.
Qed.

Lemma ascending_by_start_NoDup l : ascending_by_start l -> NoDup l.
Proof.
  induction 1 as [|c l _ IH Hall]; constructor; [|done].
  intros Hin. rewrite Forall_forall in Hall. specialize (Hall c Hin). lia.
Qed.

(** In a window that ends before the last date, the call returns the
    weekends from the first Friday on, as many as end by [max_date]. *)
Lemma generate_weekend_candidates_ok min_date max_date :
  date_ok min_date -> max_date < _MAXORDINAL ->
  exists first_friday,
    _first_friday_on_or_after min_date = Ok first_friday /\
    weekday first_friday = 4 /\ min_date <= first_friday < min_date + 7 /\
    generate_weekend_candidates min_date max_date =
    Ok (weekend_seq first_friday (n_weekends first_friday max_date)).
Proof.
  intros Hmin Hmax.
  destruct (first_friday_ok min_date Hmin) as (f & Hf & Hfri & Hrange & _).
  exists f. repeat split; [done | done | lia | lia |].
  unfold generate_weekend_candidates. rewrite Hf. cbn.
  rewrite (while_loop_weekends _ _ (n_weekends f max_date)); [done | done | done | | lia | done].
  unfold date_ok in Hmin. lia.
Qed.

(** In a window that ends on the last date, 9999-12-31, the call raises. *)
Lemma generate_weekend_candidates_overflow min_date :
  date_ok min_date ->
  generate_weekend_candidates min_date _MAXORDINAL = Raise OverflowError.
Proof.
  intros Hmin.
  destruct (first_friday_ok min_date Hmin) as (f & Hf & Hfri & Hrange & Hle).
  unfold generate_weekend_candidates. rewrite Hf. cbn.
  apply (while_loop_overflow _ (Z.to_nat (_MAXORDINAL - f + 1))); [done | | lia].
  unfold date_ok in Hmin. lia.
Qed.

(** X1. The contract of the generator away from the end of the calendar: the
    call returns, every candidate is a Friday-to-Sunday span inside the
    window, and every such span is a candidate. *)
Lemma generate_weekend_candidates_exact min_date max_date :
  date_ok min_date -> date_ok max_date -> min_date <= max_date ->
  max_date < _MAXORDINAL ->
  exists l, generate_weekend_candidates min_date max_date = Ok l /\
    (forall c, c ∈ l ->
       weekday (start_date c) = 4 /\
       end_date c = start_date c + 2 /\
       days c = (start_date c, start_date c + 1, start_date c + 2) /\
       min_date <= start_date c /\ end_date c <= max_date) /\
    (forall friday, weekday friday = 4 ->
       min_date <= friday -> friday + 2 <= max_date -> weekend_of friday ∈ l).
Proof.
  intros Hmin _ _ Hmax.
  destruct (generate_weekend_candidates_ok _ _ Hmin Hmax) as (f & _ & Hfri & Hrange & ->).
  eexists; split; [reflexivity|]. split.
  - intros c Hc. apply weekend_seq_elem in Hc as (k & Hk & ->). cbn.
    repeat split; try lia; zlia.
  - intros d Hd Hlo Hhi. apply weekend_seq_elem.
    exists ((d - f) / 7). split; [zlia|]. f_equal. zlia.
Qed.

(** C6. In every window with [min_date <= max_date], the list the generator
    returns is strictly ascending by [start_date], consecutive candidates
    start exactly seven days apart, and no candidate occurs twice. The call
    does return a list whenever the window ends before the last date. *)
Theorem generate_weekend_candidates_ascending (min_date max_date : date) :
  date_ok min_date -> date_ok max_date -> min_date <= max_date ->
  (max_date < _MAXORDINAL ->
     exists l, generate_weekend_candidates min_date max_date = Ok l) /\
  (forall l, generate_weekend_candidates min_date max_date = Ok l ->
     ascending_by_start l /\ weekly_steps l /\ NoDup l).
Proof.
  intros Hmin Hmax Hle. split.
  - intros Hlt.
    destruct (generate_weekend_candidates_ok _ _ Hmin Hlt) as (f & _ & _ & _ & ->).
    by eexists.
  - intros l Hl.
    destruct (decide (max_date = _MAXORDINAL)) as [->|Hne].
    + by rewrite generate_weekend_candidates_overflow in Hl.
    + assert (max_date < _MAXORDINAL) as Hlt by (unfold date_ok in Hmax; lia).
      destruct (generate_weekend_candidates_ok _ _ Hmin Hlt) as (f & _ & _ & _ & Hgen).
      rewrite Hgen in Hl. injection Hl as <-.
      split; [apply weekend_seq_ascending|].
      split; [apply weekend_seq_weekly_steps|].
      apply ascending_by_start_NoDup, weekend_seq_ascending.
Qed.

(** C5, at the window 9999-12-01 .. 9999-12-31: the weekends of 3, 10, 17
    and 24 December lie inside it, and the call raises [OverflowError] on the
    pass for Friday 31 December, whose Saturday is no date. *)
Theorem generate_weekend_candidates_december_9999 :
  generate_weekend_candidates (_ymd2ord 9999 12 1) (_ymd2ord 9999 12 31) =
  Raise OverflowError.
Proof. vm_compute. reflexivity. Qed.

End CandidateFacts.

(** ** The stable sort *)

Section SortFacts.
Import Builtins.
Context {A K : Type} (key : A -> K) (ltb : K -> K -> bool).

(** [x] may stand before [y]: the key of [y] is not smaller. *)
Definition key_le (x y : A) : Prop := ltb (key y) (key x) = false.

Hypothesis ltb_irrefl : forall a, ltb a a = false.
Hypothesis ltb_asym : forall a b, ltb a b = true -> ltb b a = false.
Hypothesis ltb_le_trans :
  forall a b c, ltb b a = false -> ltb c b = false -> ltb c a = false.

Lemma insert_by_perm x l : insert_by key ltb x l ≡ₚ x :: l.
Proof.
  induction l as [|y l IH]; cbn; [done|].
  destruct (ltb (key y) (key x)); [|done].
  rewrite IH. apply Permutation_swap.
Qed.

Lemma sort_by_perm l : sort_by key ltb l ≡ₚ l.
Proof.
  induction l as [|x l IH]; cbn; [done|].
  rewrite insert_by_perm. by f_equiv.
Qed.

Lemma insert_by_sorted x l :
  StronglySorted key_le l -> StronglySorted key_le (insert_by key ltb x l).
Proof.
  induction 1 as [|y l Hl IH Hy]; cbn; [repeat constructor|].
  destruct (ltb (key y) (key x)) eqn:Hyx.
  - constructor; [done|].
    rewrite insert_by_perm. constructor; [|done].
    unfold key_le. by apply ltb_asym.
  - constructor; [by constructor|].
    constructor; [done|].
    eapply Forall_impl; [exact Hy|].
    intros z Hz. unfold key_le in *. by eapply ltb_le_trans.
Qed.

Lemma sort_by_sorted l : StronglySorted key_le (sort_by key ltb l).
Proof.
  induction l as [|x l IH]; cbn; [constructor|]. by apply insert_by_sorted.
Qed.

(** Stability: the elements with a given key come out in the order they
    went in. *)
Lemma insert_by_stable `{EqDecision K} (k : K) x l :
  filter (fun a => key a = k) (insert_by key ltb x l) =
  filter (fun a => key a = k) (x :: l).
Proof.
  induction l as [|y l IH]; cbn; [done|].
  destruct (ltb (key y) (key x)) eqn:Hyx; [|done].
  rewrite filter_cons, IH, !filter_cons.
  destruct (decide (key y = k)) as [Hy|Hy], (decide (key x = k)) as [Hx|Hx]; try done.
  rewrite Hy, Hx, ltb_irrefl in Hyx. discriminate.
Qed.

Lemma sort_by_stable `{EqDecision K} (k : K) l :
  filter (fun a => key a = k) (sort_by key ltb l) = filter (fun a => key a = k) l.
Proof.
  induction l as [|x l IH]; [done|].
  change (sort_by key ltb (x :: l)) with (insert_by key ltb x (sort_by key ltb l)).
  by rewrite insert_by_stable, !filter_cons, IH.
Qed.

End SortFacts.

(** The order of Python on 4-tuples of integers. *)
Definition tuple_lt (a b : Z * Z * Z * Z) : Prop :=
  let '(a1, a2, a3, a4) := a in
  let '(b1, b2, b3, b4) := b in
  a1 < b1 \/ (a1 = b1 /\ (a2 < b2 \/ (a2 = b2 /\ (a3 < b3 \/ (a3 = b3 /\ a4 < b4))))).

Definition tuple_le (a b : Z * Z * Z * Z) : Prop := tuple_lt a b \/ a = b.

Ltac tuple_cases :=
  repeat match goal with
  | a : (_ * _)%type |- _ => destruct a
  end;
  unfold tuple_le, tuple_lt, Builtins.tuple_ltb in *;
  repeat match goal with
  | |- context [?x =? ?y] => destruct (Z.eqb_spec x y); cbn [negb]
  | H : context [?x =? ?y] |- _ => destruct (Z.eqb_spec x y); cbn [negb] in H
  | |- context [?x <? ?y] => destruct (Z.ltb_spec x y)
  | H : context [?x <? ?y] |- _ => destruct (Z.ltb_spec x y)
  end.

Lemma tuple_ltb_lt a b : Builtins.tuple_ltb a b = true <-> tuple_lt a b.
Proof. tuple_cases; split; intros ?; try done; lia. Qed.

Lemma tuple_ltb_le a b : Builtins.tuple_ltb b a = false <-> tuple_le a b.
Proof.
  assert (forall a1 a2 a3 a4 b1 b2 b3 b4 : Z,
    (a1, a2, a3, a4) = (b1, b2, b3, b4) <-> a1 = b1 /\ a2 = b2 /\ a3 = b3 /\ a4 = b4)
    as Heq by (intros; split; [by intros [= -> -> -> ->] | by intros (-> & -> & -> & ->)]).
  tuple_cases; rewrite Heq; split; intros ?; try done; lia.
Qed.

Lemma tuple_ltb_irrefl a : Builtins.tuple_ltb a a = false.
Proof. apply tuple_ltb_le. by right. Qed.

Lemma tuple_ltb_asym a b :
  Builtins.tuple_ltb a b = true -> Builtins.tuple_ltb b a = false.
Proof.
  rewrite tuple_ltb_lt, tuple_ltb_le. intros H. by left.
Qed.

Lemma tuple_le_trans a b c : tuple_le a b -> tuple_le b c -> tuple_le a c.
Proof.
  intros [Hab| ->] [Hbc| <-]; [|by left|by left|by right].
  left. tuple_cases. lia.
Qed.

Lemma tuple_ltb_le_trans a b c :
  Builtins.tuple_ltb b a = false -> Builtins.tuple_ltb c b = false ->
  Builtins.tuple_ltb c a = false.
Proof. rewrite !tuple_ltb_le. apply tuple_le_trans. Qed.

(** ** Per-person impact *)

Section ImpactFacts.
Import Datetime Builtins Optimizer.
Import Models(DateConstraint, overlaps_date, describe).

(** A constraint covers a weekend when it overlaps one of its three days. *)
Definition covers (weekend_days : date * date * date) (constraint : DateConstraint) : Prop :=
  Exists (fun day => overlaps_date constraint day = true) (tuple_days weekend_days).

#[global] Instance covers_dec weekend_days constraint :
  Decision (covers weekend_days constraint).
Proof. unfold covers. apply _. Defined.

Lemma matched_days_elem constraint weekend_days d :
  d ∈ List.filter (overlaps_date constraint) (tuple_days weekend_days) <->
  d ∈ tuple_days weekend_days /\ overlaps_date constraint d = true.
Proof. rewrite !list_elem_of_In. apply filter_In. Qed.

Lemma matched_days_nil constraint weekend_days :
  List.filter (overlaps_date constraint) (tuple_days weekend_days) = [] <->
  ~ covers weekend_days constraint.
Proof.
  unfold covers. rewrite Exists_exists. split.
  - intros Hnil (d & Hd & Hov).
    assert (d ∈ List.filter (overlaps_date constraint) (tuple_days weekend_days)) as Hin
      by by apply matched_days_elem.
    rewrite Hnil in Hin. by apply not_elem_of_nil in Hin.
  - intros Hno. destruct (List.filter _ _) as [|d l] eqn:Hf; [done|].
    destruct Hno. exists d. apply matched_days_elem. rewrite Hf. by left.
Qed.

(** The loop from any state: the set gains the weekend days that some
    constraint overlaps, and the list gains the description of every
    constraint that covers the weekend, in order. *)
Lemma scan_constraints_from constraints weekend_days
    (overlapped : gset Z) (matched : list string) :
  let step := fun '(overlapped_dates, matched_constraints) constraint =>
    let matched_days :=
      List.filter (overlaps_date constraint) (tuple_days weekend_days) in
    match matched_days with
    | [] => (overlapped_dates, matched_constraints)
    | _ :: _ =>
      (overlapped_dates ∪ list_to_set matched_days,
       matched_constraints ++ [describe constraint])
    end in
  exists overlapped' : gset Z,
    foldl step (overlapped, matched) constraints =
      (overlapped', matched ++ (describe <$> filter (covers weekend_days) constraints)) /\
    forall d, d ∈ overlapped' <->
      d ∈ overlapped \/
      (d ∈ tuple_days weekend_days /\
       exists c, c ∈ constraints /\ overlaps_date c d = true).
Proof.
  intros step. revert overlapped matched.
  induction constraints as [|c cs IH]; intros S M; cbn [foldl].
  - exists S. split; [by rewrite app_nil_r|].
    intros d. split; [by left|]. intros [?|(_ & c & Hc & _)]; [done|].
    by apply not_elem_of_nil in Hc.
  - rewrite filter_cons.
    destruct (List.filter (overlaps_date c) (tuple_days weekend_days)) as [|d0 l] eqn:Hf.
    + assert (step (S, M) c = (S, M)) as -> by (unfold step; by rewrite Hf).
      apply matched_days_nil in Hf as Hno.
      rewrite decide_False by done.
      destruct (IH S M) as (S' & -> & HS'). exists S'. split; [done|].
      intros d. rewrite HS'. setoid_rewrite elem_of_cons.
      split; (intros [?|(Hd & c' & Hc' & Hov)]; [by left|right; split; [done|]]).
      * exists c'. by eauto.
      * destruct Hc' as [->|Hc']; [|by eauto].
        destruct Hno. apply Exists_exists. by eauto.
    + assert (step (S, M) c = (S ∪ list_to_set (d0 :: l), M ++ [describe c])) as ->
        by (unfold step; by rewrite Hf).
      assert (covers weekend_days c) as Hyes.
      { destruct (decide (covers weekend_days c)) as [?|Hno]; [done|].
        apply matched_days_nil in Hno. congruence. }
      rewrite decide_True by done.
      destruct (IH (S ∪ list_to_set (d0 :: l)) (M ++ [describe c])) as (S' & -> & HS').
      exists S'. split; [by rewrite <- app_assoc|].
      intros d. rewrite HS', elem_of_union, elem_of_list_to_set, <- Hf, matched_days_elem.
      setoid_rewrite elem_of_cons. split.
      * intros [[?|[Hd Hov]]|(Hd & c' & Hc' & Hov)]; [by left|right..]; by eauto.
      * intros [?|(Hd & c' & [->|Hc'] & Hov)]; [by auto|by auto|right; by eauto].
Qed.

Lemma scan_constraints_spec constraints weekend_days :
  exists overlapped : gset Z,
    scan_constraints constraints weekend_days =
      (overlapped, describe <$> filter (covers weekend_days) constraints) /\
    forall d, d ∈ overlapped <->
      d ∈ tuple_days weekend_days /\
      exists c, c ∈ constraints /\ overlaps_date c d = true.
Proof.
  destruct (scan_constraints_from constraints weekend_days ∅ []) as (S & HS & Hin).
  exists S. split; [exact HS|].
  intros d. rewrite Hin. split; [|by right]. intros [H|H]; [|done].
  by apply not_elem_of_empty in H.
Qed.

Lemma sorted_dates_elem (s : gset Z) d : d ∈ sorted_dates s <-> d ∈ s.
Proof.
  unfold sorted_dates. rewrite (sort_by_perm id Z.ltb (elements s)).
  apply elem_of_elements.
Qed.

(** [sorted] of a set is strictly ascending: no date occurs twice. *)
Lemma sorted_dates_ascending (s : gset Z) : StronglySorted Z.lt (sorted_dates s).
Proof.
  assert (NoDup (sorted_dates s)) as Hnd.
  { unfold sorted_dates. rewrite (sort_by_perm id Z.ltb (elements s)).
    apply NoDup_elements. }
  assert (StronglySorted (key_le id Z.ltb) (sorted_dates s)) as Hs.
  { apply sort_by_sorted.
    - intros a b Hab. apply Z.ltb_lt in Hab. apply Z.ltb_ge. lia.
    - intros a b c Hab Hbc. apply Z.ltb_ge in Hab, Hbc. apply Z.ltb_ge. lia. }
  induction Hs as [|x l Hl IH Hx]; [constructor|].
  apply NoDup_cons in Hnd as [Hnin Hnd].
  constructor; [by apply IH|].
  rewrite Forall_forall in *. intros y Hy.
  specialize (Hx y Hy). unfold key_le, id in Hx. apply Z.ltb_ge in Hx.
  assert (x <> y) by (intros ->; done). lia.
Qed.

(** What a per-person impact evaluation over [constraints] must return,
    given as the pair of [overlapped_dates] and [matched_constraints] of the
    record when there is one. *)
Definition impact_spec (constraints : list DateConstraint)
    (weekend_days : date * date * date)
    (impact : option (list date * list string)) : Prop :=
  match impact with
  | None => forall c, c ∈ constraints -> ~ covers weekend_days c
  | Some (overlapped_dates, matched_constraints) =>
    (exists c, c ∈ constraints /\ covers weekend_days c) /\
    StronglySorted Z.lt overlapped_dates /\
    (forall d, d ∈ overlapped_dates <->
       d ∈ tuple_days weekend_days /\
       exists c, c ∈ constraints /\ overlaps_date c d = true) /\
    matched_constraints = describe <$> filter (covers weekend_days) constraints
  end.

Lemma impact_of_scan constraints weekend_days (overlapped : gset Z) :
  (forall d, d ∈ overlapped <->
     d ∈ tuple_days weekend_days /\
     exists c, c ∈ constraints /\ overlaps_date c d = true) ->
  impact_spec constraints weekend_days
    (if decide (overlapped = ∅) then None
     else Some (sorted_dates overlapped,
                describe <$> filter (covers weekend_days) constraints)).
Proof.
  intros Hin. destruct (decide (overlapped = ∅)) as [->|Hne]; cbn.
  - intros c Hc Hcov. apply Exists_exists in Hcov as (d & Hd & Hov).
    apply (not_elem_of_empty (C:=gset Z) d). apply Hin. by eauto.
  - split; [|split; [|split; [|done]]].
    + apply set_choose_L in Hne as [d Hd].
      apply Hin in Hd as (Hd & c & Hc & Hov).
      exists c. split; [done|]. apply Exists_exists. by eauto.
    + apply sorted_dates_ascending.
    + intros d. rewrite sorted_dates_elem. apply Hin.
Qed.

(** C4. Hard and soft per-person impact evaluation return [None] exactly
    when no constraint of that severity overlaps one of the three weekend
    days. Otherwise [overlapped_dates] is strictly ascending (so without
    repeats) and holds exactly the weekend days that some constraint of that
    severity overlaps, and [matched_constraints] is the description of every
    constraint that overlaps at least one weekend day, once each, in the
    order the constraints are declared. *)
Theorem evaluate_person_impact_spec (person : Models.PersonConstraints)
    (weekend_days : date * date * date) :
  impact_spec (Models.hard_constraints person) weekend_days
    ((fun r => (PersonHardImpact.overlapped_dates r,
                PersonHardImpact.matched_constraints r))
       <$> _evaluate_person_hard_impact person weekend_days) /\
  impact_spec (Models.soft_constraints person) weekend_days
    ((fun r => (PersonSoftImpact.overlapped_dates r,
                PersonSoftImpact.matched_constraints r))
       <$> _evaluate_person_soft_impact person weekend_days).
Proof.
  split.
  - unfold _evaluate_person_hard_impact.
    destruct (scan_constraints_spec (Models.hard_constraints person) weekend_days)
      as (S & -> & HS).
    pose proof (impact_of_scan _ _ _ HS) as Hspec.
    destruct (decide (S = ∅)); exact Hspec.
  - unfold _evaluate_person_soft_impact.
    destruct (scan_constraints_spec (Models.soft_constraints person) weekend_days)
      as (S & -> & HS).
    pose proof (impact_of_scan _ _ _ HS) as Hspec.
    destruct (decide (S = ∅)); exact Hspec.
Qed.

End ImpactFacts.

(** ** Weekend evaluation and ranking *)

Section RankFacts.
Import Datetime Builtins Optimizer.
Import Candidates(WeekendCandidate).
Import Models(InputData).

Lemma len_nonneg {A} (l : list A) : 0 <= len l.
Proof. unfold len. lia. Qed.

Lemma hard_count_nonneg input_data weekend :
  0 <= hard_affected_people_count (_evaluate_weekend_relaxed input_data weekend).
Proof. apply len_nonneg. Qed.

(** C3. Strict evaluation yields nothing exactly when the relaxed evaluation
    counts a hard-affected person; otherwise it is the relaxed evaluation
    with [selection_mode] set to ["strict_hard"],
    [hard_affected_people_count] to 0 and [hard_affected_people] to the empty
    list, every other field unchanged. *)
Theorem evaluate_weekend_strict (input_data : InputData) (weekend : WeekendCandidate) :
  let relaxed := _evaluate_weekend_relaxed input_data weekend in
  (evaluate_weekend input_data weekend = None <->
   0 < hard_affected_people_count relaxed) /\
  (~ 0 < hard_affected_people_count relaxed ->
   evaluate_weekend input_data weekend =
   Some {| weekend := Optimizer.weekend relaxed;
           selection_mode := "strict_hard";
           hard_affected_people_count := 0;
           fully_feasible_people_count := fully_feasible_people_count relaxed;
           affected_people_count := affected_people_count relaxed;
           total_soft_overlap_days := total_soft_overlap_days relaxed;
           affected_people := affected_people relaxed;
           hard_affected_people := [] |}).
Proof.
  intros relaxed. unfold evaluate_weekend. fold relaxed.
  destruct (Z.ltb_spec 0 (hard_affected_people_count relaxed)) as [Hpos|Hzero].
  - split; [done|]. intros Hno. by destruct Hno.
  - split; [|done]. split; [discriminate|lia].
Qed.

Lemma evaluate_weekend_None input_data weekend :
  evaluate_weekend input_data weekend = None <->
  hard_affected_people_count (_evaluate_weekend_relaxed input_data weekend) <> 0.
Proof.
  pose proof (hard_count_nonneg input_data weekend).
  unfold evaluate_weekend.
  destruct (Z.ltb_spec 0 (hard_affected_people_count
                           (_evaluate_weekend_relaxed input_data weekend)));
    split; (done || lia).
Qed.

Lemma evaluate_weekend_mode input_data weekend evaluation :
  evaluate_weekend input_data weekend = Some evaluation ->
  selection_mode evaluation = "strict_hard".
Proof.
  unfold evaluate_weekend. destruct (0 <? _); [discriminate|]. by intros [= <-].
Qed.

Lemma strict_evaluations_mode input_data candidates :
  Forall (fun e => selection_mode e = "strict_hard")
    (omap (evaluate_weekend input_data) candidates).
Proof.
  apply Forall_forall. intros e He.
  apply list_elem_of_omap in He as (c & _ & He). by eapply evaluate_weekend_mode.
Qed.

Lemma relaxed_evaluations_mode input_data candidates :
  Forall (fun e => selection_mode e = "fallback_hard")
    (map (_evaluate_weekend_relaxed input_data) candidates).
Proof.
  apply Forall_forall. intros e He.
  apply list_elem_of_fmap in He as (c & -> & _). reflexivity.
Qed.

(** Some candidate passes strict evaluation exactly when some candidate has
    no hard-affected person. *)
Lemma strict_evaluations_nil input_data candidates :
  omap (evaluate_weekend input_data) candidates = [] <->
  forall c, c ∈ candidates ->
    hard_affected_people_count (_evaluate_weekend_relaxed input_data c) <> 0.
Proof.
  split.
  - intros Hnil c Hc. apply evaluate_weekend_None.
    destruct (evaluate_weekend input_data c) as [e|] eqn:He; [|done].
    assert (e ∈ omap (evaluate_weekend input_data) candidates) as Hin
      by (apply list_elem_of_omap; eauto).
    rewrite Hnil in Hin. by apply not_elem_of_nil in Hin.
  - intros Hall. destruct (omap _ candidates) as [|e l] eqn:Ho; [done|].
    assert (e ∈ omap (evaluate_weekend input_data) candidates) as Hin
      by (rewrite Ho; by left).
    apply list_elem_of_omap in Hin as (c & Hc & He).
    apply Hall, evaluate_weekend_None in Hc. congruence.
Qed.

Lemma slice_to_take {A} (l : list A) (stop : Z) :
  0 <= stop -> slice_to l stop = take (Z.to_nat stop) l.
Proof.
  intros H. unfold slice_to. by destruct (Z.ltb_spec stop 0); [lia|].
Qed.

Lemma sort_by_nil {A K} (key : A -> K) ltb l : sort_by key ltb l = [] <-> l = [].
Proof.
  split; [|by intros ->].
  intros H. apply Permutation_nil_r. rewrite <- H. symmetry. apply sort_by_perm.
Qed.

(** Sorted with [tuple_ltb] means ascending in the order on tuples. *)
Lemma sort_by_tuple_sorted {A} (key : A -> Z * Z * Z * Z) l :
  StronglySorted (fun x y => tuple_le (key x) (key y)) (sort_by key tuple_ltb l).
Proof.
  pose proof (sort_by_sorted key tuple_ltb tuple_ltb_asym tuple_ltb_le_trans l) as Hs.
  induction Hs as [|x l' Hl IH Hx]; constructor; [done|].
  eapply Forall_impl; [exact Hx|]. intros y Hy. by apply tuple_ltb_le.
Qed.

Lemma StronglySorted_lookup_lt {A} (R : A -> A -> Prop) l (i j : nat) x y :
  StronglySorted R l -> l !! i = Some x -> l !! j = Some y -> (i < j)%nat -> R x y.
Proof.
  intros Hs. revert i j. induction Hs as [|z l Hl IH Hz]; intros i j Hi Hj Hlt.
  - by rewrite lookup_nil in Hi.
  - destruct j as [|j]; [lia|]. cbn in Hj. destruct i as [|i]; cbn in Hi.
    + injection Hi as <-. rewrite Forall_forall in Hz.
      apply Hz. by eapply list_elem_of_lookup_2.
    + eapply (IH i j); (done || lia).
Qed.

(** The order of the strict phase in the words of the specification: more
    fully-feasible people first, then fewer affected people, then fewer
    total soft-overlap days, then the earlier weekend. *)
Definition strict_before (e1 e2 : WeekendEvaluation) : Prop :=
  fully_feasible_people_count e1 > fully_feasible_people_count e2 \/
  (fully_feasible_people_count e1 = fully_feasible_people_count e2 /\
   (affected_people_count e1 < affected_people_count e2 \/
    (affected_people_count e1 = affected_people_count e2 /\
     (total_soft_overlap_days e1 < total_soft_overlap_days e2 \/
      (total_soft_overlap_days e1 = total_soft_overlap_days e2 /\
       Candidates.start_date (weekend e1) < Candidates.start_date (weekend e2)))))).

(** Two passing evaluations the strict order does not tell apart. *)
Definition strict_tie (e1 e2 : WeekendEvaluation) : Prop :=
  fully_feasible_people_count e1 = fully_feasible_people_count e2 /\
  affected_people_count e1 = affected_people_count e2 /\
  total_soft_overlap_days e1 = total_soft_overlap_days e2 /\
  Candidates.start_date (weekend e1) = Candidates.start_date (weekend e2).

#[global] Instance strict_tie_dec : RelDecision strict_tie.
Proof. intros e1 e2. unfold strict_tie. apply _. Defined.

(** The order of the fallback phase in the words of the specification:
    fewer people blocked by a hard constraint first, then fewer affected
    people, then fewer total soft-overlap days, then the earlier weekend. *)
Definition fallback_before (e1 e2 : WeekendEvaluation) : Prop :=
  hard_affected_people_count e1 < hard_affected_people_count e2 \/
  (hard_affected_people_count e1 = hard_affected_people_count e2 /\
   (affected_people_count e1 < affected_people_count e2 \/
    (affected_people_count e1 = affected_people_count e2 /\
     (total_soft_overlap_days e1 < total_soft_overlap_days e2 \/
      (total_soft_overlap_days e1 = total_soft_overlap_days e2 /\
       Candidates.start_date (weekend e1) < Candidates.start_date (weekend e2)))))).

(** Two relaxed evaluations the fallback order does not tell apart. *)
Definition fallback_tie (e1 e2 : WeekendEvaluation) : Prop :=
  hard_affected_people_count e1 = hard_affected_people_count e2 /\
  affected_people_count e1 = affected_people_count e2 /\
  total_soft_overlap_days e1 = total_soft_overlap_days e2 /\
  Candidates.start_date (weekend e1) = Candidates.start_date (weekend e2).

#[global] Instance fallback_tie_dec : RelDecision fallback_tie.
Proof. intros e1 e2. unfold fallback_tie. apply _. Defined.

(** [ranked] is [evaluations] put in the order [before] by a stable sort:
    the same elements, none standing after one it is before, and the
    elements of any one tie in their original order. *)
Definition stably_sorted (before tie : WeekendEvaluation -> WeekendEvaluation -> Prop)
    `{!RelDecision tie}
    (evaluations ranked : list WeekendEvaluation) : Prop :=
  ranked ≡ₚ evaluations /\
  StronglySorted (fun e1 e2 => before e1 e2 \/ tie e1 e2) ranked /\
  forall e, filter (tie e) ranked = filter (tie e) evaluations.

Lemma StronglySorted_weaken {A} (R1 R2 : A -> A -> Prop) l :
  (forall x y, R1 x y -> R2 x y) -> StronglySorted R1 l -> StronglySorted R2 l.
Proof.
  intros Himpl Hs. induction Hs as [|x l Hl IH Hx]; constructor; [done|].
  eapply Forall_impl; [exact Hx|]. intros y. apply Himpl.
Qed.

Lemma strict_key_order e1 e2 :
  tuple_le (strict_key e1) (strict_key e2) <-> strict_before e1 e2 \/ strict_tie e1 e2.
Proof.
  unfold tuple_le, tuple_lt, strict_key, strict_before, strict_tie. split.
  - intros [Hlt|Heq]; [left; lia|]. right. injection Heq as Hff -> -> ->.
    repeat split. lia.
  - intros [Hlt|(Hff & -> & -> & ->)]; [left; lia|]. right. by rewrite Hff.
Qed.

Lemma strict_key_tie e1 e2 : strict_key e2 = strict_key e1 <-> strict_tie e1 e2.
Proof.
  unfold strict_key, strict_tie. split.
  - intros [= Hff -> -> ->]. repeat split. lia.
  - intros (-> & -> & -> & ->). done.
Qed.

Lemma fallback_key_order e1 e2 :
  tuple_le (fallback_key e1) (fallback_key e2) <->
  fallback_before e1 e2 \/ fallback_tie e1 e2.
Proof.
  unfold tuple_le, tuple_lt, fallback_key, fallback_before, fallback_tie. split.
  - intros [Hlt|Heq]; [left; lia|]. right. by injection Heq as -> -> -> ->.
  - intros [Hlt|(-> & -> & -> & ->)]; [left; lia|]. by right.
Qed.

Lemma fallback_key_tie e1 e2 : fallback_key e2 = fallback_key e1 <-> fallback_tie e1 e2.
Proof.
  unfold fallback_key, fallback_tie. split.
  - by intros [= -> -> -> ->].
  - intros (-> & -> & -> & ->). done.
Qed.

Lemma sort_by_strict_key evaluations :
  stably_sorted strict_before strict_tie evaluations
    (sort_by strict_key tuple_ltb evaluations).
Proof.
  split; [apply sort_by_perm|]. split.
  - eapply StronglySorted_weaken; [|apply (sort_by_tuple_sorted strict_key)].
    intros x y. apply strict_key_order.
  - intros e.
    transitivity (filter (fun x => strict_key x = strict_key e)
                    (sort_by strict_key tuple_ltb evaluations)).
    { apply list_filter_iff. intros x. symmetry. apply strict_key_tie. }
    rewrite sort_by_stable by apply tuple_ltb_irrefl.
    apply list_filter_iff. intros x. apply strict_key_tie.
Qed.

Lemma sort_by_fallback_key evaluations :
  stably_sorted fallback_before fallback_tie evaluations
    (sort_by fallback_key tuple_ltb evaluations).
Proof.
  split; [apply sort_by_perm|]. split.
  - eapply StronglySorted_weaken; [|apply (sort_by_tuple_sorted fallback_key)].
    intros x y. apply fallback_key_order.
  - intros e.
    transitivity (filter (fun x => fallback_key x = fallback_key e)
                    (sort_by fallback_key tuple_ltb evaluations)).
    { apply list_filter_iff. intros x. symmetry. apply fallback_key_tie. }
    rewrite sort_by_stable by apply tuple_ltb_irrefl.
    apply list_filter_iff. intros x. apply fallback_key_tie.
Qed.

(** The strict phase of [rank_weekends]. *)
Lemma rank_weekends_strict_phase input_data candidates top_n :
  omap (evaluate_weekend input_data) candidates <> [] ->
  rank_weekends input_data candidates top_n =
  take (Z.to_nat top_n)
    (sort_by strict_key tuple_ltb (omap (evaluate_weekend input_data) candidates)).
Proof.
  intros Hpass. unfold rank_weekends.
  destruct (Z.leb_spec top_n 0) as [Hle|Hgt].
  - by replace (Z.to_nat top_n) with 0%nat by lia.
  - destruct (sort_by strict_key tuple_ltb _) as [|e l] eqn:Hs.
    + by apply sort_by_nil in Hs.
    + apply slice_to_take. lia.
Qed.

(** The fallback phase of [rank_weekends]. *)
Lemma rank_weekends_fallback_phase input_data candidates top_n :
  omap (evaluate_weekend input_data) candidates = [] ->
  rank_weekends input_data candidates top_n =
  take (Z.to_nat top_n)
    (sort_by fallback_key tuple_ltb (map (_evaluate_weekend_relaxed input_data) candidates)).
Proof.
  intros Hnone. unfold rank_weekends. rewrite Hnone.
  destruct (Z.leb_spec top_n 0) as [Hle|Hgt].
  - by replace (Z.to_nat top_n) with 0%nat by lia.
  - cbn. apply slice_to_take. lia.
Qed.

(** C1. When some candidate passes strict evaluation, [rank_weekends]
    returns the first [top_n] entries of the passing evaluations sorted
    ascending by [(-fully_feasible_people_count, affected_people_count,
    total_soft_overlap_days, weekend.start_date)]: the passing evaluations,
    those with more fully-feasible people first, then those with fewer
    affected people, then those with fewer total soft-overlap days, then
    the earlier weekend, ties left in candidate order. Of two passing
    evaluations with the same three counts, the one with the earlier
    [start_date] stands first. *)
Theorem rank_weekends_strict (input_data : InputData)
    (candidates : list WeekendCandidate) (top_n : Z) :
  let passing := omap (evaluate_weekend input_data) candidates in
  passing <> [] ->
  exists ranked,
    stably_sorted strict_before strict_tie passing ranked /\
    rank_weekends input_data candidates top_n = take (Z.to_nat top_n) ranked /\
    forall (i j : nat) e1 e2,
      ranked !! i = Some e1 -> ranked !! j = Some e2 ->
      fully_feasible_people_count e1 = fully_feasible_people_count e2 ->
      affected_people_count e1 = affected_people_count e2 ->
      total_soft_overlap_days e1 = total_soft_overlap_days e2 ->
      Candidates.start_date (weekend e1) < Candidates.start_date (weekend e2) ->
      (i < j)%nat.
Proof.
  intros passing Hpass.
  exists (sort_by strict_key tuple_ltb passing).
  split; [apply sort_by_strict_key|].
  split; [by apply rank_weekends_strict_phase|].
  intros i j e1 e2 Hi Hj Hff Haff Hdays Hstart.
  destruct (decide (i < j)%nat) as [|Hge]; [done|exfalso].
  destruct (decide (i = j)) as [->|Hne].
  - rewrite Hi in Hj. injection Hj as ->. lia.
  - assert (strict_before e2 e1 \/ strict_tie e2 e1) as Hle.
    { apply (StronglySorted_lookup_lt
               (fun x y => strict_before x y \/ strict_tie x y)
               (sort_by strict_key tuple_ltb passing) j i);
        [apply sort_by_strict_key|done|done|lia]. }
    unfold strict_before, strict_tie in Hle. lia.
Qed.

(** C2. When no candidate passes strict evaluation and [top_n > 0],
    [rank_weekends] returns the first [top_n] entries of the relaxed
    evaluations of all candidates sorted ascending by
    [(hard_affected_people_count, affected_people_count,
    total_soft_overlap_days, weekend.start_date)]: those with fewer people
    blocked by a hard constraint first, then those with fewer affected
    people, then those with fewer total soft-overlap days, then the earlier
    weekend, ties left in candidate order; every one of them is tagged
    ["fallback_hard"]. *)
Theorem rank_weekends_fallback (input_data : InputData)
    (candidates : list WeekendCandidate) (top_n : Z) :
  omap (evaluate_weekend input_data) candidates = [] ->
  0 < top_n ->
  exists ranked,
    stably_sorted fallback_before fallback_tie
      (map (_evaluate_weekend_relaxed input_data) candidates) ranked /\
    rank_weekends input_data candidates top_n = take (Z.to_nat top_n) ranked /\
    Forall (fun e => selection_mode e = "fallback_hard")
      (rank_weekends input_data candidates top_n).
Proof.
  intros Hnone Hpos.
  exists (sort_by fallback_key tuple_ltb
            (map (_evaluate_weekend_relaxed input_data) candidates)).
  split; [apply sort_by_fallback_key|].
  split; [by apply rank_weekends_fallback_phase|].
  rewrite rank_weekends_fallback_phase by done.
  apply Forall_take. rewrite sort_by_perm. apply relaxed_evaluations_mode.
Qed.

(** C7. The result of [rank_weekends] never mixes selection modes. If some
    candidate has no hard-affected person, every returned evaluation is
    tagged ["strict_hard"], and at least one is returned when [top_n > 0];
    otherwise every returned evaluation is tagged ["fallback_hard"]. *)
Theorem rank_weekends_single_mode (input_data : InputData)
    (candidates : list WeekendCandidate) (top_n : Z) :
  let feasible := exists c, c ∈ candidates /\
    hard_affected_people_count (_evaluate_weekend_relaxed input_data c) = 0 in
  let ranked := rank_weekends input_data candidates top_n in
  (feasible ->
     Forall (fun e => selection_mode e = "strict_hard") ranked /\
     (0 < top_n -> exists e, e ∈ ranked /\ selection_mode e = "strict_hard")) /\
  (~ feasible ->
     Forall (fun e => selection_mode e = "fallback_hard") ranked).
Proof.
  intros feasible ranked. subst ranked. split.
  - intros (c & Hc & Hzero).
    assert (omap (evaluate_weekend input_data) candidates <> []) as Hpass.
    { intros Hnil. by eapply strict_evaluations_nil in Hnil. }
    rewrite rank_weekends_strict_phase by done.
    assert (Forall (fun e => selection_mode e = "strict_hard")
              (sort_by strict_key tuple_ltb (omap (evaluate_weekend input_data) candidates)))
      as Hall by (rewrite sort_by_perm; apply strict_evaluations_mode).
    split; [by apply Forall_take|].
    intros Hpos.
    destruct (sort_by strict_key tuple_ltb _) as [|e l] eqn:Hs;
      [by apply sort_by_nil in Hs|].
    exists e. replace (Z.to_nat top_n) with (S (Z.to_nat (top_n - 1))) by lia.
    split; [by left|]. by apply Forall_cons in Hall as [? _].
  - intros Hno.
    assert (omap (evaluate_weekend input_data) candidates = []) as Hnone.
    { apply strict_evaluations_nil. intros c Hc Hzero. apply Hno. by exists c. }
    rewrite rank_weekends_fallback_phase by done.
    apply Forall_take. rewrite sort_by_perm. apply relaxed_evaluations_mode.
Qed.

(** C8. [rank_weekends] returns the empty list, and raises nothing, whenever
    [top_n <= 0] or there is no candidate. *)
Theorem rank_weekends_empty (input_data : InputData)
    (candidates : list WeekendCandidate) (top_n : Z) :
  top_n <= 0 \/ candidates = [] ->
  rank_weekends input_data candidates top_n = [].
Proof.
  intros [Hle| ->]; unfold rank_weekends.
  - by destruct (Z.leb_spec top_n 0); [|lia].
  - destruct (top_n <=? 0); [done|]. cbn. unfold slice_to.
    destruct (top_n <? 0); cbn; by rewrite take_nil.
Qed.

End RankFacts.

(** ** Constraints *)

Section ConstraintFacts.
Import Datetime Models.

(** C9. A constraint of kind ["date"] on the date [d] is described as
    ["date:"] followed by the ISO form of [d]; a constraint of kind
    ["interval"] from [s] to [e] as ["interval:"], the ISO form of [s],
    [".."], and the ISO form of [e]. *)
Theorem describe_format (c : DateConstraint) :
  (forall d, kind c = "date" -> date_value c = Some d ->
     describe c = "date:" +:+ isoformat d) /\
  (forall s e, kind c = "interval" -> start_date c = Some s -> end_date c = Some e ->
     describe c = "interval:" +:+ isoformat s +:+ ".." +:+ isoformat e).
Proof.
  split.
  - intros d Hk Hd. unfold describe. by rewrite Hk, Hd.
  - intros s e Hk Hs He. unfold describe. by rewrite Hk, Hs, He.
Qed.

(** C10. [overlaps_date] is a function to [bool] on every constraint record
    and every date: no branch of it can raise. A constraint of another kind than ["date"], such as
    ["interval"], that lacks [start_date] or [end_date] overlaps no date, and
    a constraint of kind ["date"] overlaps exactly the date equal to its
    [date_value], so none when [date_value] is absent. *)
Theorem overlaps_date_total (c : DateConstraint) (target_date : date) :
  (kind c = "interval" -> start_date c = None \/ end_date c = None ->
     overlaps_date c target_date = false) /\
  (kind c <> "date" -> start_date c = None \/ end_date c = None ->
     overlaps_date c target_date = false) /\
  (kind c = "date" ->
     (overlaps_date c target_date = true <-> date_value c = Some target_date)).
Proof.
  assert (kind c <> "date" -> start_date c = None \/ end_date c = None ->
          overlaps_date c target_date = false) as Hmissing.
  { intros Hk Hnone. unfold overlaps_date.
    apply String.eqb_neq in Hk. rewrite Hk.
    destruct Hnone as [-> | ->]; [done|]. by destruct (start_date c). }
  split; [|split; [done|]].
  - intros Hk. apply Hmissing. by rewrite Hk.
  - intros Hk. unfold overlaps_date. rewrite Hk. cbn.
    destruct (date_value c) as [d|]; [|done].
    rewrite Z.eqb_eq. split; [by intros ->|by intros [= ->]].
Qed.

End ConstraintFacts.

(** ** Scenarios *)

Section Scenarios.
Import Datetime Builtins Optimizer.
Import Candidates(generate_weekend_candidates).

Definition on_date (d : date) : Models.DateConstraint :=
  {| Models.kind := "date"; Models.date_value := Some d;
     Models.start_date := None; Models.end_date := None |}.

Definition on_interval (s e : date) : Models.DateConstraint :=
  {| Models.kind := "interval"; Models.date_value := None;
     Models.start_date := Some s; Models.end_date := Some e |}.

(** Busy on Saturday 2024-06-08, as a hard constraint. *)
Definition ana : Models.PersonConstraints :=
  {| Models.name := "ana";
     Models.hard_constraints := [on_date (_ymd2ord 2024 6 8)];
     Models.soft_constraints := [] |}.

(** Would rather avoid 2024-06-07 .. 2024-06-08. *)
Definition rui : Models.PersonConstraints :=
  {| Models.name := "rui";
     Models.hard_constraints := [];
     Models.soft_constraints := [on_interval (_ymd2ord 2024 6 7) (_ymd2ord 2024 6 8)] |}.

(** Would rather avoid 2024-06-14 .. 2024-06-22. *)
Definition eva : Models.PersonConstraints :=
  {| Models.name := "eva";
     Models.hard_constraints := [];
     Models.soft_constraints := [on_interval (_ymd2ord 2024 6 14) (_ymd2ord 2024 6 22)] |}.

(** Cannot make any day of June 2024. *)
Definition gil : Models.PersonConstraints :=
  {| Models.name := "gil";
     Models.hard_constraints := [on_interval (_ymd2ord 2024 6 1) (_ymd2ord 2024 6 30)];
     Models.soft_constraints := [] |}.

Definition june_2024 (people : list Models.PersonConstraints) : Models.InputData :=
  {| Models.min_date := _ymd2ord 2024 6 1;
     Models.max_date := _ymd2ord 2024 6 30;
     Models.people := people |}.

Definition one_weekend (people : list Models.PersonConstraints) : Models.InputData :=
  {| Models.min_date := _ymd2ord 2024 6 7;
     Models.max_date := _ymd2ord 2024 6 9;
     Models.people := people |}.

Definition first_weekend_of_june : Candidates.WeekendCandidate :=
  weekend_of (_ymd2ord 2024 6 7).

Example isoformat_examples :
  isoformat (_ymd2ord 2024 6 7) = "2024-06-07" /\
  isoformat (_ymd2ord 2024 2 29) = "2024-02-29" /\
  isoformat (_ymd2ord 2023 12 31) = "2023-12-31" /\
  isoformat 1 = "0001-01-01" /\
  isoformat _MAXORDINAL = "9999-12-31".
Proof. vm_compute. repeat split. Qed.

Example june_2024_candidates :
  generate_weekend_candidates (_ymd2ord 2024 6 1) (_ymd2ord 2024 6 30) =
  Ok (weekend_seq (_ymd2ord 2024 6 7) 4).
Proof. vm_compute. reflexivity. Qed.

(** The last December of the calendar, up to the 30th: four weekends. *)
Example december_9999_candidates :
  generate_weekend_candidates (_ymd2ord 9999 12 1) (_ymd2ord 9999 12 30) =
  Ok (weekend_seq (_ymd2ord 9999 12 3) 4).
Proof. vm_compute. reflexivity. Qed.

Example too_short_window :
  generate_weekend_candidates (_ymd2ord 2024 6 7) (_ymd2ord 2024 6 8) = Ok [].
Proof. vm_compute. reflexivity. Qed.

Example soft_interval_impact :
  _evaluate_person_soft_impact rui (Candidates.days first_weekend_of_june) =
  Some {| PersonSoftImpact.person_name := "rui";
          PersonSoftImpact.overlapped_dates := [_ymd2ord 2024 6 7; _ymd2ord 2024 6 8];
          PersonSoftImpact.matched_constraints := ["interval:2024-06-07..2024-06-08"] |}.
Proof. vm_compute. reflexivity. Qed.

Example hard_saturday_fallback :
  exists e,
    rank_weekends (one_weekend [ana]) [first_weekend_of_june] 3 = [e] /\
    weekend e = first_weekend_of_june /\
    selection_mode e = "fallback_hard" /\
    hard_affected_people_count e = 1.
Proof. eexists. vm_compute. repeat split. Qed.

Lemma generate_weekend_candidates_ascending_witness :
  let l := weekend_seq (_ymd2ord 2024 6 7) 4 in
  ascending_by_start l /\ weekly_steps l /\ NoDup l.
Proof.
  apply (generate_weekend_candidates_ascending (_ymd2ord 2024 6 1) (_ymd2ord 2024 6 30)).
  - vm_compute. split; discriminate.
  - vm_compute. split; discriminate.
  - vm_compute. discriminate.
  - vm_compute. reflexivity.
Defined.

Lemma generate_weekend_candidates_exact_witness :
  exists l,
    generate_weekend_candidates (_ymd2ord 2024 6 1) (_ymd2ord 2024 6 30) = Ok l /\
    (forall c, c ∈ l ->
       weekday (Candidates.start_date c) = 4 /\
       Candidates.end_date c = Candidates.start_date c + 2 /\
       Candidates.days c =
         (Candidates.start_date c, Candidates.start_date c + 1,
          Candidates.start_date c + 2) /\
       _ymd2ord 2024 6 1 <= Candidates.start_date c /\
       Candidates.end_date c <= _ymd2ord 2024 6 30) /\
    (forall friday, weekday friday = 4 ->
       _ymd2ord 2024 6 1 <= friday -> friday + 2 <= _ymd2ord 2024 6 30 ->
       weekend_of friday ∈ l).
Proof.
  apply (generate_weekend_candidates_exact (_ymd2ord 2024 6 1) (_ymd2ord 2024 6 30)).
  - vm_compute. split; discriminate.
  - vm_compute. split; discriminate.
  - vm_compute. discriminate.
  - vm_compute. reflexivity.
Defined.

(** Four passing weekends of June 2024: the last one suits both people and
    goes first; of the two with two overlap days the earlier goes first; the
    one with three overlap days goes last. *)
Example strict_ranking_order :
  (fun e => isoformat (Candidates.start_date (weekend e))) <$>
    rank_weekends (june_2024 [rui; eva]) (weekend_seq (_ymd2ord 2024 6 7) 4) 4 =
  ["2024-06-28"; "2024-06-07"; "2024-06-21"; "2024-06-14"].
Proof. vm_compute. reflexivity. Qed.

(** No weekend of June 2024 passes: the one that blocks two people goes
    last, and the others follow their soft impact. *)
Example fallback_ranking_order :
  (fun e => (isoformat (Candidates.start_date (weekend e)),
             hard_affected_people_count e, selection_mode e)) <$>
    rank_weekends (june_2024 [ana; eva; gil]) (weekend_seq (_ymd2ord 2024 6 7) 4) 4 =
  [("2024-06-28", 1, "fallback_hard"); ("2024-06-21", 1, "fallback_hard");
   ("2024-06-14", 1, "fallback_hard"); ("2024-06-07", 2, "fallback_hard")].
Proof. vm_compute. reflexivity. Qed.

Lemma rank_weekends_strict_witness :
  exists ranked,
    stably_sorted strict_before strict_tie
      (omap (evaluate_weekend (june_2024 [rui; eva]))
            (weekend_seq (_ymd2ord 2024 6 7) 4)) ranked /\
    rank_weekends (june_2024 [rui; eva]) (weekend_seq (_ymd2ord 2024 6 7) 4) 3 =
      take 3 ranked /\
    forall (i j : nat) e1 e2,
      ranked !! i = Some e1 -> ranked !! j = Some e2 ->
      fully_feasible_people_count e1 = fully_feasible_people_count e2 ->
      affected_people_count e1 = affected_people_count e2 ->
      total_soft_overlap_days e1 = total_soft_overlap_days e2 ->
      Candidates.start_date (weekend e1) < Candidates.start_date (weekend e2) ->
      (i < j)%nat.
Proof.
  apply (rank_weekends_strict (june_2024 [rui; eva]) (weekend_seq (_ymd2ord 2024 6 7) 4) 3).
  vm_compute. discriminate.
Defined.

Lemma rank_weekends_fallback_witness :
  exists ranked,
    stably_sorted fallback_before fallback_tie
      (map (_evaluate_weekend_relaxed (june_2024 [ana; eva; gil]))
         (weekend_seq (_ymd2ord 2024 6 7) 4))
      ranked /\
    rank_weekends (june_2024 [ana; eva; gil]) (weekend_seq (_ymd2ord 2024 6 7) 4) 3 =
      take 3 ranked /\
    Forall (fun e => selection_mode e = "fallback_hard")
      (rank_weekends (june_2024 [ana; eva; gil]) (weekend_seq (_ymd2ord 2024 6 7) 4) 3).
Proof.
  apply (rank_weekends_fallback (june_2024 [ana; eva; gil])
           (weekend_seq (_ymd2ord 2024 6 7) 4) 3).
  - vm_compute. reflexivity.
  - lia.
Defined.

Lemma rank_weekends_empty_witness :
  rank_weekends (june_2024 [rui; ana]) (weekend_seq (_ymd2ord 2024 6 7) 4) 0 = [] /\
  rank_weekends (one_weekend [ana]) [] 3 = [].
Proof.
  split.
  - apply rank_weekends_empty. left. lia.
  - apply rank_weekends_empty. right. reflexivity.
Defined.

End Scenarios.

(** * Further properties *)

(** ** The generator at the ends of the calendar *)

Section CandidateBounds.
Import Datetime Candidates.

(** X3. [_first_friday_on_or_after] returns, for every date, the least Friday
    that is not before it; the offset never leaves the calendar. *)
Theorem first_friday_on_or_after_least (input_date : date) :
  date_ok input_date ->
  exists friday,
    _first_friday_on_or_after input_date = Ok friday /\
    date_ok friday /\ weekday friday = 4 /\ input_date <= friday /\
    forall d, input_date <= d -> weekday d = 4 -> friday <= d.
Proof.
  intros Hd.
  destruct (first_friday_ok input_date Hd) as (f & Hf & Hfri & Hrange & Hmax).
  exists f. split; [done|]. split; [unfold date_ok in *; lia|].
  split; [done|]. split; [lia|].
  intros d Hle Hd4. unfold weekday in *. Z.div_mod_to_equations. lia.
Qed.

Lemma first_friday_on_or_after_least_witness :
  exists friday,
    _first_friday_on_or_after (_ymd2ord 2024 6 1) = Ok friday /\
    date_ok friday /\ weekday friday = 4 /\ _ymd2ord 2024 6 1 <= friday /\
    forall d, _ymd2ord 2024 6 1 <= d -> weekday d = 4 -> friday <= d.
Proof.
  apply (first_friday_on_or_after_least (_ymd2ord 2024 6 1)).
  vm_compute. split; discriminate.
Defined.

(** X2. Every window that ends on the last date, whatever its start, makes the
    generator raise [OverflowError]. *)
Theorem generate_weekend_candidates_raises_at_date_max (min_date : date) :
  date_ok min_date ->
  generate_weekend_candidates min_date _MAXORDINAL = Raise OverflowError.
Proof. apply generate_weekend_candidates_overflow. Qed.

Lemma generate_weekend_candidates_raises_at_date_max_witness :
  generate_weekend_candidates (_ymd2ord 2024 6 1) _MAXORDINAL = Raise OverflowError.
Proof.
  apply (generate_weekend_candidates_raises_at_date_max (_ymd2ord 2024 6 1)).
  vm_compute. split; discriminate.
Defined.

End CandidateBounds.

(** ** What every ranked evaluation satisfies *)

Section RankedResults.
Import Datetime Builtins Optimizer.
Import Candidates(WeekendCandidate).
Import Models(InputData).

Lemma relaxed_weekend input_data c :
  weekend (_evaluate_weekend_relaxed input_data c) = c.
Proof. reflexivity. Qed.

Lemma evaluate_weekend_Some input_data c e :
  evaluate_weekend input_data c = Some e ->
  let relaxed := _evaluate_weekend_relaxed input_data c in
  hard_affected_people_count relaxed = 0 /\
  e = {| weekend := c;
         selection_mode := "strict_hard";
         hard_affected_people_count := 0;
         fully_feasible_people_count := fully_feasible_people_count relaxed;
         affected_people_count := affected_people_count relaxed;
         total_soft_overlap_days := total_soft_overlap_days relaxed;
         affected_people := affected_people relaxed;
         hard_affected_people := [] |}.
Proof.
  intros He relaxed.
  pose proof (hard_count_nonneg input_data c) as Hnn. fold relaxed in Hnn.
  unfold evaluate_weekend in He. fold relaxed in He.
  destruct (Z.ltb_spec 0 (hard_affected_people_count relaxed)); [discriminate|].
  injection He as <-. split; [lia|done].
Qed.

(** Where a ranked evaluation comes from: the strict evaluation of a
    candidate, or, when no candidate passes, the relaxed one. *)
Lemma ranked_elem input_data candidates top_n e :
  e ∈ rank_weekends input_data candidates top_n ->
  (exists c, c ∈ candidates /\ evaluate_weekend input_data c = Some e) \/
  (omap (evaluate_weekend input_data) candidates = [] /\
   exists c, c ∈ candidates /\ e = _evaluate_weekend_relaxed input_data c).
Proof.
  intros He.
  destruct (decide (omap (evaluate_weekend input_data) candidates = [])) as [Hnil|Hne].
  - right. split; [done|].
    rewrite rank_weekends_fallback_phase in He by done.
    apply subseteq_take in He. rewrite sort_by_perm in He.
    apply list_elem_of_fmap in He as (c & -> & Hc). by exists c.
  - left. rewrite rank_weekends_strict_phase in He by done.
    apply subseteq_take in He. rewrite sort_by_perm in He.
    by apply list_elem_of_omap in He.
Qed.

Lemma length_omap_le {A B} (f : A -> option B) l :
  (length (omap f l) <= length l)%nat.
Proof.
  induction l as [|x l IH]; cbn; [done|]. destruct (f x); cbn; lia.
Qed.

Lemma relaxed_counts input_data c :
  let e := _evaluate_weekend_relaxed input_data c in
  affected_people_count e = len (affected_people e) /\
  hard_affected_people_count e = len (hard_affected_people e) /\
  fully_feasible_people_count e + affected_people_count e =
    len (Models.people input_data) /\
  0 <= fully_feasible_people_count e /\
  0 <= affected_people_count e /\
  0 <= hard_affected_people_count e <= len (Models.people input_data).
Proof.
  cbn. unfold len.
  pose proof (length_omap_le
    (fun person => _evaluate_person_soft_impact person (Candidates.days c))
    (Models.people input_data)).
  pose proof (length_omap_le
    (fun person => _evaluate_person_hard_impact person (Candidates.days c))
    (Models.people input_data)).
  lia.
Qed.

(** X4. Every ranked evaluation is the evaluation of one of the candidates, its
    counts are the lengths of its impact lists, the fully feasible and the
    soft-affected people add up to the participants, and no count is
    negative or above the number of participants. *)
Theorem ranked_counts_consistent (input_data : InputData)
    (candidates : list WeekendCandidate) (top_n : Z) :
  Forall
    (fun e =>
       weekend e ∈ candidates /\
       affected_people_count e = len (affected_people e) /\
       hard_affected_people_count e = len (hard_affected_people e) /\
       fully_feasible_people_count e + affected_people_count e =
         len (Models.people input_data) /\
       0 <= fully_feasible_people_count e /\
       0 <= affected_people_count e /\
       0 <= hard_affected_people_count e <= len (Models.people input_data))
    (rank_weekends input_data candidates top_n).
Proof.
  apply Forall_forall. intros e He.
  apply ranked_elem in He as [(c & Hc & He)|(_ & c & Hc & ->)].
  - apply evaluate_weekend_Some in He as [Hzero ->].
    pose proof (relaxed_counts input_data c) as (Ha & Hh & Hsum & Hf & Hnn & Hb).
    cbn [weekend affected_people_count hard_affected_people_count
         fully_feasible_people_count affected_people hard_affected_people].
    repeat split; try done; lia.
  - pose proof (relaxed_counts input_data c) as (Ha & Hh & Hsum & Hf & Hnn & Hb).
    rewrite relaxed_weekend. repeat split; try done; lia.
Qed.

(** X5. A result tagged ["strict_hard"] carries no hard impact at all, and a
    result tagged ["fallback_hard"] carries at least one: the tag never
    disagrees with the hard-impact fields. *)
Theorem ranked_mode_matches_hard_impact (input_data : InputData)
    (candidates : list WeekendCandidate) (top_n : Z) :
  Forall
    (fun e =>
       (selection_mode e = "strict_hard" /\
        hard_affected_people_count e = 0 /\ hard_affected_people e = []) \/
       (selection_mode e = "fallback_hard" /\
        0 < hard_affected_people_count e /\ hard_affected_people e <> []))
    (rank_weekends input_data candidates top_n).
Proof.
  apply Forall_forall. intros e He.
  apply ranked_elem in He as [(c & Hc & He)|(Hnil & c & Hc & ->)].
  - left. by apply evaluate_weekend_Some in He as [_ ->].
  - right. split; [done|].
    pose proof (proj1 (strict_evaluations_nil _ _) Hnil c Hc) as Hne.
    pose proof (hard_count_nonneg input_data c) as Hnn.
    split; [lia|]. intros Hempty. apply Hne.
    cbn in *. by rewrite Hempty.
Qed.

End RankedResults.

(** ** Soft overlap days and the people in the impact lists *)

Section ImpactBounds.
Import Datetime Builtins Optimizer.
Import Candidates(WeekendCandidate).
Import Models(InputData).

Lemma ascending_NoDup_Z (l : list Z) : StronglySorted Z.lt l -> NoDup l.
Proof.
  induction 1 as [|x l _ IH Hall]; constructor; [|done].
  intros Hin. rewrite Forall_forall in Hall. specialize (Hall x Hin). lia.
Qed.

Lemma foldl_add_shift (a : Z) (l : list Z) : foldl Z.add a l = a + Builtins.sum l.
Proof.
  unfold Builtins.sum. revert a.
  induction l as [|x l IH]; intros a; cbn [foldl]; [lia|].
  rewrite (IH (a + x)), (IH (0 + x)). lia.
Qed.

Lemma sum_cons (x : Z) (l : list Z) : Builtins.sum (x :: l) = x + Builtins.sum l.
Proof. unfold Builtins.sum at 1. cbn [foldl]. apply foldl_add_shift. Qed.

Lemma sum_bounds (lo hi : Z) (l : list Z) :
  Forall (fun x => lo <= x <= hi) l ->
  lo * len l <= Builtins.sum l <= hi * len l.
Proof.
  unfold len. induction 1 as [|x l Hx _ IH]; [cbn; lia|].
  rewrite sum_cons. cbn [length]. lia.
Qed.

Lemma sorted_dates_length (s : gset Z) weekend_days :
  s <> ∅ -> (forall d, d ∈ s -> d ∈ tuple_days weekend_days) ->
  (1 <= length (sorted_dates s) <= 3)%nat.
Proof.
  intros Hne Hsub. split.
  - apply set_choose_L in Hne as [d Hd]. apply sorted_dates_elem in Hd.
    destruct (sorted_dates s); [by apply not_elem_of_nil in Hd|cbn; lia].
  - assert (length (tuple_days weekend_days) = 3%nat) as <-
      by by destruct weekend_days as [[? ?] ?].
    apply submseteq_length, NoDup_submseteq.
    + apply (ascending_NoDup_Z (sorted_dates s)), sorted_dates_ascending.
    + intros d Hd. apply Hsub. by apply sorted_dates_elem.
Qed.

(** A soft impact record holds between one and three dates and carries the
    person's name. *)
Lemma soft_impact_record person weekend_days r :
  _evaluate_person_soft_impact person weekend_days = Some r ->
  PersonSoftImpact.person_name r = Models.name person /\
  1 <= len (PersonSoftImpact.overlapped_dates r) <= 3.
Proof.
  unfold _evaluate_person_soft_impact.
  destruct (scan_constraints_spec (Models.soft_constraints person) weekend_days)
    as (S & -> & HS).
  destruct (decide (S = ∅)) as [|Hne]; [discriminate|]. intros [= <-]. cbn.
  split; [done|].
  pose proof (sorted_dates_length S weekend_days Hne) as Hlen.
  unfold len. assert (forall d, d ∈ S -> d ∈ tuple_days weekend_days) as Hsub
    by (intros d Hd; by apply HS in Hd as [? _]).
  specialize (Hlen Hsub). lia.
Qed.

Lemma hard_impact_record person weekend_days r :
  _evaluate_person_hard_impact person weekend_days = Some r ->
  PersonHardImpact.person_name r = Models.name person.
Proof.
  unfold _evaluate_person_hard_impact.
  destruct (scan_constraints _ _) as [S M].
  destruct (decide (S = ∅)); [discriminate|]. by intros [= <-].
Qed.

Lemma relaxed_soft_overlap_bounds input_data c :
  let e := _evaluate_weekend_relaxed input_data c in
  affected_people_count e <= total_soft_overlap_days e <= 3 * affected_people_count e.
Proof.
  cbn.
  set (affected := omap _ (Models.people input_data)).
  assert (Forall (fun x => 1 <= x <= 3)
            (map (fun person_impact =>
                    len (PersonSoftImpact.overlapped_dates person_impact)) affected))
    as Hall.
  { apply Forall_fmap, Forall_forall. intros r Hr.
    apply list_elem_of_omap in Hr as (p & _ & Hr).
    by apply soft_impact_record in Hr as [_ ?]. }
  apply sum_bounds in Hall. unfold len in *. rewrite length_map in Hall. lia.
Qed.

(** X6. In every ranked evaluation the total of soft overlap days is at least
    the number of soft-affected people and at most three times that
    number. *)
Theorem ranked_soft_overlap_bounds (input_data : InputData)
    (candidates : list WeekendCandidate) (top_n : Z) :
  Forall
    (fun e =>
       affected_people_count e <= total_soft_overlap_days e
         <= 3 * affected_people_count e)
    (rank_weekends input_data candidates top_n).
Proof.
  apply Forall_forall. intros e He.
  apply ranked_elem in He as [(c & Hc & He)|(_ & c & Hc & ->)].
  - apply evaluate_weekend_Some in He as [_ ->]. cbn [affected_people_count
      total_soft_overlap_days]. apply relaxed_soft_overlap_bounds.
  - apply relaxed_soft_overlap_bounds.
Qed.

Lemma omap_fmap_sublist {A B C} (f : A -> option B) (g : B -> C) (h : A -> C) l :
  (forall x y, f x = Some y -> g y = h x) ->
  (g <$> omap f l) `sublist_of` (h <$> l).
Proof.
  intros Hfg. induction l as [|x l IH]; cbn; [constructor|].
  destruct (f x) as [y|] eqn:Hx; cbn.
  - rewrite (Hfg x y Hx). by constructor.
  - by constructor.
Qed.

(** X7. The people named in the impact lists of a ranked evaluation are people
    of the input, in input order, none listed twice for one position. *)
Theorem ranked_impact_people (input_data : InputData)
    (candidates : list WeekendCandidate) (top_n : Z) :
  Forall
    (fun e =>
       (PersonSoftImpact.person_name <$> affected_people e)
         `sublist_of` (Models.name <$> Models.people input_data) /\
       (PersonHardImpact.person_name <$> hard_affected_people e)
         `sublist_of` (Models.name <$> Models.people input_data))
    (rank_weekends input_data candidates top_n).
Proof.
  assert (forall c,
    (PersonSoftImpact.person_name
       <$> affected_people (_evaluate_weekend_relaxed input_data c))
      `sublist_of` (Models.name <$> Models.people input_data)) as Hsoft.
  { intros c. apply omap_fmap_sublist. intros p r Hr.
    by apply soft_impact_record in Hr as [? _]. }
  apply Forall_forall. intros e He.
  apply ranked_elem in He as [(c & Hc & He)|(_ & c & Hc & ->)].
  - apply evaluate_weekend_Some in He as [_ ->].
    cbn [affected_people hard_affected_people]. split; [apply Hsoft|].
    apply sublist_nil_l.
  - split; [apply Hsoft|]. apply omap_fmap_sublist. intros p r Hr.
    by apply hard_impact_record in Hr.
Qed.

End ImpactBounds.

(** ** How many results, and in which order *)

Section RankedOrder.
Import Datetime Builtins Optimizer.
Import Candidates(WeekendCandidate).
Import Models(InputData).

(** The list [rank_weekends] cuts its result from. *)
Definition ranked_pool (input_data : InputData)
    (candidates : list WeekendCandidate) : list WeekendEvaluation :=
  match omap (evaluate_weekend input_data) candidates with
  | [] => map (_evaluate_weekend_relaxed input_data) candidates
  | e :: l => e :: l
  end.

Lemma rank_weekends_length_pool input_data candidates top_n :
  length (rank_weekends input_data candidates top_n) =
  (Z.to_nat top_n `min` length (ranked_pool input_data candidates))%nat.
Proof.
  unfold ranked_pool.
  destruct (omap (evaluate_weekend input_data) candidates) as [|e l] eqn:Ho.
  - rewrite rank_weekends_fallback_phase by done.
    by rewrite length_take, (Permutation_length (sort_by_perm _ _ _)).
  - rewrite rank_weekends_strict_phase by (by rewrite Ho).
    by rewrite length_take, (Permutation_length (sort_by_perm _ _ _)), Ho.
Qed.

Lemma ranked_pool_nonempty input_data candidates :
  candidates <> [] -> ranked_pool input_data candidates <> [].
Proof.
  intros Hne. unfold ranked_pool.
  destruct (omap _ candidates); [|done]. by destruct candidates.
Qed.

Lemma rank_weekends_nonempty input_data candidates top_n :
  0 < top_n -> candidates <> [] -> rank_weekends input_data candidates top_n <> [].
Proof.
  intros Hpos Hne Hnil.
  apply (f_equal length) in Hnil. rewrite rank_weekends_length_pool in Hnil.
  apply (ranked_pool_nonempty input_data) in Hne.
  destruct (ranked_pool input_data candidates); [done|]. cbn in Hnil. lia.
Qed.

(** X8. [rank_weekends] returns [min(top_n, k)] evaluations, where [k] is the
    number of candidates that pass strict evaluation, or of all candidates
    when none passes. So it returns at most [top_n] results, never more than
    there are candidates, and at least one whenever [top_n > 0] and there is
    a candidate. *)
Theorem rank_weekends_length (input_data : InputData)
    (candidates : list WeekendCandidate) (top_n : Z) :
  let passing := omap (evaluate_weekend input_data) candidates in
  let ranked := rank_weekends input_data candidates top_n in
  length ranked =
    (Z.to_nat top_n `min`
       (if decide (passing = []) then length candidates else length passing))%nat /\
  (length ranked <= length candidates)%nat /\
  (0 < top_n -> candidates <> [] -> ranked <> []).
Proof.
  intros passing ranked. subst ranked.
  assert (length (ranked_pool input_data candidates) =
          if decide (passing = []) then length candidates else length passing) as Hpool.
  { unfold ranked_pool. fold passing.
    destruct passing; [by rewrite length_map|done]. }
  split; [by rewrite rank_weekends_length_pool, Hpool|].
  split; [|apply rank_weekends_nonempty].
  rewrite rank_weekends_length_pool, Hpool.
  pose proof (length_omap_le (evaluate_weekend input_data) candidates).
  fold passing in H. destruct (decide (passing = [])); lia.
Qed.

Lemma tuple_le_antisym a b : tuple_le a b -> tuple_le b a -> a = b.
Proof.
  intros [Hab| ->] [Hba|Heq]; try done. exfalso. tuple_cases. lia.
Qed.

(** Two lists sorted by an injective key that hold the same elements are
    the same list. *)
Lemma sort_by_tuple_unique {A} (key : A -> Z * Z * Z * Z) (l1 l2 : list A) :
  l1 ≡ₚ l2 ->
  (forall x y, x ∈ l1 -> y ∈ l1 -> key x = key y -> x = y) ->
  sort_by key tuple_ltb l1 = sort_by key tuple_ltb l2.
Proof.
  intros Hperm Hinj.
  apply (StronglySorted_unique_strong (fun x y => tuple_le (key x) (key y)));
    [|apply sort_by_tuple_sorted..|by rewrite !sort_by_perm].
  intros x y Hx Hy Hxy Hyx.
  rewrite sort_by_perm in Hx. rewrite sort_by_perm, <- Hperm in Hy.
  apply Hinj; [done..|]. by apply tuple_le_antisym.
Qed.

Lemma NoDup_fmap_inj_on {A B} (f : A -> B) (l : list A) x y :
  NoDup (f <$> l) -> x ∈ l -> y ∈ l -> f x = f y -> x = y.
Proof.
  induction l as [|z l IH]; cbn; [by intros _ ?%not_elem_of_nil|].
  intros [Hz Hnd]%NoDup_cons [-> |Hx]%elem_of_cons [-> |Hy]%elem_of_cons Hf;
    [done| | |by apply IH].
  - destruct Hz. rewrite Hf. by apply list_elem_of_fmap_2.
  - destruct Hz. rewrite <- Hf. by apply list_elem_of_fmap_2.
Qed.

(** X9. When no two candidates start on the same date, the ranking does not
    depend on the order in which the candidates are given. *)
Theorem rank_weekends_order_independent (input_data : InputData)
    (candidates1 candidates2 : list WeekendCandidate) (top_n : Z) :
  candidates1 ≡ₚ candidates2 ->
  NoDup (Candidates.start_date <$> candidates1) ->
  rank_weekends input_data candidates1 top_n =
  rank_weekends input_data candidates2 top_n.
Proof.
  intros Hperm Hnd.
  assert (sort_by strict_key tuple_ltb (omap (evaluate_weekend input_data) candidates1) =
          sort_by strict_key tuple_ltb (omap (evaluate_weekend input_data) candidates2))
    as Hstrict.
  { apply sort_by_tuple_unique; [by rewrite Hperm|].
    intros e1 e2 (c1 & Hc1 & He1)%list_elem_of_omap (c2 & Hc2 & He2)%list_elem_of_omap Hk.
    apply evaluate_weekend_Some in He1 as [_ He1], He2 as [_ He2].
    assert (c1 = c2) as ->; [|congruence].
    apply (NoDup_fmap_inj_on Candidates.start_date candidates1); [done..|].
    rewrite He1, He2 in Hk. by injection Hk. }
  assert (sort_by fallback_key tuple_ltb
            (map (_evaluate_weekend_relaxed input_data) candidates1) =
          sort_by fallback_key tuple_ltb
            (map (_evaluate_weekend_relaxed input_data) candidates2))
    as Hrelaxed.
  { apply sort_by_tuple_unique; [by apply Permutation_map|].
    intros e1 e2 (c1 & -> & Hc1)%list_elem_of_fmap (c2 & -> & Hc2)%list_elem_of_fmap Hk.
    assert (c1 = c2) as ->; [|done].
    apply (NoDup_fmap_inj_on Candidates.start_date candidates1); [done..|].
    by injection Hk. }
  unfold rank_weekends. by rewrite Hstrict, Hrelaxed.
Qed.

End RankedOrder.

(** ** Weekends nobody objects to, and the whole pipeline *)

Section Pipeline.
Import Datetime Builtins Optimizer.
Import Candidates(WeekendCandidate, generate_weekend_candidates).
Import Models(InputData, DateConstraint, overlaps_date).

Lemma sort_by_sorted_id {A K} (key : A -> K) (ltb : K -> K -> bool) l :
  StronglySorted (key_le key ltb) l -> sort_by key ltb l = l.
Proof.
  induction 1 as [|x l Hl IH Hx]; [done|].
  change (sort_by key ltb (x :: l)) with (insert_by key ltb x (sort_by key ltb l)).
  rewrite IH. destruct l as [|y l']; [done|]. cbn.
  apply Forall_cons in Hx as [Hxy _]. unfold key_le in Hxy. by rewrite Hxy.
Qed.

Lemma omap_all_None {A B} (f : A -> option B) l :
  (forall x, x ∈ l -> f x = None) -> omap f l = [].
Proof.
  induction l as [|x l IH]; intros Hall; cbn; [done|].
  rewrite (Hall x) by by left. apply IH. intros y Hy. apply Hall. by right.
Qed.

Lemma scan_uncovered constraints weekend_days :
  (forall k, k ∈ constraints -> ~ covers weekend_days k) ->
  exists matched, scan_constraints constraints weekend_days = (∅, matched).
Proof.
  intros Hno.
  destruct (scan_constraints_spec constraints weekend_days) as (S & -> & HS).
  eexists. f_equal. apply elem_of_equiv_empty_L. intros d Hd.
  apply HS in Hd as (Hd & k & Hk & Hov).
  apply (Hno k Hk). apply Exists_exists. by eauto.
Qed.

(** No constraint of any person overlaps a day of any candidate. *)
Definition untouched (input_data : InputData)
    (candidates : list WeekendCandidate) : Prop :=
  forall c p k,
    c ∈ candidates -> p ∈ Models.people input_data ->
    k ∈ Models.hard_constraints p ++ Models.soft_constraints p ->
    ~ covers (Candidates.days c) k.

(** The evaluation of a weekend that suits everybody. *)
Definition feasible_evaluation (input_data : InputData)
    (c : WeekendCandidate) : WeekendEvaluation :=
  {| weekend := c;
     selection_mode := "strict_hard";
     hard_affected_people_count := 0;
     fully_feasible_people_count := len (Models.people input_data);
     affected_people_count := 0;
     total_soft_overlap_days := 0;
     affected_people := [];
     hard_affected_people := [] |}.

Lemma evaluate_weekend_untouched input_data candidates c :
  untouched input_data candidates -> c ∈ candidates ->
  evaluate_weekend input_data c = Some (feasible_evaluation input_data c).
Proof.
  intros Hun Hc.
  assert (omap (fun person => _evaluate_person_hard_impact person (Candidates.days c))
               (Models.people input_data) = []) as Hhard.
  { apply omap_all_None. intros p Hp. unfold _evaluate_person_hard_impact.
    destruct (scan_uncovered (Models.hard_constraints p) (Candidates.days c))
      as [M ->]; [|done].
    intros k Hk. apply (Hun c p k); [done..|]. apply elem_of_app. by left. }
  assert (omap (fun person => _evaluate_person_soft_impact person (Candidates.days c))
               (Models.people input_data) = []) as Hsoft.
  { apply omap_all_None. intros p Hp. unfold _evaluate_person_soft_impact.
    destruct (scan_uncovered (Models.soft_constraints p) (Candidates.days c))
      as [M ->]; [|done].
    intros k Hk. apply (Hun c p k); [done..|]. apply elem_of_app. by right. }
  unfold evaluate_weekend, _evaluate_weekend_relaxed, feasible_evaluation.
  rewrite Hhard, Hsoft. cbn. do 2 f_equal. unfold len. cbn. lia.
Qed.

(** X10. When no constraint touches any candidate and the candidates are given
    in order of start date, [rank_weekends] returns the first [top_n] of
    them in that order, every one tagged ["strict_hard"] with all
    participants fully feasible. *)
Theorem rank_weekends_untouched (input_data : InputData)
    (candidates : list WeekendCandidate) (top_n : Z) :
  untouched input_data candidates ->
  StronglySorted
    (fun c1 c2 => Candidates.start_date c1 <= Candidates.start_date c2) candidates ->
  rank_weekends input_data candidates top_n =
  take (Z.to_nat top_n) (feasible_evaluation input_data <$> candidates).
Proof.
  intros Hun Hsorted.
  assert (omap (evaluate_weekend input_data) candidates =
          feasible_evaluation input_data <$> candidates) as Hpass.
  { assert (forall c, c ∈ candidates ->
              evaluate_weekend input_data c = Some (feasible_evaluation input_data c))
      as Hall by (intros c Hc; by eapply evaluate_weekend_untouched).
    clear Hun Hsorted. induction candidates as [|c cs IH]; [done|]. cbn.
    rewrite (Hall c) by by left. f_equal. apply IH. intros c' Hc'. apply Hall. by right. }
  destruct candidates as [|c cs].
  { rewrite rank_weekends_fallback_phase by done. cbn. by rewrite !take_nil. }
  rewrite rank_weekends_strict_phase by (by rewrite Hpass).
  rewrite Hpass. f_equal. apply sort_by_sorted_id.
  apply (StronglySorted_fmap _ (fun c1 c2 =>
           Candidates.start_date c1 <= Candidates.start_date c2)); [|done].
  intros c1 c2 Hle. unfold key_le. apply tuple_ltb_le.
  unfold strict_key, feasible_evaluation. cbn.
  destruct (decide (Candidates.start_date c1 = Candidates.start_date c2)) as [->|Hne];
    [by right|left]. cbn. lia.
Qed.

(** X11. [_constraint_overlaps_any_weekend_day] agrees with what the impact
    evaluation matches on, and on a Friday-to-Sunday span it is the test
    that the constraint's dates meet the span: a single date inside it, or
    a non-empty interval that starts by the Sunday and ends on or after the
    Friday. *)
Theorem constraint_overlaps_weekend (constraint : DateConstraint) (friday : date) :
  let weekend_days := Candidates.days (weekend_of friday) in
  (_constraint_overlaps_any_weekend_day constraint weekend_days = true <->
   covers weekend_days constraint) /\
  (forall d, Models.kind constraint = "date" -> Models.date_value constraint = Some d ->
     (_constraint_overlaps_any_weekend_day constraint weekend_days = true <->
      friday <= d <= friday + 2)) /\
  (forall s e, Models.kind constraint <> "date" ->
     Models.start_date constraint = Some s -> Models.end_date constraint = Some e ->
     (_constraint_overlaps_any_weekend_day constraint weekend_days = true <->
      s <= e /\ s <= friday + 2 /\ friday <= e)).
Proof.
  intros weekend_days. subst weekend_days. split; [|split].
  - unfold _constraint_overlaps_any_weekend_day, covers.
    rewrite existsb_exists, Exists_exists. by setoid_rewrite list_elem_of_In.
  - intros d Hk Hd. unfold _constraint_overlaps_any_weekend_day, overlaps_date.
    rewrite Hk, Hd. cbn.
    destruct (Z.eqb_spec d friday), (Z.eqb_spec d (friday + 1)),
      (Z.eqb_spec d (friday + 2)); cbn; split; (done || lia).
  - intros s e Hk Hs He. unfold _constraint_overlaps_any_weekend_day, overlaps_date.
    apply String.eqb_neq in Hk. rewrite Hk, Hs, He. cbn.
    destruct (Z.leb_spec s friday), (Z.leb_spec friday e),
      (Z.leb_spec s (friday + 1)), (Z.leb_spec (friday + 1) e),
      (Z.leb_spec s (friday + 2)), (Z.leb_spec (friday + 2) e);
      cbn; split; (done || lia).
Qed.

(** X12. Generation followed by ranking, for an input whose window ends before
    the last date: the generator returns, every ranked evaluation is for a
    Friday-to-Sunday span inside the window, and a result comes back
    whenever [top_n > 0] and the window holds a whole weekend. *)
Theorem generate_then_rank (input_data : InputData) (top_n : Z) :
  let min_date := Models.min_date input_data in
  let max_date := Models.max_date input_data in
  date_ok min_date -> max_date < _MAXORDINAL ->
  exists candidates,
    generate_weekend_candidates min_date max_date = Ok candidates /\
    Forall
      (fun e =>
         let w := weekend e in
         weekday (Candidates.start_date w) = 4 /\
         Candidates.end_date w = Candidates.start_date w + 2 /\
         Candidates.days w =
           (Candidates.start_date w, Candidates.start_date w + 1,
            Candidates.start_date w + 2) /\
         min_date <= Candidates.start_date w /\ Candidates.end_date w <= max_date)
      (rank_weekends input_data candidates top_n) /\
    (0 < top_n ->
     (exists friday, weekday friday = 4 /\ min_date <= friday /\ friday + 2 <= max_date) ->
     rank_weekends input_data candidates top_n <> []).
Proof.
  intros min_date max_date Hmin Hmax.
  destruct (generate_weekend_candidates_ok _ _ Hmin Hmax) as (f & _ & Hfri & Hrange & ->).
  eexists. split; [done|]. split.
  - apply Forall_forall. intros e He.
    assert (weekend e ∈ weekend_seq f (n_weekends f max_date)) as Hw.
    { apply ranked_elem in He as [(c & Hc & He)|(_ & c & Hc & ->)]; [|done].
      by apply evaluate_weekend_Some in He as [_ ->]. }
    apply weekend_seq_elem in Hw as (k & Hk & ->). cbn.
    unfold n_weekends, weekday in *. repeat split; try lia;
      Z.div_mod_to_equations; lia.
  - intros Hpos (d & Hd & Hlo & Hhi). apply rank_weekends_nonempty; [done|].
    assert (weekend_of d ∈ weekend_seq f (n_weekends f max_date)) as Hin.
    { apply weekend_seq_elem. exists ((d - f) / 7).
      unfold n_weekends, weekday in *.
      split; [Z.div_mod_to_equations; lia|]. f_equal. Z.div_mod_to_equations. lia. }
    intros Hnil. rewrite Hnil in Hin. by apply not_elem_of_nil in Hin.
Qed.

End Pipeline.

(** * Input validation: the parsing half of [weekend_picker/models.py] *)

(** ** JSON values as [json.loads] builds them *)

#[warnings="-register-all"]
Inductive json :=
| JNull
| JBool (b : bool)
| JInt (n : Z)
| JFloat (x : PrimFloat.float)
| JStr (s : string)
| JList (l : list json)
| JDict (d : gmap string json).

(** The exceptions the parsing functions can raise. *)
Inductive exception :=
| InputValidationError (message : string)
| TypeError (message : string).

Inductive outcome (A : Type) :=
| Return (a : A)
| Throw (e : exception).
Arguments Return {A} a.
Arguments Throw {A} e.

#[global] Instance outcome_ret : MRet outcome := @Return.
#[global] Instance outcome_bind : MBind outcome := fun A B k r =>
  match r with
  | Return a => k a
  | Throw e => Throw e
  end.

Module Parsing.
Import Datetime Builtins.
Import Models(DateConstraint, PersonConstraints, InputData).

(** [f"{n}"] for an integer. *)
Definition format_int (n : Z) : string := NilZero.string_of_int (Z.to_int n).

(** [x in {"date", "interval"}]: membership in a set hashes [x] first, and
    lists and dicts are unhashable. Only a string can equal a member. *)
Definition in_str_set (x : json) (members : list string) : outcome bool :=
  match x with
  | JList _ => Throw (TypeError "unhashable type: 'list'")
  | JDict _ => Throw (TypeError "unhashable type: 'dict'")
  | JStr s => Return (bool_decide (s ∈ members))
  | _ => Return false
  end.

(** [x == "..."] for a string literal. *)
Definition eq_str (x : json) (s : string) : bool :=
  match x with
  | JStr s' => String.eqb s' s
  | _ => false
  end.

(** [sorted(...)] of a set of strings; Python orders strings by code point,
    which is the byte order of their UTF-8 form. *)
Definition sorted_strings (s : gset string) : list string :=
  sort_by id String.ltb (elements s).

(** [_validate_object_keys]. *)
Definition _validate_object_keys (payload : gmap string json)
    (allowed_keys : gset string) (object_name : string) : outcome unit :=
  let unknown := dom payload ∖ allowed_keys in
  if decide (unknown = ∅) then Return tt
  else
    let unknown_joined := String.concat ", " (sorted_strings unknown) in
    Throw (InputValidationError
             ("Unknown field(s) in " +:+ object_name +:+ ": " +:+ unknown_joined)).

Section Library.

(** [datetime.strptime(raw_date, "%Y-%m-%d").date()], [None] where it
    raises [ValueError]. *)
Variable strptime_date : string -> option date.

(** [str(x)] and [repr(x)] of a JSON value. *)
Variable str : json -> string.
Variable repr : json -> string.

(** [s.strip()]. *)
Variable strip : string -> string.

(** [parse_iso_date]. *)
Definition parse_iso_date (raw_date field_name : string) : outcome date :=
  match strptime_date raw_date with
  | Some d => Return d
  | None =>
    Throw (InputValidationError
             ("Invalid date at '" +:+ field_name +:+ "': '" +:+ raw_date +:+ "'. "
              +:+ "Expected YYYY-MM-DD."))
  end.

(** [_parse_constraint]. *)
Definition _parse_constraint (raw_constraint : gmap string json)
    (constraint_path : string) : outcome DateConstraint :=
  _ ← _validate_object_keys raw_constraint
        (list_to_set ["type"; "date"; "start_date"; "end_date"]) constraint_path;
  let raw_type := default JNull (raw_constraint !! "type") in
  known ← in_str_set raw_type ["date"; "interval"];
  if negb known then
    Throw (InputValidationError
             ("Invalid constraint type at '" +:+ constraint_path +:+ ".type': "
              +:+ repr raw_type +:+ ". Expected 'date' or 'interval'."))
  else if eq_str raw_type "date" then
    match raw_constraint !! "date" with
    | None =>
      Throw (InputValidationError
               ("Missing '" +:+ constraint_path +:+ ".date' for date constraint."))
    | Some raw_date =>
      parsed_date ← parse_iso_date (str raw_date) (constraint_path +:+ ".date");
      Return {| Models.kind := "date"; Models.date_value := Some parsed_date;
                Models.start_date := None; Models.end_date := None |}
    end
  else
    match raw_constraint !! "start_date", raw_constraint !! "end_date" with
    | Some raw_start, Some raw_end =>
      parsed_start ← parse_iso_date (str raw_start) (constraint_path +:+ ".start_date");
      parsed_end ← parse_iso_date (str raw_end) (constraint_path +:+ ".end_date");
      if parsed_end <? parsed_start then
        Throw (InputValidationError
                 ("Invalid interval at '" +:+ constraint_path
                  +:+ "': start_date is after " +:+ "end_date."))
      else
        Return {| Models.kind := "interval"; Models.date_value := None;
                  Models.start_date := Some parsed_start;
                  Models.end_date := Some parsed_end |}
    | _, _ =>
      Throw (InputValidationError
               ("Missing interval bounds at " +:+ "'" +:+ constraint_path
                +:+ ".start_date'/'" +:+ constraint_path +:+ ".end_date'."))
    end.

(** The [for index, raw_constraint in enumerate(raw_constraints)] loop of
    [_parse_constraint_list], from position [index] with
    [parsed_constraints] collected so far. *)
Fixpoint constraint_loop (list_path : string) (index : Z)
    (raw_constraints : list json) (parsed_constraints : list DateConstraint)
    : outcome (list DateConstraint) :=
  match raw_constraints with
  | [] => Return parsed_constraints
  | raw_constraint :: rest =>
    match raw_constraint with
    | JDict raw =>
      parsed ← _parse_constraint raw
                 (list_path +:+ "[" +:+ format_int index +:+ "]");
      constraint_loop list_path (index + 1) rest (parsed_constraints ++ [parsed])
    | _ =>
      Throw (InputValidationError
               ("Expected object at '" +:+ list_path +:+ "["
                +:+ format_int index +:+ "]'."))
    end
  end.

(** [_parse_constraint_list]. *)
Definition _parse_constraint_list (raw_constraints : json) (list_path : string)
    : outcome (list DateConstraint) :=
  match raw_constraints with
  | JNull => Return []
  | JList l => constraint_loop list_path 0 l []
  | _ => Throw (InputValidationError ("Expected list at '" +:+ list_path +:+ "'."))
  end.

(** [_parse_person]. *)
Definition _parse_person (raw_person : gmap string json) (person_index : Z)
    : outcome PersonConstraints :=
  let person_path := "people[" +:+ format_int person_index +:+ "]" in
  _ ← _validate_object_keys raw_person
        (list_to_set ["name"; "hard_constraints"; "soft_constraints"]) person_path;
  match raw_person !! "name" with
  | Some (JStr raw_name) =>
    if String.eqb (strip raw_name) "" then
      Throw (InputValidationError
               ("Expected non-empty string at '" +:+ person_path +:+ ".name'."))
    else
      hard_constraints ←
        _parse_constraint_list
          (default (JList []) (raw_person !! "hard_constraints"))
          (person_path +:+ ".hard_constraints");
      soft_constraints ←
        _parse_constraint_list
          (default (JList []) (raw_person !! "soft_constraints"))
          (person_path +:+ ".soft_constraints");
      Return {| Models.name := strip raw_name;
                Models.hard_constraints := hard_constraints;
                Models.soft_constraints := soft_constraints |}
  | _ =>
    Throw (InputValidationError
             ("Expected non-empty string at '" +:+ person_path +:+ ".name'."))
  end.

(** The [for index, raw_person in enumerate(raw_people)] loop of
    [parse_input_payload]; its state is [people] and [seen_names]. *)
Fixpoint people_loop (index : Z) (raw_people : list json)
    (people : list PersonConstraints) (seen_names : gset string)
    : outcome (list PersonConstraints) :=
  match raw_people with
  | [] => Return people
  | raw_person :: rest =>
    match raw_person with
    | JDict raw =>
      parsed_person ← _parse_person raw index;
      if decide (Models.name parsed_person ∈ seen_names) then
        Throw (InputValidationError
                 ("Duplicate person name found: '"
                  +:+ Models.name parsed_person +:+ "'."))
      else
        people_loop (index + 1) rest (people ++ [parsed_person])
          ({[Models.name parsed_person]} ∪ seen_names)
    | _ =>
      Throw (InputValidationError
               ("Expected object at 'people[" +:+ format_int index +:+ "]'."))
    end
  end.

(** [parse_input_payload]. *)
Definition parse_input_payload (payload : gmap string json) : outcome InputData :=
  _ ← _validate_object_keys payload
        (list_to_set ["min_date"; "max_date"; "people"]) "root payload";
  match payload !! "min_date", payload !! "max_date" with
  | Some raw_min, Some raw_max =>
    min_date ← parse_iso_date (str raw_min) "min_date";
    max_date ← parse_iso_date (str raw_max) "max_date";
    if max_date <? min_date then
      Throw (InputValidationError "Invalid range: min_date is after max_date.")
    else
      match payload !! "people" with
      | Some (JList raw_people) =>
        match raw_people with
        | [] =>
          Throw (InputValidationError "Expected at least one person in 'people'.")
        | _ :: _ =>
          people ← people_loop 0 raw_people [] ∅;
          Return {| Models.min_date := min_date;
                    Models.max_date := max_date;
                    Models.people := people |}
        end
      | _ => Throw (InputValidationError "Expected list at 'people'.")
      end
  | _, _ =>
    Throw (InputValidationError "Both 'min_date' and 'max_date' are required.")
  end.

End Library.
End Parsing.

(** ** What the parsing functions accept and reject *)

Section ParsingFacts.
Import Datetime Parsing.
Context (strptime_date : string -> option Z) (str repr : json -> string)
  (strip : string -> string).

Abbreviation parse_constraint := (_parse_constraint strptime_date str repr).
Abbreviation parse_constraint_list := (_parse_constraint_list strptime_date str repr).
Abbreviation parse_person := (_parse_person strptime_date str repr strip).
Abbreviation parse_payload := (parse_input_payload strptime_date str repr strip).

Definition constraint_keys : gset string :=
  list_to_set ["type"; "date"; "start_date"; "end_date"].
Definition person_keys : gset string :=
  list_to_set ["name"; "hard_constraints"; "soft_constraints"].
Definition root_keys : gset string :=
  list_to_set ["min_date"; "max_date"; "people"].

(** The error for keys outside the allowed ones. *)
Definition unknown_fields_error (payload : gmap string json)
    (allowed_keys : gset string) (object_name : string) : exception :=
  InputValidationError
    ("Unknown field(s) in " +:+ object_name +:+ ": "
     +:+ String.concat ", " (sorted_strings (dom payload ∖ allowed_keys))).

Lemma validate_object_keys_cases payload allowed_keys object_name :
  (dom payload ⊆ allowed_keys /\
   _validate_object_keys payload allowed_keys object_name = Return tt) \/
  (~ dom payload ⊆ allowed_keys /\
   _validate_object_keys payload allowed_keys object_name =
   Throw (unknown_fields_error payload allowed_keys object_name)).
Proof.
  unfold _validate_object_keys.
  destruct (decide (dom payload ∖ allowed_keys = ∅)) as [He|Hne].
  - left. split; [|done]. intros k Hk.
    destruct (decide (k ∈ allowed_keys)) as [|Hout]; [done|exfalso].
    apply (not_elem_of_empty (C:=gset string) k). rewrite <- He.
    by apply elem_of_difference.
  - right. split; [|done]. intros Hsub. apply Hne.
    apply elem_of_equiv_empty_L. intros k [Hk Hout]%elem_of_difference.
    by apply Hout, Hsub.
Qed.

(** A constraint as [_parse_constraint] builds it. *)
Definition validated_constraint (c : Models.DateConstraint) : Prop :=
  (exists d, c = on_date d) \/ (exists s e, s <= e /\ c = on_interval s e).

Lemma parse_constraint_cases (raw : gmap string json) (path : string)
    (c : Models.DateConstraint) :
  parse_constraint raw path = Return c <->
  dom raw ⊆ constraint_keys /\
  ((raw !! "type" = Some (JStr "date") /\
    exists v d, raw !! "date" = Some v /\ strptime_date (str v) = Some d /\
      c = on_date d) \/
   (raw !! "type" = Some (JStr "interval") /\
    exists vs ve s e,
      raw !! "start_date" = Some vs /\ raw !! "end_date" = Some ve /\
      strptime_date (str vs) = Some s /\ strptime_date (str ve) = Some e /\
      s <= e /\ c = on_interval s e)).
Proof.
  unfold _parse_constraint. fold constraint_keys.
  destruct (validate_object_keys_cases raw constraint_keys path) as [[Hsub ->]|[Hsub ->]];
    cbn; [|split; [done|by intros [? _]]].
  split.
  - intros H. split; [done|].
    destruct (raw !! "type") as [[ |b|n|x|s|l|m]|]; cbn in H; try discriminate.
    destruct (bool_decide_reflect (s ∈ ["date"; "interval"])) as [Hs|Hs];
      cbn in H; [|discriminate].
    destruct (String.eqb_spec s "date") as [Heq|Hne]; [subst s|].
    + left. split; [done|].
      destruct (raw !! "date") as [v|]; [|discriminate].
      unfold parse_iso_date in H.
      destruct (strptime_date (str v)) as [d|] eqn:Hd; cbn in H; [|discriminate].
      injection H as <-. by exists v, d.
    + right. assert (s = "interval") as ->.
      { apply elem_of_cons in Hs as [?|Hs]; [done|].
        apply elem_of_cons in Hs as [?|Hs]; [done|].
        by apply not_elem_of_nil in Hs. }
      split; [done|].
      destruct (raw !! "start_date") as [vs|], (raw !! "end_date") as [ve|];
        try discriminate.
      unfold parse_iso_date in H.
      destruct (strptime_date (str vs)) as [s|] eqn:Hs'; cbn in H; [|discriminate].
      destruct (strptime_date (str ve)) as [e|] eqn:He'; cbn in H; [|discriminate].
      destruct (Z.ltb_spec e s); [discriminate|]. injection H as <-.
      exists vs, ve, s, e. by repeat split.
  - intros [_ [[Ht (v & d & Hv & Hd & ->)]|[Ht (vs & ve & s & e & Hs & He & Hps & Hpe & Hle & ->)]]].
    + rewrite Ht, Hv. cbn. unfold parse_iso_date. by rewrite Hd.
    + rewrite Ht, Hs, He. cbn. unfold parse_iso_date. rewrite Hps, Hpe. cbn.
      by destruct (Z.ltb_spec e s); [lia|].
Qed.

(** X13. [_parse_constraint] succeeds in exactly two ways. With no key outside
    [type], [date], [start_date], [end_date]: either [type] is ["date"] and
    [date] is present and parses, or [type] is ["interval"] and both bounds
    are present, parse, and are in order. Keys of the other kind that are
    present as well are ignored. *)
Theorem parse_constraint_spec (raw : gmap string json) (path : string)
    (c : Models.DateConstraint) :
  parse_constraint raw path = Return c <->
  dom raw ⊆ constraint_keys /\
  ((raw !! "type" = Some (JStr "date") /\
    exists v d, raw !! "date" = Some v /\ strptime_date (str v) = Some d /\
      c = on_date d) \/
   (raw !! "type" = Some (JStr "interval") /\
    exists vs ve s e,
      raw !! "start_date" = Some vs /\ raw !! "end_date" = Some ve /\
      strptime_date (str vs) = Some s /\ strptime_date (str ve) = Some e /\
      s <= e /\ c = on_interval s e)).
Proof. apply parse_constraint_cases. Qed.

Lemma parse_constraint_validated raw path c :
  parse_constraint raw path = Return c -> validated_constraint c.
Proof.
  intros [_ [[_ (v & d & _ & _ & ->)]|[_ (vs & ve & s & e & _ & _ & _ & _ & Hle & ->)]]]
    %parse_constraint_cases.
  - left. by exists d.
  - right. by exists s, e.
Qed.

Lemma constraint_loop_Return path index l parsed cs :
  constraint_loop strptime_date str repr path index l parsed = Return cs ->
  exists cs', cs = parsed ++ cs' /\ length cs' = length l /\
    Forall validated_constraint cs'.
Proof.
  revert index parsed. induction l as [|raw l IH]; intros index parsed H; cbn in H.
  - injection H as <-. exists []. by rewrite app_nil_r.
  - destruct raw as [ |b|n|x|s|l'|raw]; try discriminate.
    destruct (parse_constraint raw _) as [c|e] eqn:Hc; cbn in H; [|discriminate].
    apply IH in H as (cs' & -> & Hlen & Hall).
    exists (c :: cs'). rewrite <- app_assoc. split; [done|]. cbn. split; [lia|].
    constructor; [by eapply parse_constraint_validated|done].
Qed.

Lemma parse_constraint_list_Return raw path cs :
  parse_constraint_list raw path = Return cs ->
  Forall validated_constraint cs /\
  ((raw = JNull /\ cs = []) \/ (exists l, raw = JList l /\ length cs = length l)).
Proof.
  unfold _parse_constraint_list. destruct raw as [ |b|n|x|s|l|m]; try discriminate.
  - intros [= <-]. split; [constructor|by left].
  - intros (cs' & -> & Hlen & Hall)%constraint_loop_Return.
    split; [done|]. right. by exists l.
Qed.

Lemma parse_person_Return raw index p :
  parse_person raw index = Return p ->
  dom raw ⊆ person_keys /\
  exists raw_name,
    raw !! "name" = Some (JStr raw_name) /\
    Models.name p = strip raw_name /\ strip raw_name <> "" /\
    Forall validated_constraint (Models.hard_constraints p) /\
    Forall validated_constraint (Models.soft_constraints p).
Proof.
  unfold _parse_person. fold person_keys.
  destruct (validate_object_keys_cases raw person_keys
              ("people[" +:+ format_int index +:+ "]")) as [[Hsub ->]|[Hsub ->]];
    cbn; [|done].
  intros H. split; [done|].
  destruct (raw !! "name") as [[ |b|n|x|s|l|m]|]; try discriminate.
  destruct (String.eqb_spec (strip s) "") as [|Hne]; [discriminate|].
  destruct (parse_constraint_list (default (JList []) (raw !! "hard_constraints")) _)
    as [hard|] eqn:Hhard; cbn in H; [|discriminate].
  destruct (parse_constraint_list (default (JList []) (raw !! "soft_constraints")) _)
    as [soft|] eqn:Hsoft; cbn in H; [|discriminate].
  injection H as <-. exists s. cbn.
  apply parse_constraint_list_Return in Hhard as [? _], Hsoft as [? _]. by repeat split.
Qed.

(** A raw entry of [people] and the person parsed from it. *)
Definition person_of (raw : json) (p : Models.PersonConstraints) : Prop :=
  exists d raw_name,
    raw = JDict d /\ d !! "name" = Some (JStr raw_name) /\
    Models.name p = strip raw_name.

Lemma people_loop_Return index l people seen ps :
  people_loop strptime_date str repr strip index l people seen = Return ps ->
  (forall n, n ∈ seen <-> n ∈ Models.name <$> people) ->
  NoDup (Models.name <$> people) ->
  exists ps',
    ps = people ++ ps' /\ NoDup (Models.name <$> ps) /\
    Forall2 person_of l ps' /\
    Forall (fun p => Models.name p <> "" /\
              Forall validated_constraint
                (Models.hard_constraints p ++ Models.soft_constraints p)) ps'.
Proof.
  revert index people seen.
  induction l as [|raw l IH]; intros index people seen H Hseen Hnd; cbn in H.
  - injection H as <-. exists []. rewrite app_nil_r.
    split; [done|]. split; [done|]. split; constructor.
  - destruct raw as [ |b|n|x|s|l'|raw]; try discriminate.
    destruct (parse_person raw index) as [p|e] eqn:Hp; cbn in H; [|discriminate].
    destruct (decide (Models.name p ∈ seen)) as [|Hfresh]; [discriminate|].
    apply IH in H as (ps' & -> & Hnd' & Hall & Hok).
    + exists (p :: ps'). rewrite <- app_assoc in Hnd'. rewrite <- app_assoc.
      split; [done|]. split; [done|].
      apply parse_person_Return in Hp as (_ & s & Hs & Hname & Hne & Hhard & Hsoft).
      split; constructor; try done.
      * exists raw, s. by repeat split.
      * split; [congruence|]. by apply Forall_app.
    + intros n. rewrite fmap_app, elem_of_app, elem_of_union, elem_of_singleton, Hseen.
      cbn. rewrite list_elem_of_singleton. tauto.
    + rewrite fmap_app. apply NoDup_app. split; [done|]. split.
      * intros n Hn Hn'. apply list_elem_of_singleton in Hn'. subst n.
        by apply Hfresh, Hseen.
      * apply NoDup_singleton.
Qed.

Lemma parse_input_payload_valid_people (payload : gmap string json)
    (input_data : Models.InputData) :
  parse_payload payload = Return input_data ->
  dom payload ⊆ root_keys /\
  (exists raw_min raw_max,
     payload !! "min_date" = Some raw_min /\ payload !! "max_date" = Some raw_max /\
     strptime_date (str raw_min) = Some (Models.min_date input_data) /\
     strptime_date (str raw_max) = Some (Models.max_date input_data)) /\
  Models.min_date input_data <= Models.max_date input_data /\
  (exists raw_people,
     payload !! "people" = Some (JList raw_people) /\
     Forall2 person_of raw_people (Models.people input_data)) /\
  Models.people input_data <> [] /\
  NoDup (Models.name <$> Models.people input_data) /\
  Forall (fun p => Models.name p <> "" /\
            Forall validated_constraint
              (Models.hard_constraints p ++ Models.soft_constraints p))
    (Models.people input_data).
Proof.
  unfold parse_input_payload. fold root_keys.
  destruct (validate_object_keys_cases payload root_keys "root payload")
    as [[Hsub ->]|[Hsub ->]]; cbn; [|done].
  intros H. split; [done|].
  destruct (payload !! "min_date") as [raw_min|]; [|discriminate].
  destruct (payload !! "max_date") as [raw_max|]; [|discriminate].
  unfold parse_iso_date in H.
  destruct (strptime_date (str raw_min)) as [dmin|] eqn:Hmin; cbn in H; [|discriminate].
  destruct (strptime_date (str raw_max)) as [dmax|] eqn:Hmax; cbn in H; [|discriminate].
  destruct (Z.ltb_spec dmax dmin) as [|Hle]; [discriminate|].
  destruct (payload !! "people") as [[ |b|n|x|s|raw_people|m]|]; try discriminate.
  destruct raw_people as [|raw rest] eqn:Hraw; [discriminate|]. rewrite <- Hraw in *.
  destruct (people_loop _ _ _ _ 0 raw_people [] ∅) as [ps|] eqn:Hloop;
    cbn in H; [|discriminate].
  injection H as <-. cbn.
  apply people_loop_Return in Hloop as (ps' & -> & Hnd & Hall & Hok);
    [|by intros n; rewrite elem_of_empty, elem_of_nil|constructor].
  cbn in *. split; [by exists raw_min, raw_max|]. split; [done|].
  split; [by exists raw_people|]. split; [|done].
  intros ->. apply Forall2_nil_inv_r in Hall. congruence.
Qed.

(** X14. Whatever [parse_input_payload] accepts is a valid input: the root has
    no unknown key, both dates parse and are in order, [people] is a
    non-empty list parsed entry by entry in order, no two people share a
    name, no name is empty, and every constraint is a date or an interval
    whose bounds are in order. *)
Theorem parse_input_payload_valid (payload : gmap string json)
    (input_data : Models.InputData) :
  parse_payload payload = Return input_data ->
  dom payload ⊆ root_keys /\
  (exists raw_min raw_max,
     payload !! "min_date" = Some raw_min /\ payload !! "max_date" = Some raw_max /\
     strptime_date (str raw_min) = Some (Models.min_date input_data) /\
     strptime_date (str raw_max) = Some (Models.max_date input_data)) /\
  Models.min_date input_data <= Models.max_date input_data /\
  (exists raw_people,
     payload !! "people" = Some (JList raw_people) /\
     Forall2 person_of raw_people (Models.people input_data)) /\
  Models.people input_data <> [] /\
  NoDup (Models.name <$> Models.people input_data) /\
  Forall (fun p => Models.name p <> "" /\
            Forall validated_constraint
              (Models.hard_constraints p ++ Models.soft_constraints p))
    (Models.people input_data).
Proof. apply parse_input_payload_valid_people. Qed.

(** X15. A key outside the allowed ones is rejected at every level, before
    anything else is looked at: in the root object, in a person and in a
    constraint, with a message that lists the unknown keys in sorted
    order. *)
Theorem unknown_fields_rejected (raw : gmap string json) (key : string) :
  key ∈ dom raw ->
  (key ∉ root_keys ->
     parse_payload raw = Throw (unknown_fields_error raw root_keys "root payload")) /\
  (forall index, key ∉ person_keys ->
     parse_person raw index =
     Throw (unknown_fields_error raw person_keys
              ("people[" +:+ format_int index +:+ "]"))) /\
  (forall path, key ∉ constraint_keys ->
     parse_constraint raw path = Throw (unknown_fields_error raw constraint_keys path)).
Proof.
  intros Hkey. split; [|split].
  - intros Hout. unfold parse_input_payload. fold root_keys.
    destruct (validate_object_keys_cases raw root_keys "root payload")
      as [[Hsub _]|[_ ->]]; [|done]. by destruct Hout; apply Hsub.
  - intros index Hout. unfold _parse_person. fold person_keys.
    destruct (validate_object_keys_cases raw person_keys
                ("people[" +:+ format_int index +:+ "]"))
      as [[Hsub _]|[_ ->]]; [|done]. by destruct Hout; apply Hsub.
  - intros path Hout. unfold _parse_constraint. fold constraint_keys.
    destruct (validate_object_keys_cases raw constraint_keys path)
      as [[Hsub _]|[_ ->]]; [|done]. by destruct Hout; apply Hsub.
Qed.

(** X16. A constraint whose [type] is a JSON array or object does not get an
    [InputValidationError]: the membership test on the set of known types
    raises [TypeError], as the value cannot be hashed. *)
Theorem parse_constraint_unhashable_type (raw : gmap string json) (path : string) :
  dom raw ⊆ constraint_keys ->
  ((exists l, raw !! "type" = Some (JList l)) ->
     parse_constraint raw path = Throw (TypeError "unhashable type: 'list'")) /\
  ((exists d, raw !! "type" = Some (JDict d)) ->
     parse_constraint raw path = Throw (TypeError "unhashable type: 'dict'")).
Proof.
  intros Hsub. unfold _parse_constraint. fold constraint_keys.
  destruct (validate_object_keys_cases raw constraint_keys path)
    as [[_ ->]|[Hno _]]; [|done].
  split; intros [x ->]; reflexivity.
Qed.

(** X17. A person given by a name alone, or with [null] in place of a constraint
    list, is accepted with no constraints of that severity. *)
Theorem parse_person_without_constraints (raw : gmap string json) (index : Z)
    (raw_name : string) :
  dom raw ⊆ person_keys ->
  raw !! "name" = Some (JStr raw_name) -> strip raw_name <> "" ->
  raw !! "hard_constraints" = None \/ raw !! "hard_constraints" = Some JNull ->
  raw !! "soft_constraints" = None \/ raw !! "soft_constraints" = Some JNull ->
  parse_person raw index =
  Return {| Models.name := strip raw_name;
            Models.hard_constraints := [];
            Models.soft_constraints := [] |}.
Proof.
  intros Hsub Hname Hne Hhard Hsoft. unfold _parse_person. fold person_keys.
  destruct (validate_object_keys_cases raw person_keys
              ("people[" +:+ format_int index +:+ "]")) as [[_ ->]|[Hno _]]; [|done].
  cbn. rewrite Hname. apply String.eqb_neq in Hne. rewrite Hne.
  by destruct Hhard as [-> | ->], Hsoft as [-> | ->].
Qed.

Lemma validated_constraint_meaning c :
  validated_constraint c ->
  (exists d,
     Models.describe c = "date:" +:+ isoformat d /\
     forall t, Models.overlaps_date c t = true <-> t = d) \/
  (exists s e,
     s <= e /\
     Models.describe c = "interval:" +:+ isoformat s +:+ ".." +:+ isoformat e /\
     forall t, Models.overlaps_date c t = true <-> s <= t <= e).
Proof.
  intros [[d ->]|(s & e & Hle & ->)].
  - left. exists d. split; [done|]. intros t. unfold Models.overlaps_date. cbn.
    rewrite Z.eqb_eq. split; by intros ->.
  - right. exists s, e. split; [done|]. split; [done|].
    intros t. unfold Models.overlaps_date. cbn.
    destruct (Z.leb_spec s t), (Z.leb_spec t e); cbn; split; (done || lia).
Qed.

(** X18. Every constraint of an accepted input is described in the
    [date:<ISO>] or [interval:<ISO>..<ISO>] form, never as
    ["interval:invalid"], and overlaps exactly its date, or exactly the
    dates from its start to its end. *)
Theorem validated_constraints_meaning (payload : gmap string json)
    (input_data : Models.InputData) :
  parse_payload payload = Return input_data ->
  Forall
    (fun p =>
       Forall
         (fun c =>
            (exists d,
               Models.describe c = "date:" +:+ isoformat d /\
               forall t, Models.overlaps_date c t = true <-> t = d) \/
            (exists s e,
               s <= e /\
               Models.describe c = "interval:" +:+ isoformat s +:+ ".." +:+ isoformat e /\
               forall t, Models.overlaps_date c t = true <-> s <= t <= e))
         (Models.hard_constraints p ++ Models.soft_constraints p))
    (Models.people input_data).
Proof.
  intros (_ & _ & _ & _ & _ & _ & Hall)%parse_input_payload_valid_people.
  eapply Forall_impl; [exact Hall|]. intros p [_ Hp].
  eapply Forall_impl; [exact Hp|]. apply validated_constraint_meaning.
Qed.

(** Moving [max_date] of an accepted payload to another date that is not
    before [min_date] changes nothing else. *)
Lemma parse_input_payload_max_date (payload : gmap string json)
    (input_data : Models.InputData) (raw_max : json) (d : Z) :
  parse_payload payload = Return input_data ->
  strptime_date (str raw_max) = Some d ->
  Models.min_date input_data <= d ->
  parse_payload (<["max_date" := raw_max]> payload) =
  Return {| Models.min_date := Models.min_date input_data;
            Models.max_date := d;
            Models.people := Models.people input_data |}.
Proof.
  intros H Hd Hle. unfold parse_input_payload in *. fold root_keys in *.
  destruct (validate_object_keys_cases payload root_keys "root payload")
    as [[Hsub Hkeys]|[Hsub Hkeys]]; rewrite Hkeys in H; [|discriminate].
  destruct (validate_object_keys_cases (<["max_date" := raw_max]> payload) root_keys
              "root payload") as [[_ ->]|[Hno _]].
  2:{ destruct Hno. rewrite dom_insert. intros k [Hk|Hk]%elem_of_union; [|by apply Hsub].
      apply elem_of_singleton in Hk. subst k.
      apply (bool_decide_unpack _). vm_compute. exact I. }
  cbn [mbind outcome_bind] in *.
  rewrite lookup_insert_ne by done. rewrite lookup_insert_eq.
  rewrite (lookup_insert_ne payload "max_date" "people") by done.
  destruct (payload !! "min_date") as [raw_min|]; [|discriminate].
  destruct (payload !! "max_date") as [raw_old|]; [|discriminate].
  unfold parse_iso_date in *.
  destruct (strptime_date (str raw_min)) as [dmin|] eqn:Hmin;
    cbn [mbind outcome_bind] in *; [|discriminate].
  destruct (strptime_date (str raw_old)) as [dmax|] eqn:Hmax;
    cbn [mbind outcome_bind] in H; [|discriminate].
  rewrite Hd. cbn [mbind outcome_bind].
  destruct (Z.ltb_spec dmax dmin) as [|_]; [discriminate|].
  destruct (payload !! "people") as [[ |b|n|x|s|raw_people|m]|]; try discriminate.
  destruct raw_people as [|raw rest]; [discriminate|].
  destruct (people_loop _ _ _ _ 0 (raw :: rest) [] ∅) as [ps|];
    cbn [mbind outcome_bind] in *; [|discriminate].
  injection H as <-. cbn in Hle. by destruct (Z.ltb_spec d dmin); [lia|].
Qed.

(** X19. Validation does not keep the generator from overflowing. When
    [strptime] yields dates only, an accepted input makes
    [generate_weekend_candidates] return a list unless its [max_date] is
    the last date, 9999-12-31, and then the call raises. That window is
    not excluded: an accepted payload whose [max_date] is replaced by a
    text that [strptime] reads as 9999-12-31 is accepted as well, with the
    same [min_date] and people, and the call on it raises
    [OverflowError]. *)
Theorem validated_input_generates (payload : gmap string json)
    (input_data : Models.InputData) :
  (forall s d, strptime_date s = Some d -> date_ok d) ->
  parse_payload payload = Return input_data ->
  let generate := Candidates.generate_weekend_candidates in
  (Models.max_date input_data <> _MAXORDINAL ->
     exists candidates,
       generate (Models.min_date input_data) (Models.max_date input_data) =
       Ok candidates) /\
  (Models.max_date input_data = _MAXORDINAL ->
     generate (Models.min_date input_data) (Models.max_date input_data) =
     Raise OverflowError) /\
  (forall raw_max, strptime_date (str raw_max) = Some _MAXORDINAL ->
     exists last,
       parse_payload (<["max_date" := raw_max]> payload) = Return last /\
       Models.min_date last = Models.min_date input_data /\
       Models.max_date last = _MAXORDINAL /\
       Models.people last = Models.people input_data /\
       generate (Models.min_date last) (Models.max_date last) = Raise OverflowError).
Proof.
  intros Hrange Haccepted.
  pose proof Haccepted as (_ & (vmin & vmax & _ & _ & Hmin & Hmax) & _)
    %parse_input_payload_valid_people.
  apply Hrange in Hmin, Hmax. intros generate. subst generate. split; [|split].
  - intros Hne. assert (Models.max_date input_data < _MAXORDINAL) as Hlt
      by (unfold date_ok in Hmax; lia).
    destruct (generate_weekend_candidates_ok _ _ Hmin Hlt) as (f & _ & _ & _ & ->).
    by eexists.
  - intros ->. by apply generate_weekend_candidates_overflow.
  - intros raw_max Hlast. eexists. split.
    { eapply parse_input_payload_max_date; [done|done|]. unfold date_ok in Hmin. lia. }
    cbn. repeat split. by apply generate_weekend_candidates_overflow.
Qed.

End ParsingFacts.

(** ** More scenarios *)

Section MoreScenarios.
Import Datetime Builtins Optimizer Parsing.

(** [strptime] on the date strings the scenarios use. *)
Definition sample_strptime (s : string) : option Z :=
  if String.eqb s "2024-06-01" then Some (_ymd2ord 2024 6 1)
  else if String.eqb s "2024-06-07" then Some (_ymd2ord 2024 6 7)
  else if String.eqb s "2024-06-08" then Some (_ymd2ord 2024 6 8)
  else if String.eqb s "2024-06-30" then Some (_ymd2ord 2024 6 30)
  else if String.eqb s "9999-12-31" then Some (_ymd2ord 9999 12 31)
  else None.

(** [str] and [repr] on strings and [None]. *)
Definition sample_str (v : json) : string :=
  match v with JStr s => s | _ => "None" end.
Definition sample_repr (v : json) : string :=
  match v with JStr s => "'" +:+ s +:+ "'" | _ => "None" end.

(** [strip] on names without surrounding blanks. *)
Definition sample_strip (s : string) : string := s.

Definition raw_date_constraint (d : string) : json :=
  JDict (list_to_map [("type", JStr "date"); ("date", JStr d)]).

Definition raw_interval_constraint (s e : string) : json :=
  JDict (list_to_map
           [("type", JStr "interval"); ("start_date", JStr s); ("end_date", JStr e)]).

Definition raw_ana : gmap string json :=
  list_to_map [("name", JStr "ana");
               ("hard_constraints", JList [raw_date_constraint "2024-06-08"])].

Definition raw_rui : gmap string json :=
  list_to_map [("name", JStr "rui");
               ("hard_constraints", JNull);
               ("soft_constraints",
                JList [raw_interval_constraint "2024-06-07" "2024-06-08"])].

Definition raw_june_2024 : gmap string json :=
  list_to_map [("min_date", JStr "2024-06-01");
               ("max_date", JStr "2024-06-30");
               ("people", JList [JDict raw_rui; JDict raw_ana])].

Example parse_june_2024 :
  parse_input_payload sample_strptime sample_str sample_repr sample_strip raw_june_2024 =
  Return (june_2024 [rui; ana]).
Proof. vm_compute. reflexivity. Qed.

(** A list as the [type] of a constraint surfaces from
    [parse_input_payload] as a [TypeError]. *)
Example parse_payload_list_type :
  parse_input_payload sample_strptime sample_str sample_repr sample_strip
    (<["people" :=
        JList [JDict (list_to_map
                 [("name", JStr "ana");
                  ("hard_constraints",
                   JList [JDict (list_to_map [("type", JList [JStr "date"])])])])]]>
       raw_june_2024) =
  Throw (TypeError "unhashable type: 'list'").
Proof. vm_compute. reflexivity. Qed.

Example parse_payload_duplicate_name :
  parse_input_payload sample_strptime sample_str sample_repr sample_strip
    (<["people" := JList [JDict raw_ana; JDict raw_rui; JDict raw_ana]]> raw_june_2024) =
  Throw (InputValidationError "Duplicate person name found: 'ana'.").
Proof. vm_compute. reflexivity. Qed.

Lemma sample_strptime_dates s d : sample_strptime s = Some d -> date_ok d.
Proof.
  unfold sample_strptime.
  repeat (destruct (String.eqb s _); [intros [= <-]; vm_compute; split; discriminate|]).
  discriminate.
Qed.

Lemma parse_input_payload_valid_witness :
  dom raw_june_2024 ⊆ root_keys /\
  (exists raw_min raw_max,
     raw_june_2024 !! "min_date" = Some raw_min /\
     raw_june_2024 !! "max_date" = Some raw_max /\
     sample_strptime (sample_str raw_min) = Some (Models.min_date (june_2024 [rui; ana])) /\
     sample_strptime (sample_str raw_max) = Some (Models.max_date (june_2024 [rui; ana]))) /\
  Models.min_date (june_2024 [rui; ana]) <= Models.max_date (june_2024 [rui; ana]) /\
  (exists raw_people,
     raw_june_2024 !! "people" = Some (JList raw_people) /\
     Forall2 (person_of sample_strip) raw_people (Models.people (june_2024 [rui; ana]))) /\
  Models.people (june_2024 [rui; ana]) <> [] /\
  NoDup (Models.name <$> Models.people (june_2024 [rui; ana])) /\
  Forall (fun p => Models.name p <> "" /\
            Forall validated_constraint
              (Models.hard_constraints p ++ Models.soft_constraints p))
    (Models.people (june_2024 [rui; ana])).
Proof.
  apply (parse_input_payload_valid sample_strptime sample_str sample_repr sample_strip
           raw_june_2024 (june_2024 [rui; ana])).
  vm_compute. reflexivity.
Defined.

Lemma unknown_fields_rejected_witness :
  ("colour" ∉ root_keys ->
     parse_input_payload sample_strptime sample_str sample_repr sample_strip
       (<["colour" := JStr "red"]> raw_june_2024) =
     Throw (unknown_fields_error (<["colour" := JStr "red"]> raw_june_2024)
              root_keys "root payload")) /\
  (forall index, "colour" ∉ person_keys ->
     _parse_person sample_strptime sample_str sample_repr sample_strip
       (<["colour" := JStr "red"]> raw_june_2024) index =
     Throw (unknown_fields_error (<["colour" := JStr "red"]> raw_june_2024) person_keys
              ("people[" +:+ format_int index +:+ "]"))) /\
  (forall path, "colour" ∉ constraint_keys ->
     _parse_constraint sample_strptime sample_str sample_repr
       (<["colour" := JStr "red"]> raw_june_2024) path =
     Throw (unknown_fields_error (<["colour" := JStr "red"]> raw_june_2024)
              constraint_keys path)).
Proof.
  apply (unknown_fields_rejected sample_strptime sample_str sample_repr sample_strip
           (<["colour" := JStr "red"]> raw_june_2024) "colour").
  apply elem_of_dom. exists (JStr "red"). vm_compute. reflexivity.
Defined.

Lemma parse_constraint_unhashable_type_witness :
  ((exists l, (<["type" := JList []]> ∅ : gmap string json) !! "type" = Some (JList l)) ->
     _parse_constraint sample_strptime sample_str sample_repr
       (<["type" := JList []]> ∅) "people[0].hard_constraints[0]" =
     Throw (TypeError "unhashable type: 'list'")) /\
  ((exists d, (<["type" := JList []]> ∅ : gmap string json) !! "type" = Some (JDict d)) ->
     _parse_constraint sample_strptime sample_str sample_repr
       (<["type" := JList []]> ∅) "people[0].hard_constraints[0]" =
     Throw (TypeError "unhashable type: 'dict'")).
Proof.
  apply (parse_constraint_unhashable_type sample_strptime sample_str sample_repr
           (<["type" := JList []]> ∅) "people[0].hard_constraints[0]").
  apply (bool_decide_unpack _). vm_compute. exact I.
Defined.

Lemma parse_person_without_constraints_witness :
  _parse_person sample_strptime sample_str sample_repr sample_strip
    (list_to_map [("name", JStr "eva"); ("soft_constraints", JNull)]) 2 =
  Return {| Models.name := "eva";
            Models.hard_constraints := [];
            Models.soft_constraints := [] |}.
Proof.
  apply (parse_person_without_constraints sample_strptime sample_str sample_repr
           sample_strip
           (list_to_map [("name", JStr "eva"); ("soft_constraints", JNull)]) 2 "eva").
  - apply (bool_decide_unpack _). vm_compute. exact I.
  - vm_compute. reflexivity.
  - vm_compute. discriminate.
  - left. vm_compute. reflexivity.
  - right. vm_compute. reflexivity.
Defined.

Lemma validated_constraints_meaning_witness :
  Forall
    (fun p =>
       Forall
         (fun c =>
            (exists d,
               Models.describe c = "date:" +:+ isoformat d /\
               forall t, Models.overlaps_date c t = true <-> t = d) \/
            (exists s e,
               s <= e /\
               Models.describe c = "interval:" +:+ isoformat s +:+ ".." +:+ isoformat e /\
               forall t, Models.overlaps_date c t = true <-> s <= t <= e))
         (Models.hard_constraints p ++ Models.soft_constraints p))
    (Models.people (june_2024 [rui; ana])).
Proof.
  apply (validated_constraints_meaning sample_strptime sample_str sample_repr
           sample_strip raw_june_2024 (june_2024 [rui; ana])).
  vm_compute. reflexivity.
Defined.

(** June 2024 read from its payload, and the same payload with its window
    running to the end of the calendar. *)
Lemma validated_input_generates_witness :
  (exists candidates,
     Candidates.generate_weekend_candidates
       (Models.min_date (june_2024 [rui; ana])) (Models.max_date (june_2024 [rui; ana])) =
     Ok candidates) /\
  (exists last,
     parse_input_payload sample_strptime sample_str sample_repr sample_strip
       (<["max_date" := JStr "9999-12-31"]> raw_june_2024) = Return last /\
     Models.min_date last = _ymd2ord 2024 6 1 /\
     Models.max_date last = _MAXORDINAL /\
     Models.people last = [rui; ana] /\
     Candidates.generate_weekend_candidates (Models.min_date last) (Models.max_date last) =
     Raise OverflowError).
Proof.
  destruct (validated_input_generates sample_strptime sample_str sample_repr sample_strip
              raw_june_2024 (june_2024 [rui; ana]))
    as (Hreturns & _ & Hlast).
  - exact sample_strptime_dates.
  - vm_compute. reflexivity.
  - split.
    + apply Hreturns. vm_compute. discriminate.
    + apply (Hlast (JStr "9999-12-31")). vm_compute. reflexivity.
Defined.

Lemma untouched_Forall input_data candidates :
  Forall
    (fun c =>
       Forall
         (fun p =>
            Forall (fun k => ~ covers (Candidates.days c) k)
              (Models.hard_constraints p ++ Models.soft_constraints p))
         (Models.people input_data))
    candidates ->
  untouched input_data candidates.
Proof.
  intros Hall c p k Hc Hp Hk.
  rewrite Forall_forall in Hall. specialize (Hall c Hc).
  rewrite Forall_forall in Hall. specialize (Hall p Hp).
  rewrite Forall_forall in Hall. by apply Hall.
Qed.

Lemma rank_weekends_untouched_witness :
  rank_weekends (june_2024 [rui; ana]) (weekend_seq (_ymd2ord 2024 6 14) 3) 2 =
  take 2 (feasible_evaluation (june_2024 [rui; ana])
            <$> weekend_seq (_ymd2ord 2024 6 14) 3).
Proof.
  apply (rank_weekends_untouched (june_2024 [rui; ana])
           (weekend_seq (_ymd2ord 2024 6 14) 3) 2).
  - apply untouched_Forall, (bool_decide_unpack _). vm_compute. exact I.
  - apply (bool_decide_unpack _). vm_compute. exact I.
Defined.

Lemma rank_weekends_order_independent_witness :
  rank_weekends (june_2024 [rui; ana]) (weekend_seq (_ymd2ord 2024 6 7) 4) 3 =
  rank_weekends (june_2024 [rui; ana]) (reverse (weekend_seq (_ymd2ord 2024 6 7) 4)) 3.
Proof.
  apply (rank_weekends_order_independent (june_2024 [rui; ana])
           (weekend_seq (_ymd2ord 2024 6 7) 4)
           (reverse (weekend_seq (_ymd2ord 2024 6 7) 4)) 3).
  - symmetry. apply reverse_Permutation.
  - apply (bool_decide_unpack _). vm_compute. exact I.
Defined.

Lemma generate_then_rank_witness :
  exists candidates,
    Candidates.generate_weekend_candidates
      (_ymd2ord 2024 6 1) (_ymd2ord 2024 6 30) = Ok candidates /\
    Forall
      (fun e =>
         let w := weekend e in
         weekday (Candidates.start_date w) = 4 /\
         Candidates.end_date w = Candidates.start_date w + 2 /\
         Candidates.days w =
           (Candidates.start_date w, Candidates.start_date w + 1,
            Candidates.start_date w + 2) /\
         _ymd2ord 2024 6 1 <= Candidates.start_date w /\
         Candidates.end_date w <= _ymd2ord 2024 6 30)
      (rank_weekends (june_2024 [rui; ana]) candidates 3) /\
    (0 < 3 ->
     (exists friday,
        weekday friday = 4 /\ _ymd2ord 2024 6 1 <= friday /\
        friday + 2 <= _ymd2ord 2024 6 30) ->
     rank_weekends (june_2024 [rui; ana]) candidates 3 <> []).
Proof.
  apply (generate_then_rank (june_2024 [rui; ana]) 3).
  - vm_compute. split; discriminate.
  - vm_compute. reflexivity.
Defined.

End MoreScenarios.

(** ** The winner, and asking for more results *)

Section RankedBest.
Import Datetime Builtins Optimizer.
Import Candidates(WeekendCandidate).
Import Models(InputData).

Lemma rank_weekends_take_pool input_data candidates top_n :
  exists pool,
    rank_weekends input_data candidates top_n = take (Z.to_nat top_n) pool /\
    ((omap (evaluate_weekend input_data) candidates <> [] /\
      pool = sort_by strict_key tuple_ltb
               (omap (evaluate_weekend input_data) candidates)) \/
     (omap (evaluate_weekend input_data) candidates = [] /\
      pool = sort_by fallback_key tuple_ltb
               (map (_evaluate_weekend_relaxed input_data) candidates))).
Proof.
  destruct (decide (omap (evaluate_weekend input_data) candidates = [])) as [Hnil|Hne];
    eexists; (split; [|by eauto]).
  - by apply rank_weekends_fallback_phase.
  - by apply rank_weekends_strict_phase.
Qed.

(** X20. Asking for fewer results gives a prefix of what asking for more gives:
    [top_n] never changes which evaluation stands at a rank. *)
Theorem rank_weekends_prefix (input_data : InputData)
    (candidates : list WeekendCandidate) (n m : Z) :
  n <= m ->
  rank_weekends input_data candidates n =
  take (Z.to_nat n) (rank_weekends input_data candidates m).
Proof.
  intros Hle.
  destruct (decide (omap (evaluate_weekend input_data) candidates = [])) as [Hnil|Hne].
  - rewrite !rank_weekends_fallback_phase by done. rewrite take_take. f_equal. lia.
  - rewrite !rank_weekends_strict_phase by done. rewrite take_take. f_equal. lia.
Qed.

Lemma rank_weekends_prefix_witness :
  rank_weekends (june_2024 [rui; ana]) (weekend_seq (_ymd2ord 2024 6 7) 4) 1 =
  take 1 (rank_weekends (june_2024 [rui; ana]) (weekend_seq (_ymd2ord 2024 6 7) 4) 3).
Proof.
  apply (rank_weekends_prefix (june_2024 [rui; ana])
           (weekend_seq (_ymd2ord 2024 6 7) 4) 1 3).
  lia.
Defined.

Lemma sorted_head_least {A} (key : A -> Z * Z * Z * Z) l (n : nat) best rest x :
  take n (sort_by key tuple_ltb l) = best :: rest -> x ∈ l ->
  tuple_le (key best) (key x).
Proof.
  intros Htake Hx.
  pose proof (sort_by_tuple_sorted key l) as Hs.
  rewrite <- (sort_by_perm key tuple_ltb) in Hx.
  destruct (sort_by key tuple_ltb l) as [|y l']; [by rewrite take_nil in Htake|].
  destruct n as [|n]; [done|]. cbn in Htake. injection Htake as -> _.
  apply StronglySorted_inv in Hs as [_ Hall].
  apply elem_of_cons in Hx as [->|Hx]; [by right|].
  rewrite Forall_forall in Hall. by apply Hall.
Qed.

Lemma tuple_le_first (a1 a2 a3 a4 b1 b2 b3 b4 : Z) :
  tuple_le (a1, a2, a3, a4) (b1, b2, b3, b4) -> a1 <= b1.
Proof. intros [H|[= -> _ _ _]]; [cbn in H|]; lia. Qed.

(** X21. The first result is the best one. In the strict phase no passing
    candidate has a smaller sort key, so none has more fully feasible
    people; in the fallback phase no candidate has a smaller sort key, so
    none has fewer hard-affected people. *)
Theorem rank_weekends_best_first (input_data : InputData)
    (candidates : list WeekendCandidate) (top_n : Z)
    (best : WeekendEvaluation) (rest : list WeekendEvaluation) :
  rank_weekends input_data candidates top_n = best :: rest ->
  (forall c e, c ∈ candidates -> evaluate_weekend input_data c = Some e ->
     tuple_le (strict_key best) (strict_key e) /\
     fully_feasible_people_count e <= fully_feasible_people_count best) /\
  (omap (evaluate_weekend input_data) candidates = [] ->
   forall c, c ∈ candidates ->
     tuple_le (fallback_key best) (fallback_key (_evaluate_weekend_relaxed input_data c)) /\
     hard_affected_people_count best <=
       hard_affected_people_count (_evaluate_weekend_relaxed input_data c)).
Proof.
  intros Hrank. split.
  - intros c e Hc He.
    assert (e ∈ omap (evaluate_weekend input_data) candidates) as Hin
      by (apply list_elem_of_omap; eauto).
    rewrite rank_weekends_strict_phase in Hrank
      by (intros Hnil; rewrite Hnil in Hin; by apply not_elem_of_nil in Hin).
    pose proof (sorted_head_least _ _ _ _ _ _ Hrank Hin) as Hle.
    split; [done|]. apply tuple_le_first in Hle. lia.
  - intros Hnil c Hc. rewrite rank_weekends_fallback_phase in Hrank by done.
    assert (_evaluate_weekend_relaxed input_data c
              ∈ map (_evaluate_weekend_relaxed input_data) candidates) as Hin
      by by apply list_elem_of_fmap_2.
    pose proof (sorted_head_least _ _ _ _ _ _ Hrank Hin) as Hle.
    split; [done|]. by apply tuple_le_first in Hle.
Qed.

(** X22. When the candidates are pairwise different, so are the weekends of the
    results: no weekend is returned twice. *)
Theorem ranked_weekends_distinct (input_data : InputData)
    (candidates : list WeekendCandidate) (top_n : Z) :
  NoDup candidates ->
  NoDup (weekend <$> rank_weekends input_data candidates top_n).
Proof.
  intros Hnd.
  destruct (rank_weekends_take_pool input_data candidates top_n)
    as (pool & -> & [[_ ->]|[_ ->]]);
    rewrite fmap_take; (eapply sublist_NoDup; [|apply sublist_take]);
    rewrite sort_by_perm.
  - eapply sublist_NoDup; [exact Hnd|].
    rewrite <- (list_fmap_id candidates) at 2.
    apply omap_fmap_sublist. intros c e He.
    by apply evaluate_weekend_Some in He as [_ ->].
  - assert (weekend <$> map (_evaluate_weekend_relaxed input_data) candidates
            = candidates) as ->; [|done].
    clear Hnd. induction candidates as [|c cs IH]; cbn; [done|]. by rewrite IH.
Qed.

Lemma ranked_weekends_distinct_witness :
  NoDup (weekend <$>
           rank_weekends (june_2024 [rui; ana]) (weekend_seq (_ymd2ord 2024 6 7) 4) 3).
Proof.
  apply (ranked_weekends_distinct (june_2024 [rui; ana])
           (weekend_seq (_ymd2ord 2024 6 7) 4) 3).
  apply ascending_by_start_NoDup, weekend_seq_ascending.
Defined.

End RankedBest.

Section BestScenario.
Import Datetime Builtins Optimizer.

Lemma rank_weekends_best_first_witness :
  let input_data := june_2024 [rui; ana] in
  let candidates := weekend_seq (_ymd2ord 2024 6 7) 4 in
  let best := feasible_evaluation input_data (weekend_of (_ymd2ord 2024 6 14)) in
  (forall c e, c ∈ candidates -> evaluate_weekend input_data c = Some e ->
     tuple_le (strict_key best) (strict_key e) /\
     fully_feasible_people_count e <= fully_feasible_people_count best) /\
  (omap (evaluate_weekend input_data) candidates = [] ->
   forall c, c ∈ candidates ->
     tuple_le (fallback_key best) (fallback_key (_evaluate_weekend_relaxed input_data c)) /\
     hard_affected_people_count best <=
       hard_affected_people_count (_evaluate_weekend_relaxed input_data c)).
Proof.
  apply (rank_weekends_best_first (june_2024 [rui; ana])
           (weekend_seq (_ymd2ord 2024 6 7) 4) 3
           (feasible_evaluation (june_2024 [rui; ana]) (weekend_of (_ymd2ord 2024 6 14)))
           (feasible_evaluation (june_2024 [rui; ana])
              <$> weekend_seq (_ymd2ord 2024 6 21) 2)).
  vm_compute. reflexivity.
Defined.

End BestScenario.

(** * [weekend_picker/reporting.py] *)

Module Reporting.
Import Datetime Builtins Optimizer.

(** What subscripting and iterating a payload can raise. *)
Inductive failure :=
| KeyError (key : json)
| IndexError
| TypeError.

Inductive attempt (A : Type) :=
| Done (a : A)
| Fails (e : failure).
Arguments Done {A} a.
Arguments Fails {A} e.

#[global] Instance attempt_ret : MRet attempt := @Done.
#[global] Instance attempt_bind : MBind attempt := fun A B k r =>
  match r with
  | Done a => k a
  | Fails e => Fails e
  end.

(** The line feed of ["\n".join(lines)]. *)
Definition newline : string := String (ascii_of_nat 10) EmptyString.

(** [_to_iso]. *)
Definition _to_iso (value : date) : string := isoformat value.

(** The dict built for one entry of [result.affected_people]. *)
Definition soft_impact_dict (impact : PersonSoftImpact.t) : json :=
  JDict (list_to_map
    [("name", JStr (PersonSoftImpact.person_name impact));
     ("overlapped_dates",
      JList (map (fun day => JStr (_to_iso day))
               (PersonSoftImpact.overlapped_dates impact)));
     ("matched_soft_constraints",
      JList (map JStr (PersonSoftImpact.matched_constraints impact)))]).

(** The dict built for one entry of [result.hard_affected_people]. *)
Definition hard_impact_dict (impact : PersonHardImpact.t) : json :=
  JDict (list_to_map
    [("name", JStr (PersonHardImpact.person_name impact));
     ("overlapped_dates",
      JList (map (fun day => JStr (_to_iso day))
               (PersonHardImpact.overlapped_dates impact)));
     ("matched_hard_constraints",
      JList (map JStr (PersonHardImpact.matched_constraints impact)))]).

(** The dict appended to [options] for the result at position [index]. *)
Definition option_dict (index : Z) (result : WeekendEvaluation) : json :=
  let affected_people := map soft_impact_dict (affected_people result) in
  JDict (list_to_map
    [("rank", JInt index);
     ("selection_mode", JStr (selection_mode result));
     ("weekend",
      JDict (list_to_map
        [("start_date", JStr (_to_iso (Candidates.start_date (weekend result))));
         ("end_date", JStr (_to_iso (Candidates.end_date (weekend result))));
         ("days",
          JList (map (fun day => JStr (_to_iso day))
                   (tuple_days (Candidates.days (weekend result)))))]));
     ("score",
      JDict (list_to_map
        [("hard_affected_people_count", JInt (hard_affected_people_count result));
         ("fully_feasible_people_count", JInt (fully_feasible_people_count result));
         ("affected_people_count", JInt (affected_people_count result));
         ("total_soft_overlap_days", JInt (total_soft_overlap_days result))]));
     ("hard_affected_people",
      JList (map hard_impact_dict (hard_affected_people result)));
     ("affected_people", JList affected_people)]).

(** [build_result_payload]; [enumerate(ranked_results, start=1)] numbers the
    results from 1. *)
Definition build_result_payload (input_data : Models.InputData)
    (ranked_results : list WeekendEvaluation) : gmap string json :=
  let options :=
    imap (fun i result => option_dict (Z.of_nat i + 1) result) ranked_results in
  list_to_map
    [("search_window",
      JDict (list_to_map
        [("min_date", JStr (_to_iso (Models.min_date input_data)));
         ("max_date", JStr (_to_iso (Models.max_date input_data)))]));
     ("participant_count", JInt (len (Models.people input_data)));
     ("options", JList options)].

(** [container[key]] for a string key: only a dict can be subscripted with
    one. *)
Definition getitem (container : json) (key : string) : attempt json :=
  match container with
  | JDict d =>
    match d !! key with
    | Some v => Done v
    | None => Fails (KeyError (JStr key))
    end
  | _ => Fails TypeError
  end.

(** [payload[key]] on the payload dict itself. *)
Definition payload_item (payload : gmap string json) (key : string) : attempt json :=
  match payload !! key with
  | Some v => Done v
  | None => Fails (KeyError (JStr key))
  end.

(** [bool(x)]. *)
Definition truthy (x : json) : bool :=
  match x with
  | JNull => false
  | JBool b => b
  | JInt n => negb (n =? 0)
  | JFloat f => negb (PrimFloat.eqb f PrimFloat.zero)
  | JStr s => negb (String.eqb s "")
  | JList l => match l with [] => false | _ :: _ => true end
  | JDict d => negb (bool_decide (d = ∅))
  end.

(** [x[0][key]]: the first element of a list; a character of a string,
    which takes no string subscript; in a dict, whose keys are strings, the
    key [0] is missing. *)
Definition first_item_field (x : json) (key : string) : attempt json :=
  match x with
  | JList (first :: _) => getitem first key
  | JList [] => Fails IndexError
  | JStr s => if String.eqb s "" then Fails IndexError else Fails TypeError
  | JDict _ => Fails (KeyError (JInt 0))
  | _ => Fails TypeError
  end.

Section Library.

(** [str(x)], as an f-string formats a value. *)
Variable str : json -> string.

(** [sep.join(x)] for an [x] that is not a list. *)
Variable join_non_list : string -> json -> attempt string.

(** [sep.join(x)]: every item of a list has to be a string. *)
Fixpoint join_items (items : list json) : attempt (list string) :=
  match items with
  | [] => Done []
  | JStr s :: rest => rest' ← join_items rest; Done (s :: rest')
  | _ :: _ => Fails TypeError
  end.

Definition join (sep : string) (x : json) : attempt string :=
  match x with
  | JList items => strings ← join_items items; Done (String.concat sep strings)
  | _ => join_non_list sep x
  end.

(** The body of the two [for person in ...] loops; [matched_key] is
    ["matched_hard_constraints"] or ["matched_soft_constraints"]. *)
Definition person_line (matched_key : string) (person : json) : attempt string :=
  raw_matched ← getitem person matched_key;
  matched ← join ", " raw_matched;
  raw_dates ← getitem person "overlapped_dates";
  dates ← join ", " raw_dates;
  name ← getitem person "name";
  Done ("  - " +:+ str name +:+ ": dates=[" +:+ dates +:+ "] "
        +:+ "constraints=[" +:+ matched +:+ "]").

Fixpoint person_loop (matched_key : string) (people : list json)
    (lines : list string) : attempt (list string) :=
  match people with
  | [] => Done lines
  | person :: rest =>
    line ← person_line matched_key person;
    person_loop matched_key rest (lines ++ [line])
  end.

(** [for person in people]: a truthy value that is not a list is a number,
    [True], or a non-empty string or dict, and the loop fails with
    [TypeError] on it, at once or at the subscript of its first item. *)
Definition for_person (matched_key : string) (people : json)
    (lines : list string) : attempt (list string) :=
  match people with
  | JList l => person_loop matched_key l lines
  | _ => Fails TypeError
  end.

(** The body of [for option in options]. *)
Definition option_lines (option : json) (lines : list string)
    : attempt (list string) :=
  weekend ← getitem option "weekend";
  score ← getitem option "score";
  rank ← getitem option "rank";
  start_date ← getitem weekend "start_date";
  end_date ← getitem weekend "end_date";
  hard_count ← getitem score "hard_affected_people_count";
  feasible_count ← getitem score "fully_feasible_people_count";
  affected_count ← getitem score "affected_people_count";
  overlap_days ← getitem score "total_soft_overlap_days";
  let lines :=
    lines ++
    ["- #" +:+ str rank +:+ " " +:+ str start_date +:+ " -> "
     +:+ str end_date +:+ ": "
     +:+ "hard_affected_people=" +:+ str hard_count +:+ ", "
     +:+ "fully_feasible=" +:+ str feasible_count +:+ ", "
     +:+ "affected_people=" +:+ str affected_count +:+ ", "
     +:+ "soft_overlap_days=" +:+ str overlap_days] in
  hard_affected ← getitem option "hard_affected_people";
  lines ←
    (if truthy hard_affected then
       for_person "matched_hard_constraints" hard_affected
         (lines ++ ["  hard_affected_people:"])
     else Done (lines ++ ["  hard_affected_people: none"]));
  affected ← getitem option "affected_people";
  if negb (truthy affected) then Done (lines ++ ["  affected_people: none"])
  else
    for_person "matched_soft_constraints" affected (lines ++ ["  affected_people:"]).

Fixpoint option_loop (options : list json) (lines : list string)
    : attempt (list string) :=
  match options with
  | [] => Done lines
  | option :: rest =>
    lines ← option_lines option lines;
    option_loop rest lines
  end.

(** [format_result_text]. *)
Definition format_result_text (payload : gmap string json) : attempt string :=
  window ← payload_item payload "search_window";
  min_date ← getitem window "min_date";
  max_date ← getitem window "max_date";
  participant_count ← payload_item payload "participant_count";
  let lines :=
    ["Search window: " +:+ str min_date +:+ " to " +:+ str max_date +:+ " "
     +:+ "(" +:+ str participant_count +:+ " participants)";
     ""] in
  let options := default (JList []) (payload !! "options") in
  if negb (truthy options) then
    Done (String.concat newline
            (lines ++
             ["No weekend candidates available in the selected date window."]))
  else
    top_mode ← first_item_field options "selection_mode";
    let lines :=
      if Parsing.eq_str top_mode "fallback_hard" then
        lines ++
        ["Fallback mode enabled: no weekend satisfied all hard constraints. "
         +:+ "Ranking now minimizes people affected by hard constraints first.";
         ""]
      else lines in
    let lines := lines ++ ["Top weekend options:"] in
    lines ←
      match options with
      | JList l => option_loop l lines
      | _ => Fails TypeError
      end;
    Done (String.concat newline lines).

End Library.
End Reporting.

(** ** The text report of a built payload *)

Section ReportingFacts.
Import Datetime Builtins Optimizer Reporting.
Context (str : json -> string) (join_non_list : string -> json -> attempt string).
Hypothesis str_of_str : forall s, str (JStr s) = s.
Hypothesis str_of_int : forall n, str (JInt n) = Parsing.format_int n.

Abbreviation person_line' := (person_line str join_non_list).
Abbreviation person_loop' := (person_loop str join_non_list).
Abbreviation option_lines' := (option_lines str join_non_list).
Abbreviation option_loop' := (option_loop str join_non_list).

(** The report line of one affected person. *)
Definition impact_text (name : string) (dates : list Z) (constraints : list string)
    : string :=
  "  - " +:+ name +:+ ": dates=[" +:+ String.concat ", " (map isoformat dates) +:+ "] "
  +:+ "constraints=[" +:+ String.concat ", " constraints +:+ "]".

Definition hard_impact_text (impact : PersonHardImpact.t) : string :=
  impact_text (PersonHardImpact.person_name impact)
    (PersonHardImpact.overlapped_dates impact)
    (PersonHardImpact.matched_constraints impact).

Definition soft_impact_text (impact : PersonSoftImpact.t) : string :=
  impact_text (PersonSoftImpact.person_name impact)
    (PersonSoftImpact.overlapped_dates impact)
    (PersonSoftImpact.matched_constraints impact).

(** The report lines of the evaluation ranked [rank]. *)
Definition evaluation_text (rank : Z) (e : WeekendEvaluation) : list string :=
  ["- #" +:+ Parsing.format_int rank +:+ " "
   +:+ isoformat (Candidates.start_date (weekend e)) +:+ " -> "
   +:+ isoformat (Candidates.end_date (weekend e)) +:+ ": "
   +:+ "hard_affected_people=" +:+ Parsing.format_int (hard_affected_people_count e) +:+ ", "
   +:+ "fully_feasible=" +:+ Parsing.format_int (fully_feasible_people_count e) +:+ ", "
   +:+ "affected_people=" +:+ Parsing.format_int (affected_people_count e) +:+ ", "
   +:+ "soft_overlap_days=" +:+ Parsing.format_int (total_soft_overlap_days e)]
  ++ match hard_affected_people e with
     | [] => ["  hard_affected_people: none"]
     | _ :: _ => "  hard_affected_people:" :: map hard_impact_text (hard_affected_people e)
     end
  ++ match affected_people e with
     | [] => ["  affected_people: none"]
     | _ :: _ => "  affected_people:" :: map soft_impact_text (affected_people e)
     end.

(** The report of a ranking, line by line. *)
Definition report_lines (input_data : Models.InputData)
    (ranked_results : list WeekendEvaluation) : list string :=
  ["Search window: " +:+ isoformat (Models.min_date input_data) +:+ " to "
   +:+ isoformat (Models.max_date input_data) +:+ " "
   +:+ "(" +:+ Parsing.format_int (len (Models.people input_data)) +:+ " participants)";
   ""]
  ++ match ranked_results with
     | [] => ["No weekend candidates available in the selected date window."]
     | first :: _ =>
       (if String.eqb (selection_mode first) "fallback_hard" then
          ["Fallback mode enabled: no weekend satisfied all hard constraints. "
           +:+ "Ranking now minimizes people affected by hard constraints first.";
           ""]
        else [])
       ++ ["Top weekend options:"]
       ++ concat (imap (fun i e => evaluation_text (Z.of_nat i + 1) e) ranked_results)
     end.

Lemma join_items_strings (l : list string) : join_items (map JStr l) = Done l.
Proof. induction l as [|s l IH]; cbn; [done|]. by rewrite IH. Qed.

Lemma join_strings sep (l : list string) :
  join join_non_list sep (JList (map JStr l)) = Done (String.concat sep l).
Proof. unfold join. by rewrite join_items_strings. Qed.

Lemma join_dates sep (dates : list Z) :
  join join_non_list sep (JList (map (fun day => JStr (_to_iso day)) dates)) =
  Done (String.concat sep (map isoformat dates)).
Proof. rewrite <- join_strings. by rewrite map_map. Qed.

Lemma person_line_hard impact :
  person_line' "matched_hard_constraints" (hard_impact_dict impact) =
  Done (hard_impact_text impact).
Proof.
  unfold person_line.
  change (getitem (hard_impact_dict impact) "matched_hard_constraints")
    with (Done (JList (map JStr (PersonHardImpact.matched_constraints impact)))).
  cbn [mbind attempt_bind]. rewrite join_strings. cbn [mbind attempt_bind].
  change (getitem (hard_impact_dict impact) "overlapped_dates")
    with (Done (JList (map (fun day => JStr (_to_iso day))
                         (PersonHardImpact.overlapped_dates impact)))).
  cbn [mbind attempt_bind]. rewrite join_dates. cbn [mbind attempt_bind].
  change (getitem (hard_impact_dict impact) "name")
    with (Done (JStr (PersonHardImpact.person_name impact))).
  cbn [mbind attempt_bind]. by rewrite str_of_str.
Qed.

Lemma person_line_soft impact :
  person_line' "matched_soft_constraints" (soft_impact_dict impact) =
  Done (soft_impact_text impact).
Proof.
  unfold person_line.
  change (getitem (soft_impact_dict impact) "matched_soft_constraints")
    with (Done (JList (map JStr (PersonSoftImpact.matched_constraints impact)))).
  cbn [mbind attempt_bind]. rewrite join_strings. cbn [mbind attempt_bind].
  change (getitem (soft_impact_dict impact) "overlapped_dates")
    with (Done (JList (map (fun day => JStr (_to_iso day))
                         (PersonSoftImpact.overlapped_dates impact)))).
  cbn [mbind attempt_bind]. rewrite join_dates. cbn [mbind attempt_bind].
  change (getitem (soft_impact_dict impact) "name")
    with (Done (JStr (PersonSoftImpact.person_name impact))).
  cbn [mbind attempt_bind]. by rewrite str_of_str.
Qed.

Lemma person_loop_hard impacts lines :
  person_loop' "matched_hard_constraints" (map hard_impact_dict impacts) lines =
  Done (lines ++ map hard_impact_text impacts).
Proof.
  revert lines. induction impacts as [|impact l IH]; intros lines; cbn [map person_loop].
  - by rewrite app_nil_r.
  - rewrite person_line_hard. cbn [mbind attempt_bind]. rewrite IH.
    by rewrite <- app_assoc.
Qed.

Lemma person_loop_soft impacts lines :
  person_loop' "matched_soft_constraints" (map soft_impact_dict impacts) lines =
  Done (lines ++ map soft_impact_text impacts).
Proof.
  revert lines. induction impacts as [|impact l IH]; intros lines; cbn [map person_loop].
  - by rewrite app_nil_r.
  - rewrite person_line_soft. cbn [mbind attempt_bind]. rewrite IH.
    by rewrite <- app_assoc.
Qed.

Lemma option_lines_built rank e lines :
  option_lines' (option_dict rank e) lines = Done (lines ++ evaluation_text rank e).
Proof.
  unfold option_lines.
  change (getitem (option_dict rank e) "weekend") with
    (Done (JDict (list_to_map
       [("start_date", JStr (_to_iso (Candidates.start_date (weekend e))));
        ("end_date", JStr (_to_iso (Candidates.end_date (weekend e))));
        ("days",
         JList (map (fun day => JStr (_to_iso day))
                  (tuple_days (Candidates.days (weekend e)))))]))).
  change (getitem (option_dict rank e) "score") with
    (Done (JDict (list_to_map
       [("hard_affected_people_count", JInt (hard_affected_people_count e));
        ("fully_feasible_people_count", JInt (fully_feasible_people_count e));
        ("affected_people_count", JInt (affected_people_count e));
        ("total_soft_overlap_days", JInt (total_soft_overlap_days e))]))).
  change (getitem (option_dict rank e) "rank") with (Done (JInt rank)).
  change (getitem (option_dict rank e) "hard_affected_people") with
    (Done (JList (map hard_impact_dict (hard_affected_people e)))).
  change (getitem (option_dict rank e) "affected_people") with
    (Done (JList (map soft_impact_dict (affected_people e)))).
  cbn [mbind attempt_bind].
  change (getitem (JDict (list_to_map _)) "start_date") with
    (Done (JStr (_to_iso (Candidates.start_date (weekend e))))).
  change (getitem (JDict (list_to_map _)) "end_date") with
    (Done (JStr (_to_iso (Candidates.end_date (weekend e))))).
  change (getitem (JDict (list_to_map _)) "hard_affected_people_count") with
    (Done (JInt (hard_affected_people_count e))).
  change (getitem (JDict (list_to_map _)) "fully_feasible_people_count") with
    (Done (JInt (fully_feasible_people_count e))).
  change (getitem (JDict (list_to_map _)) "affected_people_count") with
    (Done (JInt (affected_people_count e))).
  change (getitem (JDict (list_to_map _)) "total_soft_overlap_days") with
    (Done (JInt (total_soft_overlap_days e))).
  cbn [mbind attempt_bind]. rewrite !str_of_str, !str_of_int.
  unfold evaluation_text, _to_iso.
  destruct (hard_affected_people e) as [|h hs] eqn:Hh;
    destruct (affected_people e) as [|a rest] eqn:Ha;
    cbn [map truthy negb for_person mbind attempt_bind].
  - by rewrite <- !app_assoc.
  - rewrite <- (map_cons soft_impact_dict), person_loop_soft. by rewrite <- !app_assoc.
  - rewrite <- (map_cons hard_impact_dict), person_loop_hard. cbn [mbind attempt_bind].
    by rewrite <- !app_assoc.
  - rewrite <- (map_cons hard_impact_dict), person_loop_hard. cbn [mbind attempt_bind].
    rewrite <- (map_cons soft_impact_dict), person_loop_soft. by rewrite <- !app_assoc.
Qed.

Lemma option_loop_built (offset : Z) ranked lines :
  option_loop' (imap (fun i e => option_dict (Z.of_nat i + offset) e) ranked) lines =
  Done (lines ++
        concat (imap (fun i e => evaluation_text (Z.of_nat i + offset) e) ranked)).
Proof.
  revert offset lines. induction ranked as [|e l IH]; intros offset lines.
  - cbn. by rewrite app_nil_r.
  - cbn [imap option_loop concat]. rewrite option_lines_built. cbn [mbind attempt_bind].
    rewrite (imap_ext _ (fun i e => option_dict (Z.of_nat i + (offset + 1)) e))
      by (intros i x _; unfold compose; f_equal; lia).
    rewrite (imap_ext (_ ∘ S) (fun i e => evaluation_text (Z.of_nat i + (offset + 1)) e))
      by (intros i x _; unfold compose; f_equal; lia).
    rewrite IH. by rewrite <- app_assoc.
Qed.

Lemma format_result_text_built (input_data : Models.InputData)
    (ranked_results : list WeekendEvaluation) :
  format_result_text str join_non_list (build_result_payload input_data ranked_results) =
  Done (String.concat newline (report_lines input_data ranked_results)).
Proof.
  unfold format_result_text.
  change (payload_item (build_result_payload input_data ranked_results) "search_window")
    with (Done (JDict (list_to_map
            [("min_date", JStr (_to_iso (Models.min_date input_data)));
             ("max_date", JStr (_to_iso (Models.max_date input_data)))]))).
  change (payload_item (build_result_payload input_data ranked_results)
            "participant_count")
    with (Done (JInt (len (Models.people input_data)))).
  change (build_result_payload input_data ranked_results !! "options")
    with (Some (JList (imap (fun i result => option_dict (Z.of_nat i + 1) result)
                         ranked_results))).
  cbn [mbind attempt_bind default from_option id].
  change (getitem (JDict (list_to_map _)) "min_date") with
    (Done (JStr (_to_iso (Models.min_date input_data)))).
  change (getitem (JDict (list_to_map _)) "max_date") with
    (Done (JStr (_to_iso (Models.max_date input_data)))).
  cbn [mbind attempt_bind]. rewrite !str_of_str, !str_of_int.
  unfold report_lines, _to_iso.
  destruct ranked_results as [|first rest]; [done|].
  set (options := imap (fun i result => option_dict (Z.of_nat i + 1) result)
                    (first :: rest)).
  assert (truthy (JList options) = true) as -> by done.
  assert (first_item_field (JList options) "selection_mode"
          = Done (JStr (selection_mode first))) as -> by done.
  cbn [negb mbind attempt_bind Parsing.eq_str]. subst options.
  rewrite option_loop_built. cbn [mbind attempt_bind].
  by destruct (String.eqb (selection_mode first) "fallback_hard").
Qed.

(** X24. [format_result_text] never fails on a payload that
    [build_result_payload] built, and the text it returns is the report of
    the ranking, line by line: the search window with the number of
    participants; then, for an empty ranking, the notice that no candidate
    is available; otherwise the fallback notice exactly when the first
    result is tagged ["fallback_hard"], and the results numbered from 1 in
    ranking order, each with its hard and soft impacts by person or
    [none]. *)
Theorem format_result_text_of_payload (input_data : Models.InputData)
    (ranked_results : list WeekendEvaluation) :
  format_result_text str join_non_list (build_result_payload input_data ranked_results) =
  Done (String.concat newline (report_lines input_data ranked_results)).
Proof. apply format_result_text_built. Qed.

End ReportingFacts.

(** ** Reports of rankings *)

Section ReportScenarios.
Import Datetime Builtins Optimizer Reporting.

(** [str] on the strings and integers a built payload holds. *)
Definition report_str (v : json) : string :=
  match v with
  | JStr s => s
  | JInt n => Parsing.format_int n
  | _ => "None"
  end.

(** No [join] on anything but a list. *)
Definition no_join (sep : string) (x : json) : attempt string := Fails TypeError.

Example fallback_report :
  format_result_text report_str no_join
    (build_result_payload (one_weekend [ana])
       (rank_weekends (one_weekend [ana]) [first_weekend_of_june] 3)) =
  Done (String.concat newline
    ["Search window: 2024-06-07 to 2024-06-09 (1 participants)";
     "";
     "Fallback mode enabled: no weekend satisfied all hard constraints. Ranking now minimizes people affected by hard constraints first.";
     "";
     "Top weekend options:";
     "- #1 2024-06-07 -> 2024-06-09: hard_affected_people=1, fully_feasible=1, affected_people=0, soft_overlap_days=0";
     "  hard_affected_people:";
     "  - ana: dates=[2024-06-08] constraints=[date:2024-06-08]";
     "  affected_people: none"]).
Proof. vm_compute. reflexivity. Qed.

Lemma format_result_text_of_payload_witness :
  format_result_text report_str no_join
    (build_result_payload (june_2024 [rui; ana])
       (rank_weekends (june_2024 [rui; ana]) (weekend_seq (_ymd2ord 2024 6 7) 4) 3)) =
  Done (String.concat newline
          (report_lines (june_2024 [rui; ana])
             (rank_weekends (june_2024 [rui; ana])
                (weekend_seq (_ymd2ord 2024 6 7) 4) 3))).
Proof.
  apply (format_result_text_of_payload report_str no_join).
  - reflexivity.
  - reflexivity.
Defined.

End ReportScenarios.

Section ReportOfRanking.
Import Datetime Builtins Optimizer Reporting.
Context (str : json -> string) (join_non_list : string -> json -> attempt string).

(** The notice that ranking fell back. *)
Definition fallback_notice : string :=
  "Fallback mode enabled: no weekend satisfied all hard constraints. "
  +:+ "Ranking now minimizes people affected by hard constraints first.".

(** The first line of every report. *)
Definition window_line (input_data : Models.InputData) : string :=
  "Search window: " +:+ isoformat (Models.min_date input_data) +:+ " to "
  +:+ isoformat (Models.max_date input_data) +:+ " "
  +:+ "(" +:+ Parsing.format_int (len (Models.people input_data)) +:+ " participants)".

(** How a report that carries the fallback notice begins: the search
    window, a blank line, and the notice on a line of its own. *)
Definition fallback_opening (input_data : Models.InputData) : string :=
  window_line input_data +:+ newline +:+ newline +:+ fallback_notice +:+ newline.

Lemma prefix_app_same (a b c : string) :
  String.prefix (a +:+ b) (a +:+ c) = String.prefix b c.
Proof.
  induction a as [|x a IH]; [done|].
  change (String.prefix (String x (a +:+ b)) (String x (a +:+ c)) = String.prefix b c).
  cbn [String.prefix]. by destruct (ascii_dec x x).
Qed.

Lemma concat_cons (sep x : string) (l : list string) :
  String.concat sep (x :: l) =
  x +:+ match l with [] => "" | _ :: _ => sep +:+ String.concat sep l end.
Proof.
  destruct l as [|y l]; cbn [String.concat]; [|done].
  induction x as [|c x IH]; [done|].
  change (String c x = String c (x +:+ "")). by f_equal.
Qed.

(** The report opens with the fallback notice exactly when there is a first
    result and it is tagged ["fallback_hard"]. *)
Lemma fallback_opening_of_report input_data ranked :
  String.prefix (fallback_opening input_data)
    (String.concat newline (report_lines input_data ranked)) = true <->
  exists first rest, ranked = first :: rest /\ selection_mode first = "fallback_hard".
Proof.
  unfold report_lines, fallback_opening.
  change ("Search window: " +:+ _) with (window_line input_data).
  cbn [app]. rewrite concat_cons, prefix_app_same.
  destruct ranked as [|first rest].
  - split; [|by intros (? & ? & ? & _)]. vm_compute. discriminate.
  - destruct (String.eqb_spec (selection_mode first) "fallback_hard") as [Hmode|Hmode].
    + split; [by exists first, rest|]. intros _. cbn [app].
      rewrite (concat_cons newline "" (_ :: _)).
      rewrite (concat_cons newline _ ("" :: _)). reflexivity.
    + split; [|intros (? & ? & [= <- <-] & ?); done]. cbn [app].
      rewrite (concat_cons newline "" (_ :: _)).
      rewrite (concat_cons newline "Top weekend options:"). vm_compute. discriminate.
Qed.

(** Ranking fell back exactly when its first result is tagged
    ["fallback_hard"]. *)
Lemma ranking_fell_back input_data candidates top_n :
  (exists first rest,
     rank_weekends input_data candidates top_n = first :: rest /\
     selection_mode first = "fallback_hard") <->
  0 < top_n /\ candidates <> [] /\
  omap (evaluate_weekend input_data) candidates = [].
Proof.
  split.
  - intros (first & rest & Hrank & Hmode).
    assert (first ∈ rank_weekends input_data candidates top_n) as Hin
      by (rewrite Hrank; by left).
    apply ranked_elem in Hin as [(c & Hc & He)|(Hnil & c & Hc & _)].
    + apply evaluate_weekend_mode in He. congruence.
    + split; [|split; [by intros ->; apply not_elem_of_nil in Hc|done]].
      destruct (Z.leb_spec top_n 0) as [Hle|]; [|done].
      unfold rank_weekends in Hrank. apply Z.leb_le in Hle. by rewrite Hle in Hrank.
  - intros (Hpos & Hne & Hnil).
    pose proof (rank_weekends_nonempty input_data candidates top_n Hpos Hne) as Hsome.
    destruct (rank_weekends input_data candidates top_n) as [|first rest] eqn:Hrank;
      [done|].
    exists first, rest. split; [done|].
    assert (first ∈ rank_weekends input_data candidates top_n) as Hin
      by (rewrite Hrank; by left).
    apply ranked_elem in Hin as [(c & Hc & He)|(_ & c & Hc & ->)]; [|done].
    assert (first ∈ omap (evaluate_weekend input_data) candidates) as Hin
      by (apply list_elem_of_omap; eauto).
    rewrite Hnil in Hin. by apply not_elem_of_nil in Hin.
Qed.

(** X25. The text report of what [rank_weekends] returns opens with the
    search window, a blank line and the fallback notice exactly when
    ranking fell back: [top_n > 0], there is a candidate, and none passes
    strict evaluation. In every other report the third line is another
    one. The notice is looked for in its place, as the name of a person
    can hold any text. *)
Theorem report_of_ranking_fallback_notice (input_data : Models.InputData)
    (candidates : list Candidates.WeekendCandidate) (top_n : Z) :
  (forall s, str (JStr s) = s) ->
  (forall n, str (JInt n) = Parsing.format_int n) ->
  exists text,
    format_result_text str join_non_list
      (build_result_payload input_data (rank_weekends input_data candidates top_n)) =
    Done text /\
    (String.prefix (fallback_opening input_data) text = true <->
     0 < top_n /\ candidates <> [] /\
     omap (evaluate_weekend input_data) candidates = []).
Proof.
  intros Hstr Hint. eexists. split; [by apply format_result_text_built|].
  rewrite fallback_opening_of_report. apply ranking_fell_back.
Qed.

(** X26. A payload with a search window and a participant count but without
    options, or with [null] or an empty list for them, is reported as
    having no candidate. *)
Theorem format_result_text_no_options (payload window : gmap string json)
    (min_date max_date participant_count : json) :
  payload !! "search_window" = Some (JDict window) ->
  window !! "min_date" = Some min_date ->
  window !! "max_date" = Some max_date ->
  payload !! "participant_count" = Some participant_count ->
  payload !! "options" = None \/ payload !! "options" = Some JNull \/
    payload !! "options" = Some (JList []) ->
  format_result_text str join_non_list payload =
  Done (String.concat newline
          ["Search window: " +:+ str min_date +:+ " to " +:+ str max_date +:+ " "
           +:+ "(" +:+ str participant_count +:+ " participants)";
           "";
           "No weekend candidates available in the selected date window."]).
Proof.
  intros Hw Hmin Hmax Hcount Hopts. unfold format_result_text, payload_item.
  rewrite Hw, Hcount. cbn [mbind attempt_bind getitem]. rewrite Hmin, Hmax.
  cbn [mbind attempt_bind].
  by destruct Hopts as [-> |[-> | ->]].
Qed.

End ReportOfRanking.

Section ReportWitnesses.
Import Datetime Builtins Optimizer Reporting.

(** A strict ranking whose report does not open with the notice. *)
Example strict_report_opening :
  exists text,
    format_result_text report_str no_join
      (build_result_payload (june_2024 [rui; ana])
         (rank_weekends (june_2024 [rui; ana]) (weekend_seq (_ymd2ord 2024 6 7) 4) 3)) =
    Done text /\
    String.prefix (fallback_opening (june_2024 [rui; ana])) text = false /\
    String.prefix
      (window_line (june_2024 [rui; ana]) +:+ newline +:+ newline
       +:+ "Top weekend options:" +:+ newline) text = true.
Proof. eexists. vm_compute. repeat split. Qed.

Lemma report_of_ranking_fallback_notice_witness :
  exists text,
    format_result_text report_str no_join
      (build_result_payload (june_2024 [ana; eva; gil])
         (rank_weekends (june_2024 [ana; eva; gil])
            (weekend_seq (_ymd2ord 2024 6 7) 4) 3)) =
    Done text /\
    (String.prefix (fallback_opening (june_2024 [ana; eva; gil])) text = true <->
     0 < 3 /\ weekend_seq (_ymd2ord 2024 6 7) 4 <> [] /\
     omap (evaluate_weekend (june_2024 [ana; eva; gil]))
       (weekend_seq (_ymd2ord 2024 6 7) 4) = []).
Proof.
  apply (report_of_ranking_fallback_notice report_str no_join (june_2024 [ana; eva; gil])
           (weekend_seq (_ymd2ord 2024 6 7) 4) 3).
  - reflexivity.
  - reflexivity.
Defined.

Lemma format_result_text_no_options_witness :
  format_result_text report_str no_join
    (delete "options" (build_result_payload (june_2024 [rui; ana]) [])) =
  Done (String.concat newline
          ["Search window: " +:+ report_str (JStr "2024-06-01") +:+ " to "
           +:+ report_str (JStr "2024-06-30") +:+ " "
           +:+ "(" +:+ report_str (JInt 2) +:+ " participants)";
           "";
           "No weekend candidates available in the selected date window."]).
Proof.
  apply (format_result_text_no_options report_str no_join
           (delete "options" (build_result_payload (june_2024 [rui; ana]) []))
           (list_to_map [("min_date", JStr "2024-06-01"); ("max_date", JStr "2024-06-30")])).
  - vm_compute. reflexivity.
  - vm_compute. reflexivity.
  - vm_compute. reflexivity.
  - vm_compute. reflexivity.
  - left. vm_compute. reflexivity.
Defined.

End ReportWitnesses.

(** ** The order of the people *)

Section PeopleOrder.
Import Datetime Builtins Optimizer.
Import Candidates(WeekendCandidate).
Import Models(InputData).

(** What a ranked evaluation says apart from the per-person details. *)
Definition summary (e : WeekendEvaluation)
    : WeekendCandidate * string * (Z * Z * Z * Z) :=
  (weekend e, selection_mode e,
   (hard_affected_people_count e, fully_feasible_people_count e,
    affected_people_count e, total_soft_overlap_days e)).

Lemma summary_eq e1 e2 :
  summary e1 = summary e2 ->
  weekend e1 = weekend e2 /\ selection_mode e1 = selection_mode e2 /\
  hard_affected_people_count e1 = hard_affected_people_count e2 /\
  fully_feasible_people_count e1 = fully_feasible_people_count e2 /\
  affected_people_count e1 = affected_people_count e2 /\
  total_soft_overlap_days e1 = total_soft_overlap_days e2.
Proof. unfold summary. by intros [= -> -> -> -> -> ->]. Qed.

Lemma sum_Permutation (l1 l2 : list Z) : l1 ≡ₚ l2 -> Builtins.sum l1 = Builtins.sum l2.
Proof.
  induction 1 as [|x l1 l2 _ IH|x y l|l1 l2 l3 _ IH1 _ IH2];
    rewrite ?sum_cons; [done|lia|lia|congruence].
Qed.

Lemma relaxed_summary_people input1 input2 c :
  Models.people input1 ≡ₚ Models.people input2 ->
  summary (_evaluate_weekend_relaxed input1 c) =
  summary (_evaluate_weekend_relaxed input2 c).
Proof.
  intros Hperm. unfold summary, _evaluate_weekend_relaxed, len. cbn.
  pose proof (omap_Permutation
    (fun person => _evaluate_person_hard_impact person (Candidates.days c))
    _ _ Hperm) as Hhard.
  pose proof (omap_Permutation
    (fun person => _evaluate_person_soft_impact person (Candidates.days c))
    _ _ Hperm) as Hsoft.
  rewrite (Permutation_length Hperm), (Permutation_length Hhard),
    (Permutation_length Hsoft).
  by rewrite (sum_Permutation _ _
    (Permutation_map
       (fun person_impact =>
          Z.of_nat (length (PersonSoftImpact.overlapped_dates person_impact)))
       Hsoft)).
Qed.

Lemma insert_by_Forall2 {A K} (key : A -> K) ltb (R : A -> A -> Prop) x1 x2 l1 l2 :
  (forall a b, R a b -> key a = key b) ->
  R x1 x2 -> Forall2 R l1 l2 ->
  Forall2 R (insert_by key ltb x1 l1) (insert_by key ltb x2 l2).
Proof.
  intros Hkey Hx Hl. induction Hl as [|y1 y2 l1 l2 Hy Hl IH]; cbn.
  - by repeat constructor.
  - rewrite (Hkey _ _ Hx), (Hkey _ _ Hy).
    destruct (ltb (key y2) (key x2)); by repeat constructor.
Qed.

Lemma sort_by_Forall2 {A K} (key : A -> K) ltb (R : A -> A -> Prop) l1 l2 :
  (forall a b, R a b -> key a = key b) ->
  Forall2 R l1 l2 -> Forall2 R (sort_by key ltb l1) (sort_by key ltb l2).
Proof.
  intros Hkey. induction 1 as [|x1 x2 l1 l2 Hx Hl IH]; [constructor|].
  change (Forall2 R (insert_by key ltb x1 (sort_by key ltb l1))
            (insert_by key ltb x2 (sort_by key ltb l2))).
  by apply insert_by_Forall2.
Qed.

(** X23. Listing the people in another order changes neither which weekends
    are returned, nor their order, their tags or their four counts. *)
Theorem rank_weekends_people_order (input1 input2 : InputData)
    (candidates : list WeekendCandidate) (top_n : Z) :
  Models.people input1 ≡ₚ Models.people input2 ->
  summary <$> rank_weekends input1 candidates top_n =
  summary <$> rank_weekends input2 candidates top_n.
Proof.
  intros Hperm.
  set (R := fun e1 e2 : WeekendEvaluation => summary e1 = summary e2).
  assert (forall l1 l2, Forall2 R l1 l2 -> summary <$> l1 = summary <$> l2) as Hmap.
  { induction 1 as [|???? Hx _ IH]; cbn; [done|]. by rewrite Hx, IH. }
  apply Hmap.
  assert (Forall2 R (map (_evaluate_weekend_relaxed input1) candidates)
            (map (_evaluate_weekend_relaxed input2) candidates)) as Hrelaxed.
  { induction candidates as [|c cs IH]; cbn; constructor; [|done].
    by apply relaxed_summary_people. }
  assert (Forall2 R (omap (evaluate_weekend input1) candidates)
            (omap (evaluate_weekend input2) candidates)) as Hstrict.
  { clear Hrelaxed. induction candidates as [|c cs IH]; cbn; [constructor|].
    pose proof (relaxed_summary_people input1 input2 c Hperm) as Hc.
    apply summary_eq in Hc as (Hw & _ & Hh & Hf & Ha & Ht).
    unfold evaluate_weekend. rewrite Hh.
    destruct (0 <? _); [done|]. constructor; [|done].
    unfold R, summary. cbn [weekend selection_mode hard_affected_people_count
      fully_feasible_people_count affected_people_count total_soft_overlap_days].
    by rewrite Hw, Hf, Ha, Ht. }
  assert (forall a b, R a b -> strict_key a = strict_key b) as Hsk.
  { intros a b (Hw & _ & _ & Hf & Ha & Ht)%summary_eq.
    unfold strict_key. by rewrite Hw, Hf, Ha, Ht. }
  assert (forall a b, R a b -> fallback_key a = fallback_key b) as Hfk.
  { intros a b (Hw & _ & Hh & _ & Ha & Ht)%summary_eq.
    unfold fallback_key. by rewrite Hw, Hh, Ha, Ht. }
  destruct (decide (omap (evaluate_weekend input1) candidates = [])) as [Hnil|Hne].
  - assert (omap (evaluate_weekend input2) candidates = []) as Hnil'
      by (rewrite Hnil in Hstrict; by apply Forall2_nil_inv_l in Hstrict).
    rewrite !rank_weekends_fallback_phase by done.
    by apply Forall2_take, sort_by_Forall2.
  - assert (omap (evaluate_weekend input2) candidates <> []) as Hne'
      by (intros Hnil'; rewrite Hnil' in Hstrict;
          by apply Forall2_nil_inv_r in Hstrict).
    rewrite !rank_weekends_strict_phase by done.
    by apply Forall2_take, sort_by_Forall2.
Qed.

Lemma rank_weekends_people_order_witness :
  summary <$> rank_weekends (june_2024 [rui; ana]) (weekend_seq (_ymd2ord 2024 6 7) 4) 3 =
  summary <$> rank_weekends (june_2024 [ana; rui]) (weekend_seq (_ymd2ord 2024 6 7) 4) 3.
Proof.
  apply (rank_weekends_people_order (june_2024 [rui; ana]) (june_2024 [ana; rui])
           (weekend_seq (_ymd2ord 2024 6 7) 4) 3).
  apply Permutation_swap.
Defined.

End PeopleOrder.
